(** * XSTOCK backend: the prediction pipeline

    A shallow embedding of the prediction pipeline of the XSTOCK backend
    (services/prediction_service.py, services/explanation_service.py,
    services/stock_service.py, services/model_loader.py and
    repository/prediction_repository.py) together with the properties
    of its natural-language specification.

    Conventions of the embedding.
    - A Python [float] is an exact rational ([Q]); [None] is the [None] of
      [option].  No rounding error of binary floating point is modelled;
      [round(x, 2)] rounds the exact value, half to even.  What is proved
      of a computed number is what rounding leaves alone: whether it is
      null, its sign, its bounds, its order.
    - A Python [dict] literal that is only read is a [gmap]; [d.get(k, v)]
      is [default v (d !! k)].
    - A function that may raise returns a [result]: [Raise e] or [Ret v];
      [try: body except Exception: handler] is [try_except body handler].
    - Collaborators that live outside the modelled code (the fitted
      estimators, the SHAP library, the database session) are the
      variables of a section; a theorem then holds for every behaviour of
      the collaborator, failure included.
    - A call that writes returns the tables as it leaves them together
      with its value or its exception: what was committed before an
      exception stays committed. *)

From Stdlib Require Import ZArith QArith Qround Qabs String Ascii List Lia Lqa.
From Stdlib Require Import Permutation Sorted.
From stdpp Require Import base gmap strings list pretty sorting.

Local Open Scope string_scope.

(** ** Numbers *)

Module Num.

(** [min(a, b)] of Python: the first argument unless the second is
    strictly smaller. *)
Definition py_min (a b : Q) : Q := if Qle_bool a b then a else b.

(** [round(x, ndigits)] on the exact value: the nearest multiple of
    [10^-ndigits], a tie going to the even neighbour. *)
Definition round_half_even (x : Q) : Z :=
  let n := Qnum x in
  let d := Zpos (Qden x) in
  let fl := (n / d)%Z in
  let r := (n mod d)%Z in
  match (2 * r ?= d)%Z with
  | Lt => fl
  | Gt => (fl + 1)%Z
  | Eq => if Z.even fl then fl else (fl + 1)%Z
  end.

Definition py_round (x : Q) (ndigits : nat) : Q :=
  let scale := Zpos (Pos.of_nat (10 ^ ndigits)) in
  Qmake (round_half_even (x * inject_Z scale)) (Pos.of_nat (10 ^ ndigits)).

Definition round2 (x : Q) : Q := py_round x 2.

End Num.

(** ** Ensemble voter ([PredictionService._ensemble_voting]) *)

Module Ensemble.
Import Num.

Record vote := { recommendation : string; confidence : Q }.

Definition val_scores : gmap string Z :=
  {[ "undervalued" := 1%Z; "fair" := (-1)%Z; "overvalued" := (-1)%Z ]}.

Definition health_scores : gmap string Z :=
  {[ "excellent" := 1%Z; "fair" := 0%Z; "poor" := (-1)%Z ]}.

Definition growth_scores : gmap string Z :=
  {[ "strong_growth" := 1%Z; "moderate_growth" := 1%Z;
     "weak_growth" := 0%Z; "declining" := (-1)%Z ]}.

Definition val_score (val_pred : string) : Z :=
  default 0%Z (val_scores !! val_pred).
Definition health_score (health_pred : string) : Z :=
  default 0%Z (health_scores !! health_pred).
Definition growth_score (growth_pred : string) : Z :=
  default 0%Z (growth_scores !! growth_pred).

Definition total_score (val_pred health_pred growth_pred : string) : Z :=
  (val_score val_pred + health_score health_pred + growth_score growth_pred)%Z.

(** The branch on the total: the recommendation and the agreement
    confidence before it is capped. *)
Definition agreement (total : Z) : string * Q :=
  if (2 <=? total)%Z then
    ("BUY", 0.85 + inject_Z (total - 2) * 0.05)%Q
  else if (total <=? -2)%Z then
    ("SELL", 0.85 + inject_Z (Z.abs (total + 2)) * 0.05)%Q
  else
    ("HOLD", 0.75 + inject_Z (Z.abs total) * 0.05)%Q.

Definition _ensemble_voting (val_pred health_pred growth_pred : string)
    (val_conf health_conf growth_conf : Q) : vote :=
  let total := total_score val_pred health_pred growth_pred in
  let '(rec, ensemble_confidence) := agreement total in
  let ensemble_confidence := py_min ensemble_confidence 0.95 in
  let avg_model_confidence := ((val_conf + health_conf + growth_conf) / 3)%Q in
  let final_confidence := ((ensemble_confidence + avg_model_confidence) / 2)%Q in
  {| recommendation := rec; confidence := round2 final_confidence |}.

(** The class labels the model registry declares
    ([ModelLoader.load_models], the ['classes'] entries). *)
Definition model_1_classes : list string := ["UNDERVALUED"; "FAIR"; "OVERVALUED"].
Definition model_2_classes : list string := ["EXCELLENT"; "FAIR"; "POOR"].
Definition model_3_classes : list string :=
  ["STRONG_GROWTH"; "MODERATE_GROWTH"; "WEAK_GROWTH"; "DECLINING"].

(** The rubric as the specification words it: a score per canonical
    label, zero for anything else, and the decision on the total. *)
Definition rubric_valuation (label : string) : Z :=
  if String.eqb label "undervalued" then 1
  else if String.eqb label "fair" then -1
  else if String.eqb label "overvalued" then -1
  else 0.

Definition rubric_health (label : string) : Z :=
  if String.eqb label "excellent" then 1
  else if String.eqb label "fair" then 0
  else if String.eqb label "poor" then -1
  else 0.

Definition rubric_growth (label : string) : Z :=
  if String.eqb label "strong_growth" then 1
  else if String.eqb label "moderate_growth" then 1
  else if String.eqb label "weak_growth" then 0
  else if String.eqb label "declining" then -1
  else 0.

Definition rubric_decision (total : Z) : string :=
  if ((total =? 2) || (total =? 3))%Z then "BUY"
  else if ((total =? -3) || (total =? -2))%Z then "SELL"
  else "HOLD".

End Ensemble.

(** ** Exceptions *)

Module Py.

(** The exception classes the modelled code can meet.  A [KeyError]
    carries the missing key, the others their message. *)
Inductive exn :=
| AttributeError (msg : string)
| IndexError (msg : string)
| ValueError (msg : string)
| TypeError (msg : string)
| KeyError (key : string)
| Exception (msg : string).

Definition hex_digit (n : N) : ascii :=
  ascii_of_N (if (n <? 10)%N then 48 + n else 87 + n).

(** One character inside [repr] of a [str] quoted with [quote]. *)
Definition repr_char (quote c : ascii) : string :=
  let n := N_of_ascii c in
  if (n =? 92)%N then String c (String c EmptyString)
  else if Ascii.eqb c quote then String (ascii_of_N 92) (String c EmptyString)
  else if (n =? 9)%N then String (ascii_of_N 92) "t"
  else if (n =? 10)%N then String (ascii_of_N 92) "n"
  else if (n =? 13)%N then String (ascii_of_N 92) "r"
  else if (n <? 32)%N || (n =? 127)%N then
    String (ascii_of_N 92)
      (String "x" (String (hex_digit (n / 16)) (String (hex_digit (n mod 16)) EmptyString)))
  else String c EmptyString.

Fixpoint has_char (c : ascii) (s : string) : bool :=
  match s with
  | EmptyString => false
  | String d s' => Ascii.eqb c d || has_char c s'
  end.

Fixpoint repr_body (quote : ascii) (s : string) : string :=
  match s with
  | EmptyString => EmptyString
  | String c s' => repr_char quote c ++ repr_body quote s'
  end.

(** [repr(s)] of a [str]: single quotes, double quotes when the text
    has a single quote and no double one; backslash, the quote and
    the control characters escaped.  Bytes above 127 are kept, as
    Python keeps the printable characters they encode. *)
Definition repr (s : string) : string :=
  let single := ascii_of_N 39 in
  let double := ascii_of_N 34 in
  let quote := if has_char single s && negb (has_char double s) then double else single in
  String quote (repr_body quote s ++ String quote EmptyString).

(** [str(e)]: the message; for a [KeyError] the [repr] of the key. *)
Definition str (e : exn) : string :=
  match e with
  | KeyError key => repr key
  | AttributeError m | IndexError m | ValueError m | TypeError m
  | Exception m => m
  end.

Inductive result (A : Type) :=
| Raise (e : exn)
| Ret (v : A).
Arguments Raise {A} e.
Arguments Ret {A} v.

Definition bind {A B} (c : result A) (k : A -> result B) : result B :=
  match c with
  | Raise e => Raise e
  | Ret v => k v
  end.

(** [try: body / except Exception as e: handler e] *)
Definition try_except {A} (body : result A) (handler : exn -> result A) : result A :=
  match body with
  | Raise e => handler e
  | Ret v => Ret v
  end.

(** [l[i]] on a list or a one-dimensional array, [i >= 0]. *)
Definition getitem {A} (l : list A) (i : nat) : result A :=
  match l !! i with
  | Some x => Ret x
  | None => Raise (IndexError "index out of range")
  end.

Fixpoint mapM {A B} (f : A -> result B) (l : list A) : result (list B) :=
  match l with
  | [] => Ret []
  | x :: l' =>
      bind (f x) (fun y => bind (mapM f l') (fun ys => Ret (y :: ys)))
  end.

End Py.

(** [x ← c; k] sequences two computations that may raise. *)
#[export] Instance result_bind : MBind Py.result :=
  fun A B k c => Py.bind c k.
#[export] Instance result_ret : MRet Py.result := @Py.Ret.

(** ** Stored data (models/stock.py, models/stock_ratios.py, models/prediction.py) *)

Module Stock.
(** A row of [stocks]; every [Float] column is nullable. *)
Record t := {
  id : Z;
  ticker : string;
  company_name : string;
  sector : option string;       (* [stock.sector.name], [None] without a sector *)
  pe_ratio : option Q;
  pb_ratio : option Q;
  roe : option Q;
  profit_margin : option Q;
  debt_equity : option Q;
  current_ratio : option Q;
  eps : option Q;
  current_price : option Q;
  price_1year_ago : option Q;
  revenue_per_share_2023 : option Q;
  ebitda_per_share_2023 : option Q;
  book_value_per_share_2023 : option Q;
  debt_per_share_2023 : option Q;
  cash_per_share_2023 : option Q;
  working_capital_per_share_2023 : option Q;
  capex_per_share_2023 : option Q;
  revenue_per_share_2024 : option Q;
  ebitda_per_share_2024 : option Q;
  book_value_per_share_2024 : option Q;
  debt_per_share_2024 : option Q;
  cash_per_share_2024 : option Q;
  working_capital_per_share_2024 : option Q;
  capex_per_share_2024 : option Q;
  revenue_per_share_2025 : option Q;
  ebitda_per_share_2025 : option Q;
  book_value_per_share_2025 : option Q;
  debt_per_share_2025 : option Q;
  cash_per_share_2025 : option Q;
  working_capital_per_share_2025 : option Q;
  capex_per_share_2025 : option Q
}.
End Stock.

Module StockRatio.
(** A row of [stock_ratios], keyed by the stock it belongs to. *)
Record t := {
  stock_id : Z;
  ticker : string;
  revenue_growth_1y : option Q;
  ebitda_growth_1y : option Q;
  equity_growth : option Q;
  debt_trend : option Q;
  cash_trend : option Q;
  working_capital_trend : option Q;
  leverage_change : option Q;
  debt_to_equity_2025 : option Q;
  revenue_cagr_2y : option Q;
  ebitda_cagr_2y : option Q;
  book_value_cagr_2y : option Q;
  revenue_volatility : option Q;
  ebitda_volatility : option Q;
  revenue_acceleration : option Q;
  ebitda_acceleration : option Q;
  capex_trend : option Q;
  working_capital_trend_2y : option Q
}.
End StockRatio.

(** ** Ratio calculator ([StockService._calculate_and_store_ratios]) *)

Module Ratios.
Import Py.

Section Calculator.
(** [math.sqrt] and the built-in [pow] are outside the rationals; they
    are taken as given.  [pow] may raise. *)
Variable math_sqrt : Q -> Q.
Variable py_pow : Q -> Q -> result Q.

Definition safe_growth (new_val old_val : option Q) (default : option Q) : option Q :=
  match new_val, old_val with
  | Some n, Some o =>
      if Qeq_bool o 0 then default else Some ((n - o) / o)%Q
  | _, _ => default
  end.

Definition safe_cagr (end_val start_val : option Q) (periods : positive)
    (default : option Q) : option Q :=
  match end_val, start_val with
  | Some e, Some s =>
      if Qle_bool s 0 || Qle_bool e 0 then default
      else
        match py_pow (e / s)%Q (1 # periods)%Q with
        | Ret p => Some (p - 1)%Q
        | Raise _ => default
        end
  | _, _ => default
  end.

Definition safe_calc (numerator denominator : option Q) (default : option Q) : option Q :=
  match numerator, denominator with
  | Some n, Some d =>
      if Qeq_bool d 0 then default else Some (n / d)%Q
  | _, _ => default
  end.

(** The keyword defaults of the three helpers. *)
Definition growth_default : option Q := Some 0%Q.
Definition cagr_default : option Q := Some 0%Q.
Definition calc_default : option Q := None.

(** The [if a is not None and b is not None: ... else: None] blocks. *)
Definition volatility (g1 g2 : option Q) : option Q :=
  match g1, g2 with
  | Some a, Some b =>
      let mean_growth := ((a + b) / 2)%Q in
      let variance :=
        (((a - mean_growth) ^ 2 + (b - mean_growth) ^ 2) / 2)%Q in
      Some (if Qle_bool 0 variance then math_sqrt variance else 0%Q)
  | _, _ => None
  end.

Definition acceleration (g1 g2 : option Q) : option Q :=
  match g1, g2 with
  | Some a, Some b => Some (b - a)%Q
  | _, _ => None
  end.

Definition calculate_ratios (stock : Stock.t) : StockRatio.t :=
  let debt_equity_2024 :=
    safe_calc (Stock.debt_per_share_2024 stock)
              (Stock.book_value_per_share_2024 stock) calc_default in
  let debt_equity_2025 :=
    safe_calc (Stock.debt_per_share_2025 stock)
              (Stock.book_value_per_share_2025 stock) calc_default in
  let growth_2023_2024 :=
    safe_growth (Stock.revenue_per_share_2024 stock)
                (Stock.revenue_per_share_2023 stock) growth_default in
  let growth_2024_2025 :=
    safe_growth (Stock.revenue_per_share_2025 stock)
                (Stock.revenue_per_share_2024 stock) growth_default in
  let ebitda_growth_2023_2024 :=
    safe_growth (Stock.ebitda_per_share_2024 stock)
                (Stock.ebitda_per_share_2023 stock) growth_default in
  let ebitda_growth_2024_2025 :=
    safe_growth (Stock.ebitda_per_share_2025 stock)
                (Stock.ebitda_per_share_2024 stock) growth_default in
  {| StockRatio.stock_id := Stock.id stock;
     StockRatio.ticker := Stock.ticker stock;
     StockRatio.revenue_growth_1y :=
       safe_growth (Stock.revenue_per_share_2025 stock)
                   (Stock.revenue_per_share_2024 stock) growth_default;
     StockRatio.ebitda_growth_1y :=
       safe_growth (Stock.ebitda_per_share_2025 stock)
                   (Stock.ebitda_per_share_2024 stock) growth_default;
     StockRatio.equity_growth :=
       safe_growth (Stock.book_value_per_share_2025 stock)
                   (Stock.book_value_per_share_2024 stock) growth_default;
     StockRatio.debt_trend :=
       safe_growth (Stock.debt_per_share_2025 stock)
                   (Stock.debt_per_share_2024 stock) growth_default;
     StockRatio.cash_trend :=
       safe_growth (Stock.cash_per_share_2025 stock)
                   (Stock.cash_per_share_2024 stock) growth_default;
     StockRatio.working_capital_trend :=
       safe_growth (Stock.working_capital_per_share_2025 stock)
                   (Stock.working_capital_per_share_2024 stock) growth_default;
     StockRatio.leverage_change :=
       match debt_equity_2024, debt_equity_2025 with
       | Some d24, Some d25 => Some (d25 - d24)%Q
       | _, _ => None
       end;
     StockRatio.debt_to_equity_2025 := debt_equity_2025;
     StockRatio.revenue_cagr_2y :=
       safe_cagr (Stock.revenue_per_share_2025 stock)
                 (Stock.revenue_per_share_2023 stock) 2 cagr_default;
     StockRatio.ebitda_cagr_2y :=
       safe_cagr (Stock.ebitda_per_share_2025 stock)
                 (Stock.ebitda_per_share_2023 stock) 2 cagr_default;
     StockRatio.book_value_cagr_2y :=
       safe_cagr (Stock.book_value_per_share_2025 stock)
                 (Stock.book_value_per_share_2023 stock) 2 cagr_default;
     StockRatio.revenue_volatility := volatility growth_2023_2024 growth_2024_2025;
     StockRatio.ebitda_volatility :=
       volatility ebitda_growth_2023_2024 ebitda_growth_2024_2025;
     StockRatio.revenue_acceleration := acceleration growth_2023_2024 growth_2024_2025;
     StockRatio.ebitda_acceleration :=
       acceleration ebitda_growth_2023_2024 ebitda_growth_2024_2025;
     StockRatio.capex_trend :=
       safe_growth (Stock.capex_per_share_2025 stock)
                   (Stock.capex_per_share_2024 stock) growth_default;
     StockRatio.working_capital_trend_2y :=
       safe_cagr (Stock.working_capital_per_share_2025 stock)
                 (Stock.working_capital_per_share_2023 stock) 2 cagr_default |}.

(** [repository.update_stock_ratios]: one row per stock, every computed
    key overwritten. *)
Definition update_stock_ratios (table : gmap Z StockRatio.t) (stock_id : Z)
    (ratio_data : StockRatio.t) : gmap Z StockRatio.t :=
  <[stock_id := ratio_data]> table.

Definition _calculate_and_store_ratios (table : gmap Z StockRatio.t)
    (stock : Stock.t) : gmap Z StockRatio.t :=
  update_stock_ratios table (Stock.id stock) (calculate_ratios stock).

End Calculator.
End Ratios.

(** ** Feature assembler ([PredictionService._prepare_model_k_features]) *)

Module Features.

(** [x or 0.0]: [None] and a zero are falsy. *)
Definition or_zero (value : option Q) : Q :=
  match value with
  | Some x => if Qeq_bool x 0 then 0%Q else x
  | None => 0%Q
  end.

(** [getattr(obj, name, default)] over the [Float] attributes of a row. *)
Definition getattr (attrs : gmap string (option Q)) (name : string)
    (default : option Q) : option Q :=
  match attrs !! name with
  | Some v => v
  | None => default
  end.

Definition stock_attrs (stock : Stock.t) : gmap string (option Q) :=
  list_to_map
    [ ("pe_ratio", Stock.pe_ratio stock); ("pb_ratio", Stock.pb_ratio stock);
      ("roe", Stock.roe stock); ("profit_margin", Stock.profit_margin stock);
      ("debt_equity", Stock.debt_equity stock);
      ("current_ratio", Stock.current_ratio stock); ("eps", Stock.eps stock);
      ("current_price", Stock.current_price stock);
      ("price_1year_ago", Stock.price_1year_ago stock) ].

Definition ratio_attrs (ratios : StockRatio.t) : gmap string (option Q) :=
  list_to_map
    [ ("revenue_growth_1y", StockRatio.revenue_growth_1y ratios);
      ("ebitda_growth_1y", StockRatio.ebitda_growth_1y ratios);
      ("equity_growth", StockRatio.equity_growth ratios);
      ("debt_trend", StockRatio.debt_trend ratios);
      ("cash_trend", StockRatio.cash_trend ratios);
      ("working_capital_trend", StockRatio.working_capital_trend ratios);
      ("leverage_change", StockRatio.leverage_change ratios);
      ("debt_to_equity_2025", StockRatio.debt_to_equity_2025 ratios);
      ("revenue_cagr_2y", StockRatio.revenue_cagr_2y ratios);
      ("ebitda_cagr_2y", StockRatio.ebitda_cagr_2y ratios);
      ("book_value_cagr_2y", StockRatio.book_value_cagr_2y ratios);
      ("revenue_volatility", StockRatio.revenue_volatility ratios);
      ("ebitda_volatility", StockRatio.ebitda_volatility ratios);
      ("revenue_acceleration", StockRatio.revenue_acceleration ratios);
      ("ebitda_acceleration", StockRatio.ebitda_acceleration ratios);
      ("capex_trend", StockRatio.capex_trend ratios);
      ("working_capital_trend_2y", StockRatio.working_capital_trend_2y ratios) ].

(** The loop shared by the three assemblers: the vector grows at its
    end and the dictionary gets one key per name. *)
Definition assemble_step (attrs : gmap string (option Q))
    (acc : list Q * gmap string Q) (name : string) : list Q * gmap string Q :=
  let value := or_zero (getattr attrs name (Some 0%Q)) in
  ((acc.1 ++ [value])%list, <[name := value]> acc.2).

Definition assemble (attrs : gmap string (option Q)) (feature_names : list string)
    : list (list Q) * list string * gmap string Q :=
  let '(features, feature_dict) :=
    fold_left (assemble_step attrs) feature_names ([], ∅) in
  ([features], feature_names, feature_dict).

Definition model_1_feature_names : list string :=
  ["pe_ratio"; "pb_ratio"; "roe"; "debt_equity"; "profit_margin"].

Definition model_2_feature_names : list string :=
  ["revenue_growth_1y"; "ebitda_growth_1y"; "equity_growth";
   "debt_trend"; "cash_trend"; "working_capital_trend";
   "leverage_change"; "debt_to_equity_2025"].

Definition model_3_feature_names : list string :=
  ["revenue_cagr_2y"; "ebitda_cagr_2y"; "book_value_cagr_2y";
   "revenue_volatility"; "ebitda_volatility"; "revenue_acceleration";
   "ebitda_acceleration"; "capex_trend"; "working_capital_trend_2y"].

Definition _prepare_model_1_features (stock : Stock.t) :=
  assemble (stock_attrs stock) model_1_feature_names.
Definition _prepare_model_2_features (ratios : StockRatio.t) :=
  assemble (ratio_attrs ratios) model_2_feature_names.
Definition _prepare_model_3_features (ratios : StockRatio.t) :=
  assemble (ratio_attrs ratios) model_3_feature_names.

End Features.

(** ** Strings: the [str] methods and format specifiers the explainer uses *)

Module Fmt.
Import Num.

Definition is_upper (c : ascii) : bool :=
  let n := nat_of_ascii c in (65 <=? n)%nat && (n <=? 90)%nat.
Definition is_lower (c : ascii) : bool :=
  let n := nat_of_ascii c in (97 <=? n)%nat && (n <=? 122)%nat.
Definition to_lower (c : ascii) : ascii :=
  if is_upper c then ascii_of_nat (nat_of_ascii c + 32) else c.
Definition to_upper (c : ascii) : ascii :=
  if is_lower c then ascii_of_nat (nat_of_ascii c - 32) else c.

Fixpoint map_chars (f : ascii -> ascii) (s : string) : string :=
  match s with
  | EmptyString => EmptyString
  | String c s' => String (f c) (map_chars f s')
  end.

(** [s.lower()], [s.upper()], [s.replace('_', ' ')] on ASCII text. *)
Definition lower (s : string) : string := map_chars to_lower s.
Definition upper (s : string) : string := map_chars to_upper s.
Definition replace_underscore (s : string) : string :=
  map_chars (fun c => if Ascii.eqb c "_" then " "%char else c) s.

(** [s.title()]: a letter is upper-cased after anything that is not a
    letter and lower-cased after a letter. *)
Fixpoint title_from (prev_cased : bool) (s : string) : string :=
  match s with
  | EmptyString => EmptyString
  | String c s' =>
      let cased := is_upper c || is_lower c in
      String (if cased then (if prev_cased then to_lower c else to_upper c) else c)
             (title_from cased s')
  end.
Definition title (s : string) : string := title_from false s.

(** [sub in s] *)
Fixpoint contains (sub s : string) : bool :=
  String.prefix sub s ||
  match s with
  | EmptyString => false
  | String _ s' => contains sub s'
  end.

Definition pad_zeros (width : nat) (s : string) : string :=
  String.concat "" (repeat "0" (width - String.length s)) ++ s.

(** [f"{x:.{ndigits}f}"], on the exact value: the digits of a sentence
    can differ from those printed for the nearest double, and no
    theorem below pins them. *)
Definition format_fixed (ndigits : nat) (x : Q) : string :=
  let scale := (10 ^ Z.of_nat ndigits)%Z in
  let k := Z.abs (round_half_even (x * inject_Z scale)) in
  let sign := if Qle_bool 0 x then "" else "-" in
  let frac :=
    match ndigits with
    | O => ""
    | _ => "." ++ pad_zeros ndigits (pretty (k mod scale)%Z)
    end in
  sign ++ pretty (k / scale)%Z ++ frac.

(** [". ".join(parts)] and friends. *)
Definition join (sep : string) (parts : list string) : string :=
  String.concat sep parts.

End Fmt.

(** ** Explainer (services/explanation_service.py) *)

Module Explainer.
Import Py Fmt.

(** One entry of a [top_features] list: the dictionary
    [{'name': .., 'value': .., 'impact': ..}]. *)
Record attribution := { name : string; value : Q; impact : Q }.

(** A [coef_] array is a vector or a matrix. *)
Inductive ndarray :=
| Arr1 (v : list Q)
| Arr2 (rows : list (list Q)).

(** A fitted estimator, as far as the pipeline looks at it.  An absent
    attribute is [None]; [hasattr(model, 'predict_proba')] is
    [has_predict_proba]. *)
Record Estimator := {
  feature_importances_ : option (list Q);
  coef_ : option ndarray;
  has_predict_proba : bool;
  predict : list (list Q) -> result (list nat);
  predict_proba : list (list Q) -> result (list (list Q))
}.

(** What [explainer.shap_values] hands back: a list with one matrix per
    class (older releases), a matrix (samples x features) or a rank-3
    array (samples x features x classes). *)
Inductive shap_output :=
| ShapList (per_class : list (list (list Q)))
| ShapArray2 (a : list (list Q))
| ShapArray3 (a : list (list (list Q))).

Definition FEATURE_NAMES : gmap string string :=
  list_to_map
    [ ("pe_ratio", "PE Ratio"); ("pb_ratio", "PB Ratio");
      ("roe", "Return on Equity (ROE)"); ("profit_margin", "Profit Margin");
      ("debt_equity", "Debt to Equity");
      ("revenue_growth_1y", "1-Year Revenue Growth");
      ("ebitda_growth_1y", "1-Year EBITDA Growth");
      ("equity_growth", "Equity Growth"); ("debt_trend", "Debt Trend");
      ("cash_trend", "Cash Trend");
      ("working_capital_trend", "Working Capital Trend");
      ("leverage_change", "Leverage Change");
      ("debt_to_equity_2025", "Current Debt/Equity Ratio");
      ("revenue_cagr_2y", "2-Year Revenue CAGR");
      ("ebitda_cagr_2y", "2-Year EBITDA CAGR");
      ("book_value_cagr_2y", "2-Year Book Value CAGR");
      ("revenue_volatility", "Revenue Volatility");
      ("ebitda_volatility", "EBITDA Volatility");
      ("revenue_acceleration", "Revenue Acceleration");
      ("ebitda_acceleration", "EBITDA Acceleration");
      ("capex_trend", "CapEx Trend");
      ("working_capital_trend_2y", "2-Year Working Capital Trend") ].

(** [FEATURE_NAMES.get(name, name.replace('_', ' ').title())] *)
Definition readable_name (name : string) : string :=
  default (title (replace_underscore name)) (FEATURE_NAMES !! name).

(** The value column of a sentence: ratio-like names with two decimals,
    growth-like names as a percentage, the rest with one decimal. *)
Definition value_str (name : string) (value : Q) : string :=
  if contains "ratio" (lower name) || contains "equity" (lower name) then
    format_fixed 2 value
  else if contains "growth" (lower name) || contains "trend" (lower name)
          || contains "cagr" (lower name) then
    format_fixed 1 value ++ "%"
  else
    format_fixed 1 value.

(** *** numpy *)

(** [np.argsort(a)]: the indices in ascending order of value.  Equal
    values are taken here in ascending order of index; numpy's default
    sort promises no order among them, and no theorem below depends
    on it. *)
Fixpoint argsort_insert (x : nat * Q) (l : list (nat * Q)) : list (nat * Q) :=
  match l with
  | [] => [x]
  | y :: l' => if Qle_bool (snd x) (snd y) then x :: y :: l' else y :: argsort_insert x l'
  end.

Definition argsort (a : list Q) : list nat :=
  map fst (foldr argsort_insert [] (zip (seq 0 (length a)) a)).

(** [np.argsort(a)[-3:][::-1]] *)
Definition top3_indices (a : list Q) : list nat :=
  rev (drop (length a - 3) (argsort a)).

(** [a * b] on two vectors, with numpy's broadcasting of a vector of
    length one. *)
Definition multiply (a b : list Q) : result (list Q) :=
  if (length a =? length b)%nat then Ret (zip_with Qmult a b)
  else
    match a, b with
    | [x], _ => Ret (map (Qmult x) b)
    | _, [y] => Ret (map (fun x => x * y)%Q a)
    | _, _ => Raise (ValueError "operands could not be broadcast together")
    end.

(** [list(names).index(name)] *)
Fixpoint index_of (names : list string) (name : string) : result nat :=
  match names with
  | [] => Raise (ValueError "value is not in list")
  | n :: names' =>
      if String.eqb n name then Ret O
      else i ← index_of names' name; Ret (S i)
  end.

(** The [for idx in top_indices: top_features.append({...})] loops. *)
Definition collect (feature_names : list string) (feature_values : list Q)
    (scores : list Q) (top_indices : list nat) : result (list attribution) :=
  mapM (fun idx =>
          n ← getitem feature_names idx;
          v ← getitem feature_values idx;
          s ← getitem scores idx;
          Ret {| name := n; value := v; impact := s |})
       top_indices.

(** What every entry point promises about its list: three entries at
    most. *)
Definition at_most_three (out : list attribution * string) : Prop :=
  length out.1 <= 3.

(** *** The three sentence builders *)

Definition _format_feature_importance_explanation
    (top_features : list attribution) (feature_values : list Q)
    (feature_names : list string) : string :=
  match top_features with
  | [] => "Prediction based on multiple factors."
  | _ =>
      join ". "
        (map (fun feature =>
                readable_name (name feature) ++ " ("
                ++ value_str (name feature) (value feature)
                ++ ") is a key factor with "
                ++ format_fixed 1 (impact feature * 100) ++ "% importance")
             top_features) ++ "."
  end.

Definition _format_shap_explanation (top_features : list attribution)
    (shap_values : list Q) (feature_names : list string)
    (feature_values : list Q) : result string :=
  match top_features with
  | [] => Ret "Prediction based on multiple factors."
  | _ =>
      explanations ←
        mapM (fun feature =>
                feature_idx ← index_of feature_names (name feature);
                shap_value ← getitem shap_values feature_idx;
                let direction :=
                  if Qle_bool shap_value 0 then "negatively" else "positively" in
                Ret (readable_name (name feature) ++ " ("
                     ++ value_str (name feature) (value feature)
                     ++ ") contributes " ++ direction ++ " with impact of "
                     ++ format_fixed 3 (Qabs shap_value)))
             top_features;
      Ret (join ". " explanations ++ ".")
  end.

Definition _format_coefficient_explanation
    (top_features : list attribution) (feature_values : list Q)
    (feature_names : list string) : string :=
  match top_features with
  | [] => "Prediction based on multiple growth factors."
  | _ =>
      join ". "
        (map (fun feature =>
                readable_name (name feature) ++ " ("
                ++ value_str (name feature) (value feature)
                ++ ") is a significant factor with impact score of "
                ++ format_fixed 3 (impact feature))
             top_features) ++ "."
  end.

(** *** Model 1: built-in importances *)

Definition explain_with_feature_importance (model : Estimator)
    (features_transformed : list (list Q)) (feature_names : list string)
    (feature_values : list Q) : result (list attribution * string) :=
  try_except
    (importances ←
       match feature_importances_ model with
       | Some a => Ret a
       | None => Raise (AttributeError "feature_importances_")
       end;
     top_features ←
       collect feature_names feature_values importances (top3_indices importances);
     Ret (top_features,
          _format_feature_importance_explanation
            top_features feature_values feature_names))
    (fun _ => Ret ([], "Unable to generate explanation.")).

(** *** Model 3 fallback: coefficients, then raw feature values *)

Definition _explain_svm_with_coefficients (model : Estimator)
    (features_transformed : list (list Q)) (feature_names : list string)
    (feature_values : list Q) : result (list attribution * string) :=
  try_except
    (match coef_ model with
     | Some c =>
         coefficients ←
           match c with
           | Arr2 rows => getitem rows 0
           | Arr1 v => Ret v
           end;
         row ← getitem features_transformed 0;
         products ← multiply coefficients row;
         let impacts := map Qabs products in
         top_features ←
           collect feature_names feature_values impacts (top3_indices impacts);
         Ret (top_features,
              _format_coefficient_explanation
                top_features feature_values feature_names)
     | None =>
         row ← getitem features_transformed 0;
         let abs_features := map Qabs row in
         top_features ←
           collect feature_names feature_values abs_features
                   (top3_indices abs_features);
         Ret (top_features,
              "Prediction based on key growth metrics. "
              ++ join ", "
                   (map (fun f => replace_underscore (name f)) (take 3 top_features)))
     end)
    (fun _ => Ret ([], "Unable to generate detailed explanation.")).

(** The common tail of the two SHAP explainers: rank by absolute
    attribution, keep three, word the sentences. *)
Definition rank_by_shap (feature_names : list string) (feature_values : list Q)
    (shap_values_for_prediction : list Q) : result (list attribution * string) :=
  let abs_shap := map Qabs shap_values_for_prediction in
  top_features ←
    collect feature_names feature_values abs_shap (top3_indices abs_shap);
  explanation ←
    _format_shap_explanation
      top_features shap_values_for_prediction feature_names feature_values;
  Ret (top_features, explanation).

Section Shap.
(** The SHAP library: building an explainer and asking it for values
    can both raise; [np.random.choice] picks the background rows. *)
Variable tree_explainer : Type.
Variable TreeExplainer : Estimator -> result tree_explainer.
Variable tree_shap_values : tree_explainer -> list (list Q) -> result shap_output.
Variable kernel_explainer : Type.
Variable KernelExplainer :
  (list (list Q) -> result (list (list Q))) -> list (list Q) -> result kernel_explainer.
Variable kernel_shap_values :
  kernel_explainer -> list (list Q) -> nat -> result shap_output.
Variable random_choice : nat -> nat -> result (list nat).

(** *** Model 2: tree attribution *)

Definition explain_with_shap_tree (model : Estimator)
    (features_transformed : list (list Q)) (feature_names : list string)
    (feature_values : list Q) : result (list attribution * string) :=
  try_except
    (explainer ← TreeExplainer model;
     shap_values ← tree_shap_values explainer features_transformed;
     match shap_values with
     | ShapList per_class =>
         predicted ← predict model features_transformed;
         prediction_idx ← getitem predicted 0;
         class_values ← getitem per_class prediction_idx;
         shap_values_for_prediction ← getitem class_values 0;
         rank_by_shap feature_names feature_values shap_values_for_prediction
     | ShapArray2 a =>
         shap_values_for_prediction ← getitem a 0;
         rank_by_shap feature_names feature_values shap_values_for_prediction
     | ShapArray3 a =>
         (* [shap_values[0]] is a matrix here: with no row the loop does
            not run, with a row a Python list is indexed by an array. *)
         m ← getitem a 0;
         match m with
         | [] => rank_by_shap feature_names feature_values []
         | _ :: _ =>
             Raise (TypeError "only integer scalar arrays can be converted to a scalar index")
         end
     end)
    (fun _ =>
       explain_with_feature_importance
         model features_transformed feature_names feature_values).

(** *** Model 3: sampling attribution *)

Definition explain_with_shap_kernel (model : Estimator)
    (background_data : list (list Q)) (features_transformed : list (list Q))
    (feature_names : list string) (feature_values : list Q)
    : result (list attribution * string) :=
  try_except
    (_ ← (if has_predict_proba model then Ret tt
          else Raise (Exception "Model doesn't support probability predictions"));
     test_pred ← predict model features_transformed;
     background_data ←
       (if (30 <? length background_data)%nat then
          indices ← random_choice (length background_data) 30;
          mapM (getitem background_data) indices
        else Ret background_data);
     explainer ← KernelExplainer (predict_proba model) background_data;
     shap_values ← kernel_shap_values explainer features_transformed 50;
     match shap_values with
     | ShapList _ => Raise (AttributeError "'list' object has no attribute 'shape'")
     | ShapArray3 a =>
         prediction_idx ← getitem test_pred 0;
         m ← getitem a 0;
         shap_values_for_prediction ←
           mapM (fun per_class => getitem per_class prediction_idx) m;
         rank_by_shap feature_names feature_values shap_values_for_prediction
     | ShapArray2 a =>
         prediction_idx ← getitem test_pred 0;
         shap_values_for_prediction ← getitem a 0;
         rank_by_shap feature_names feature_values shap_values_for_prediction
     end)
    (fun _ =>
       _explain_svm_with_coefficients
         model features_transformed feature_names feature_values).

End Shap.

(** The descriptor tables of [generate_ensemble_reasoning], keyed on
    the labels as the model registry declares them. *)
Definition val_descs : gmap string string :=
  {[ "UNDERVALUED" := "undervalued"; "FAIR" := "fairly valued";
     "OVERVALUED" := "overvalued" ]}.
Definition health_descs : gmap string string :=
  {[ "EXCELLENT" := "excellent financial health";
     "FAIR" := "fair financial health";
     "POOR" := "concerning financial health" ]}.
Definition growth_descs : gmap string string :=
  {[ "STRONG_GROWTH" := "strong growth trajectory";
     "MODERATE_GROWTH" := "moderate growth potential";
     "WEAK_GROWTH" := "weak growth signals";
     "DECLINING" := "declining performance" ]}.

Definition val_desc (val_pred : string) : string :=
  default "valued" (val_descs !! val_pred).
Definition health_desc (health_pred : string) : string :=
  default "financial health" (health_descs !! health_pred).
Definition growth_desc (growth_pred : string) : string :=
  default "growth" (growth_descs !! growth_pred).


(** [ExplanationService.generate_ensemble_reasoning] *)
Definition generate_ensemble_reasoning (val_pred health_pred growth_pred : string)
    (final_rec : string) (top_features : list attribution) : string :=
  let body :=
    "The stock is " ++ val_desc val_pred ++ " with " ++ health_desc health_pred
    ++ " and " ++ growth_desc growth_pred ++ "." in
  let reasoning :=
    if String.eqb final_rec "BUY" then
      "All three models indicate positive signals. " ++ body
    else if String.eqb final_rec "SELL" then
      "Multiple models show concerning signals. " ++ body
    else
      "Mixed signals from the models. " ++ body ++ " Further analysis recommended." in
  match top_features with
  | top_feature :: _ =>
      reasoning ++ " " ++ readable_name (name top_feature)
      ++ " is the most significant factor influencing this recommendation."
  | [] => reasoning
  end.

End Explainer.

(** ** The audit table (models/prediction.py) and the database *)

Module Prediction.
Import Explainer.

(** A timestamp, in microseconds since the epoch. *)
Definition datetime := Z.

(** The four columns a model contributes to a row; also the
    dictionary [_run_model_prediction] returns. *)
Record model_result := {
  prediction : string;
  confidence : Q;
  reason : string;
  top_features : list attribution
}.

(** A row of [predictions]; its primary key is the key of the table. *)
Record t := {
  user_id : Z;
  stock_id : Z;
  ticker : string;
  company_name : string;
  sector : option string;
  model_1 : model_result;
  model_2 : model_result;
  model_3 : model_result;
  final_recommendation : string;
  final_confidence : Q;
  final_reasoning : string;
  overall_top_features : list attribution;
  created_at : option datetime
}.

Definition with_created_at (row : t) (ts : option datetime) : t :=
  {| user_id := user_id row; stock_id := stock_id row; ticker := ticker row;
     company_name := company_name row; sector := sector row;
     model_1 := model_1 row; model_2 := model_2 row; model_3 := model_3 row;
     final_recommendation := final_recommendation row;
     final_confidence := final_confidence row;
     final_reasoning := final_reasoning row;
     overall_top_features := overall_top_features row;
     created_at := ts |}.
End Prediction.

Module Db.
(** The three tables the pipeline touches, each under its unique key:
    a stock under its (upper-case) ticker, a ratio row under its stock
    id, a prediction under its primary key. *)
Record t := {
  stocks : gmap string Stock.t;
  stock_ratios : gmap Z StockRatio.t;
  predictions : gmap Z Prediction.t
}.

Definition with_predictions (db : t) (p : gmap Z Prediction.t) : t :=
  {| stocks := stocks db; stock_ratios := stock_ratios db; predictions := p |}.

(** [StockRepository.get_stock_by_ticker], [get_stock_ratios] and
    [PredictionRepository.get_prediction_by_id]. *)
Definition get_stock_by_ticker (db : t) (ticker : string) : option Stock.t :=
  stocks db !! Fmt.upper ticker.
Definition get_stock_ratios (db : t) (stock_id : Z) : option StockRatio.t :=
  stock_ratios db !! stock_id.
Definition get_prediction_by_id (db : t) (prediction_id : Z) : option Prediction.t :=
  predictions db !! prediction_id.
End Db.

(** The dictionaries the service methods return:
    [{"status_code": 200, "data": ..}] or [{"status_code": c, "error": msg}]. *)
Inductive response (A : Type) :=
| Ok (data : A)
| Error (status_code : Z) (error : string).
Arguments Ok {A} data.
Arguments Error {A} status_code error.

Definition status_code {A} (r : response A) : Z :=
  match r with
  | Ok _ => 200
  | Error c _ => c
  end.

(** ** Prediction orchestrator ([PredictionService.predict_stock]) *)

Module Orchestrator.
Import Py Explainer.

(** An entry of [model_loader.models]. *)
Record ModelData := {
  encoder : list nat -> result (list string);        (* [inverse_transform] *)
  transformer : list (list Q) -> result (list (list Q)); (* [transform] *)
  model : Estimator;
  model_type : string;                               (* the ['type'] key *)
  background_data : option (list (list Q))
}.

(** [all_features.sort(key=lambda x: x['impact'], reverse=True)]: a
    stable sort, larger impacts first. *)
Fixpoint insert_desc (x : attribution) (l : list attribution) : list attribution :=
  match l with
  | [] => [x]
  | y :: l' =>
      if Qle_bool (impact y) (impact x) then x :: y :: l' else y :: insert_desc x l'
  end.

Definition sort_by_impact_desc (l : list attribution) : list attribution :=
  foldr insert_desc [] l.

(** The order the sort establishes: larger impact first. *)
Definition impact_ge (a b : attribution) : Prop := (impact b <= impact a)%Q.

(** Step 6 of [predict_stock]. *)
Definition all_features (r1 r2 r3 : Prediction.model_result) : list attribution :=
  (Prediction.top_features r1 ++ Prediction.top_features r2
   ++ Prediction.top_features r3)%list.

Definition overall_top_features (r1 r2 r3 : Prediction.model_result)
    : list attribution :=
  take 5 (sort_by_impact_desc (all_features r1 r2 r3)).

Record stock_info := {
  info_ticker : string;
  info_company_name : string;
  info_sector : string
}.

Record ensemble_prediction := {
  final_recommendation : string;
  confidence : Q;
  reasoning : string;
  ensemble_top_features : list attribution   (* ["overall_top_features"] *)
}.

(** The ["data"] of a successful [predict_stock]. *)
Record prediction_response := {
  response_stock_info : stock_info;
  model_1_valuation : Prediction.model_result;
  model_2_health : Prediction.model_result;
  model_3_growth : Prediction.model_result;
  response_ensemble : ensemble_prediction;
  prediction_id : Z;
  predicted_at : string
}.

(** The tables once [row] is committed under the key [new_id] with
    the creation time [ts] of the server. *)
Definition stored (db : Db.t) (new_id : Z) (ts : option Prediction.datetime)
    (row : Prediction.t) : Db.t :=
  Db.with_predictions db
    (<[new_id := Prediction.with_created_at row ts]> (Db.predictions db)).

Section Service.
Variable tree_explainer : Type.
Variable TreeExplainer : Estimator -> result tree_explainer.
Variable tree_shap_values : tree_explainer -> list (list Q) -> result shap_output.
Variable kernel_explainer : Type.
Variable KernelExplainer :
  (list (list Q) -> result (list (list Q))) -> list (list Q) -> result kernel_explainer.
Variable kernel_shap_values :
  kernel_explainer -> list (list Q) -> nat -> result shap_output.
Variable random_choice : nat -> nat -> result (list nat).

(** The registry, read-only after start-up. *)
Variable models : gmap string ModelData.

(** The database server.  On [commit] it stores the row under the
    primary key and the creation time it assigns, or the write fails
    and nothing is stored.  [refresh] reads the stored row back; it
    can fail too, and then the row stays stored. *)
Variable insert_prediction :
  Db.t -> Prediction.t -> result (Z * option Prediction.datetime).
Variable refresh_prediction : Db.t -> Z -> result unit.
Variable isoformat : Prediction.datetime -> string.

Definition _run_model_prediction (model_key : string) (features : list (list Q))
    (feature_names : list string) (feature_dict : gmap string Q)
    : result Prediction.model_result :=
  model_data ←
    match models !! model_key with
    | Some md => Ret md
    | None => Raise (Exception ("Model " ++ model_key ++ " not loaded"))
    end;
  features_transformed ← transformer model_data features;
  predicted ← predict (model model_data) features_transformed;
  prediction_idx ← getitem predicted 0;
  labels ← encoder model_data [prediction_idx];
  prediction ← getitem labels 0;
  confidence ←
    (if has_predict_proba (model model_data) then
       probabilities ← predict_proba (model model_data) features_transformed;
       row ← getitem probabilities 0;
       getitem row prediction_idx
     else Ret 0.85%Q);
  feature_values ← getitem features 0;
  '(top_features, reason) ←
    (if String.eqb (model_type model_data) "xgboost" then
       explain_with_feature_importance
         (model model_data) features_transformed feature_names feature_values
     else if String.eqb (model_type model_data) "random_forest" then
       explain_with_shap_tree tree_explainer TreeExplainer tree_shap_values
         (model model_data) features_transformed feature_names feature_values
     else if String.eqb (model_type model_data) "svm" then
       background ←
         match background_data model_data with
         | Some b => Ret b
         | None => Raise (KeyError "background_data")
         end;
       explain_with_shap_kernel kernel_explainer KernelExplainer
         kernel_shap_values random_choice
         (model model_data) background features_transformed
         feature_names feature_values
     else Ret ([], "Prediction made successfully."));
  Ret {| Prediction.prediction := prediction;
         Prediction.confidence := confidence;
         Prediction.reason := reason;
         Prediction.top_features := top_features |}.

(** [PredictionRepository.create_prediction]: add, commit, refresh.
    The answer is the tables as the call leaves them, with the saved
    object or the exception. *)
Definition create_prediction (db : Db.t) (prediction_data : Prediction.t)
    : Db.t * result (Z * Prediction.t) :=
  match insert_prediction db prediction_data with
  | Raise e => (db, Raise e)
  | Ret (new_id, ts) =>
      let db' := stored db new_id ts prediction_data in
      (db',
       _ ← refresh_prediction db' new_id;
       Ret (new_id, Prediction.with_created_at prediction_data ts))
  end.

(** Step 4 of [predict_stock]: the three models, in order. *)
Definition run_models (stock : Stock.t) (ratios : StockRatio.t)
    : result (Prediction.model_result * Prediction.model_result
              * Prediction.model_result) :=
  let '(model_1_features, model_1_feature_names, model_1_feature_dict) :=
    Features._prepare_model_1_features stock in
  let '(model_2_features, model_2_feature_names, model_2_feature_dict) :=
    Features._prepare_model_2_features ratios in
  let '(model_3_features, model_3_feature_names, model_3_feature_dict) :=
    Features._prepare_model_3_features ratios in
  model_1_result ←
    _run_model_prediction "model_1" model_1_features
      model_1_feature_names model_1_feature_dict;
  model_2_result ←
    _run_model_prediction "model_2" model_2_features
      model_2_feature_names model_2_feature_dict;
  model_3_result ←
    _run_model_prediction "model_3" model_3_features
      model_3_feature_names model_3_feature_dict;
  Ret (model_1_result, model_2_result, model_3_result).

(** Steps 5 to 7: the vote, the overall attributions, the reasoning. *)
Definition ensemble_of (model_1_result model_2_result model_3_result
                          : Prediction.model_result) : ensemble_prediction :=
  let ensemble_result :=
    Ensemble._ensemble_voting
      (Prediction.prediction model_1_result)
      (Prediction.prediction model_2_result)
      (Prediction.prediction model_3_result)
      (Prediction.confidence model_1_result)
      (Prediction.confidence model_2_result)
      (Prediction.confidence model_3_result) in
  let top := overall_top_features model_1_result model_2_result model_3_result in
  let ensemble_reasoning :=
    generate_ensemble_reasoning
      (Prediction.prediction model_1_result)
      (Prediction.prediction model_2_result)
      (Prediction.prediction model_3_result)
      (Ensemble.recommendation ensemble_result) top in
  {| final_recommendation := Ensemble.recommendation ensemble_result;
     confidence := Ensemble.confidence ensemble_result;
     reasoning := ensemble_reasoning;
     ensemble_top_features := top |}.

(** Step 8: the row handed to the repository. *)
Definition prediction_data (user_id : Z) (stock : Stock.t)
    (model_1_result model_2_result model_3_result : Prediction.model_result)
    : Prediction.t :=
  let ensemble := ensemble_of model_1_result model_2_result model_3_result in
  {| Prediction.user_id := user_id;
     Prediction.stock_id := Stock.id stock;
     Prediction.ticker := Stock.ticker stock;
     Prediction.company_name := Stock.company_name stock;
     Prediction.sector := Stock.sector stock;
     Prediction.model_1 := model_1_result;
     Prediction.model_2 := model_2_result;
     Prediction.model_3 := model_3_result;
     Prediction.final_recommendation := final_recommendation ensemble;
     Prediction.final_confidence := confidence ensemble;
     Prediction.final_reasoning := reasoning ensemble;
     Prediction.overall_top_features := ensemble_top_features ensemble;
     Prediction.created_at := None |}.

(** Steps 3 to 9 of [predict_stock], everything after the two
    look-ups: the tables as the steps leave them, with the response or
    the exception that ended them. *)
Definition predict_found (db : Db.t) (stock : Stock.t) (ratios : StockRatio.t)
    (user_id : Z) : Db.t * result prediction_response :=
  match run_models stock ratios with
  | Raise e => (db, Raise e)
  | Ret (model_1_result, model_2_result, model_3_result) =>
      let '(db', created) :=
        create_prediction db
          (prediction_data user_id stock
             model_1_result model_2_result model_3_result) in
      (db',
       '(new_id, saved_prediction) ← created;
       created_at ←
         match Prediction.created_at saved_prediction with
         | Some ts => Ret ts
         | None =>
             Raise (AttributeError "'NoneType' object has no attribute 'isoformat'")
         end;
       Ret {| response_stock_info :=
                {| info_ticker := Stock.ticker stock;
                   info_company_name := Stock.company_name stock;
                   info_sector := default "Unknown" (Stock.sector stock) |};
              model_1_valuation := model_1_result;
              model_2_health := model_2_result;
              model_3_growth := model_3_result;
              response_ensemble :=
                ensemble_of model_1_result model_2_result model_3_result;
              prediction_id := new_id;
              predicted_at := isoformat created_at |})
  end.

(** The one [try] of [predict_stock] spans the whole body; its handler
    shapes the failure.  Nothing is rolled back: the tables are those
    the body left when the exception was raised. *)
Definition predict_stock (db : Db.t) (ticker : string) (user_id : Z)
    : result (Db.t * response prediction_response) :=
  match Db.get_stock_by_ticker db ticker with
  | None =>
      Ret (db, Error 404 ("Stock with ticker " ++ ticker ++ " not found"))
  | Some stock =>
      match Db.get_stock_ratios db (Stock.id stock) with
      | None =>
          Ret (db, Error 400
                 "Stock ratios not calculated. Please ensure all financial data is available.")
      | Some ratios =>
          let '(db', outcome) := predict_found db stock ratios user_id in
          match outcome with
          | Ret response => Ret (db', Ok response)
          | Raise e => Ret (db', Error 500 ("Prediction error: " ++ str e))
          end
      end
  end.

End Service.
End Orchestrator.

(** ** History ([PredictionService.get_prediction_by_id]) *)

Module History.
Import Py.

(** The ["data"] of a successful detail request. *)
Record prediction_detail := {
  id : Z;
  ticker : string;
  company_name : string;
  sector : option string;
  model_1 : Prediction.model_result;
  model_2 : Prediction.model_result;
  model_3 : Prediction.model_result;
  final_recommendation : string;
  final_confidence : Q;
  final_reasoning : string;
  overall_top_features : list Explainer.attribution;
  predicted_at : option string
}.

Section Service.
Variable isoformat : Prediction.datetime -> string.

Definition get_prediction_by_id (db : Db.t) (prediction_id user_id : Z)
    : result (response prediction_detail) :=
  try_except
    (match Db.get_prediction_by_id db prediction_id with
     | None => Ret (Error 404 "Prediction not found")
     | Some prediction =>
         if negb (Prediction.user_id prediction =? user_id)%Z then
           Ret (Error 403 "Access denied")
         else
           Ret (Ok {| id := prediction_id;
                      ticker := Prediction.ticker prediction;
                      company_name := Prediction.company_name prediction;
                      sector := Prediction.sector prediction;
                      model_1 := Prediction.model_1 prediction;
                      model_2 := Prediction.model_2 prediction;
                      model_3 := Prediction.model_3 prediction;
                      final_recommendation := Prediction.final_recommendation prediction;
                      final_confidence := Prediction.final_confidence prediction;
                      final_reasoning := Prediction.final_reasoning prediction;
                      overall_top_features := Prediction.overall_top_features prediction;
                      predicted_at := isoformat <$> Prediction.created_at prediction |})
     end)
    (fun e => Ret (Error 500 ("Error fetching prediction: " ++ str e))).

End Service.
End History.


(** ** Model registry (services/model_loader.py) *)

Module ModelLoader.
Import Py.

(** An entry of [self.models] with all its keys: the artefacts the
    pipeline reads, and the two descriptive keys. *)
Record entry := {
  artifacts : Orchestrator.ModelData;
  name : string;
  classes : list string
}.

(** [ModelLoader.get_model] and [ModelLoader.health_check]. *)
Definition get_model (models : gmap string entry) (model_key : string)
    : option Orchestrator.ModelData :=
  artifacts <$> models !! model_key.

Definition required_keys : list string := ["model_1"; "model_2"; "model_3"].

Definition health_check (models : gmap string entry) : bool :=
  forallb (fun key => bool_decide (is_Some (models !! key))) required_keys.

(** The registry as [_run_model_prediction] sees it through
    [get_model]. *)
Definition registry (models : gmap string entry)
    : gmap string Orchestrator.ModelData :=
  artifacts <$> models.

(** [path / name] *)
Definition join_path (path name : string) : string := path ++ "/" ++ name.

Section Loader.
(** The file system and [joblib.load], one loader per kind of pickled
    object; each load may raise. *)
Variable path_exists : string -> bool.
Variable load_encoder : string -> result (list nat -> result (list string)).
Variable load_transformer :
  string -> result (list (list Q) -> result (list (list Q))).
Variable load_estimator : string -> result Explainer.Estimator.
Variable load_background : string -> result (list (list Q)).
Variable base_path : string.

(** The dictionary literal of one model: three loads, in the order of
    its keys. *)
Definition load_entry (model_path encoder_file transformer_file model_file : string)
    (kind display_name : string) (labels : list string)
    (background : option (list (list Q))) : result entry :=
  enc ← load_encoder (join_path model_path encoder_file);
  tr ← load_transformer (join_path model_path transformer_file);
  mdl ← load_estimator (join_path model_path model_file);
  Ret {| artifacts :=
           {| Orchestrator.encoder := enc;
              Orchestrator.transformer := tr;
              Orchestrator.model := mdl;
              Orchestrator.model_type := kind;
              Orchestrator.background_data := background |};
         name := display_name;
         classes := labels |}.

(** [ModelLoader.load_models]: the registry after the call and the
    Boolean it returns.  An entry is stored as soon as its three files
    are loaded; a later failure leaves the earlier entries in place. *)
Definition load_models (models : gmap string entry) : gmap string entry * bool :=
  if negb (path_exists base_path) then (models, false)
  else
    let model_1_path := join_path base_path "model_1" in
    if negb (path_exists model_1_path) then (models, false)
    else
      match load_entry model_1_path "label_encoder.pkl" "model1_transformer.pkl"
              "model1_fundamental_valuation.pkl" "xgboost" "Valuation Model"
              ["UNDERVALUED"; "FAIR"; "OVERVALUED"] None with
      | Raise _ => (models, false)
      | Ret entry_1 =>
          let models := <["model_1" := entry_1]> models in
          let model_2_path := join_path base_path "model_2" in
          if negb (path_exists model_2_path) then (models, false)
          else
            match load_entry model_2_path "model2_label_encoder.pkl"
                    "model2_transformer.pkl" "model2_financial_health.pkl"
                    "random_forest" "Financial Health Model"
                    ["EXCELLENT"; "FAIR"; "POOR"] None with
            | Raise _ => (models, false)
            | Ret entry_2 =>
                let models := <["model_2" := entry_2]> models in
                let model_3_path := join_path base_path "model_3" in
                if negb (path_exists model_3_path) then (models, false)
                else
                  match load_background (join_path model_3_path "background_data.pkl") with
                  | Raise _ => (models, false)
                  | Ret background_data_full =>
                      let background_data := take 30 background_data_full in
                      match load_entry model_3_path "model3_label_encoder.pkl"
                              "model3_transformer.pkl" "model3_growth.pkl"
                              "svm" "Growth Trajectory Model"
                              ["STRONG_GROWTH"; "MODERATE_GROWTH"; "WEAK_GROWTH"; "DECLINING"]
                              (Some background_data) with
                      | Raise _ => (models, false)
                      | Ret entry_3 => (<["model_3" := entry_3]> models, true)
                      end
                  end
            end
      end.

End Loader.
End ModelLoader.

(** ** History list ([PredictionService.get_user_predictions]) *)

Module HistoryPage.
Import Py.

(** One element of the ["data"] list. *)
Record history_item := {
  id : Z;
  ticker : string;
  company_name : string;
  sector : option string;
  final_recommendation : string;
  final_confidence : Q;
  predicted_at : option string
}.

(** The dictionary of a successful call: ["data"] and ["total"]. *)
Record history_page := {
  items : list history_item;
  total : nat
}.

(** The rows of one user, keyed by their primary key. *)
Definition rows_of (db : Db.t) (user_id : Z) : list (Z * Prediction.t) :=
  filter (fun row => Prediction.user_id row.2 = user_id)
         (map_to_list (Db.predictions db)).

Section Service.
Variable isoformat : Prediction.datetime -> string.
(** [ORDER BY created_at DESC] as the database performs it; the order
    among equal or null timestamps is the database's choice. *)
Variable order_by_created_at_desc :
  list (Z * Prediction.t) -> list (Z * Prediction.t).

(** [PredictionRepository.get_user_predictions] and
    [get_user_prediction_count]. *)
Definition repo_get_user_predictions (db : Db.t) (user_id : Z) (skip limit : nat)
    : list (Z * Prediction.t) :=
  take limit (drop skip (order_by_created_at_desc (rows_of db user_id))).

Definition repo_get_user_prediction_count (db : Db.t) (user_id : Z) : nat :=
  length (rows_of db user_id).

Definition to_item (row : Z * Prediction.t) : history_item :=
  {| id := row.1;
     ticker := Prediction.ticker row.2;
     company_name := Prediction.company_name row.2;
     sector := Prediction.sector row.2;
     final_recommendation := Prediction.final_recommendation row.2;
     final_confidence := Prediction.final_confidence row.2;
     predicted_at := isoformat <$> Prediction.created_at row.2 |}.

Definition get_user_predictions (db : Db.t) (user_id : Z) (skip limit : nat)
    : result (response history_page) :=
  try_except
    (let predictions := repo_get_user_predictions db user_id skip limit in
     let total := repo_get_user_prediction_count db user_id in
     Ret (Ok {| items := map to_item predictions; total := total |}))
    (fun e => Ret (Error 500 ("Error fetching predictions: " ++ str e))).

End Service.
End HistoryPage.

(** ** The unused importance helper ([PredictionService._calculate_simple_shap]) *)

Module SimpleShap.
Import Py Explainer.

(** Bring a vector to [n] entries: [np.pad] with zeros at the end, or a
    slice. *)
Definition fit_length (a : list Q) (n : nat) : list Q :=
  if (length a =? n)%nat then a
  else if (length a <? n)%nat then (a ++ replicate (n - length a) 0%Q)%list
  else take n a.

(** [np.abs(features).sum()] over all entries. *)
Definition abs_sum (features : list (list Q)) : Q :=
  foldr Qplus 0%Q (map Qabs (concat features)).

Definition _calculate_simple_shap (model : Estimator) (features : list (list Q))
    (feature_names : list string) : result ndarray :=
  match feature_importances_ model with
  | Some importances => Ret (Arr1 (fit_length importances (length feature_names)))
  | None =>
      match coef_ model with
      | Some c =>
          coefs ←
            match c with
            | Arr2 rows => getitem rows 0
            | Arr1 v => Ret v
            end;
          Ret (Arr1 (map Qabs (fit_length coefs (length feature_names))))
      | None =>
          let denominator := (abs_sum features + (1 # 10000000000))%Q in
          Ret (Arr2 (map (map (fun x => Qabs x / denominator)%Q) features))
      end
  end.

End SimpleShap.

(** ** Vocabulary for the statements about the explainer *)

Module Ranking.
Import Explainer.

(** Ascending by value, on (index, value) pairs. *)
Definition by_value (x y : nat * Q) : Prop := (x.2 <= y.2)%Q.

(** The pairs [argsort] projects its indices from. *)
Definition sorted_pairs (a : list Q) : list (nat * Q) :=
  foldr argsort_insert [] (zip (seq 0 (length a)) a).

(** The last three pairs, largest first. *)
Definition top3_pairs (a : list Q) : list (nat * Q) :=
  rev (drop (length a - 3) (sorted_pairs a)).

(** An attribution is the feature at index [i] with the score of that
    index. *)
Definition attribution_of (names : list string) (values scores : list Q)
    (i : nat) (f : attribution) : Prop :=
  names !! i = Some (name f) /\ values !! i = Some (value f) /\
  scores !! i = Some (impact f).

(** An answer of the explainer whose list is ordered by impact, larger
    first, and whose reason is not the empty string. *)
Definition well_ranked (out : list attribution * string) : Prop :=
  StronglySorted Orchestrator.impact_ge out.1 /\ out.2 <> "".

Definition non_negative (out : list attribution * string) : Prop :=
  Forall (fun f => (0 <= impact f)%Q) out.1.

Definition ranked_non_negative (out : list attribution * string) : Prop :=
  well_ranked out /\ non_negative out.

End Ranking.


(** ** Concrete data for the examples *)

Module Examples.
Import Py Explainer.
Local Open Scope Q_scope.

(** A stock with the five valuation ratios and three years of revenue
    per share; every other column is null. *)
Definition stock_with (ticker : string) (pe pb roe de pm : option Q)
    (rev_2023 rev_2024 rev_2025 : option Q) : Stock.t :=
  {| Stock.id := 1%Z; Stock.ticker := ticker; Stock.company_name := "ABC Holdings";
     Stock.sector := Some "Banking";
     Stock.pe_ratio := pe; Stock.pb_ratio := pb; Stock.roe := roe;
     Stock.profit_margin := pm; Stock.debt_equity := de;
     Stock.current_ratio := None; Stock.eps := None;
     Stock.current_price := None; Stock.price_1year_ago := None;
     Stock.revenue_per_share_2023 := rev_2023;
     Stock.ebitda_per_share_2023 := None;
     Stock.book_value_per_share_2023 := None;
     Stock.debt_per_share_2023 := None; Stock.cash_per_share_2023 := None;
     Stock.working_capital_per_share_2023 := None;
     Stock.capex_per_share_2023 := None;
     Stock.revenue_per_share_2024 := rev_2024;
     Stock.ebitda_per_share_2024 := None;
     Stock.book_value_per_share_2024 := None;
     Stock.debt_per_share_2024 := None; Stock.cash_per_share_2024 := None;
     Stock.working_capital_per_share_2024 := None;
     Stock.capex_per_share_2024 := None;
     Stock.revenue_per_share_2025 := rev_2025;
     Stock.ebitda_per_share_2025 := None;
     Stock.book_value_per_share_2025 := None;
     Stock.debt_per_share_2025 := None; Stock.cash_per_share_2025 := None;
     Stock.working_capital_per_share_2025 := None;
     Stock.capex_per_share_2025 := None |}.

(** The stock "ABC" of the specification's scenarios. *)
Definition stock_abc : Stock.t :=
  stock_with "ABC" (Some 15) (Some 1.2) (Some 18) (Some 0.4) (Some 12)
             (Some 10) (Some 12) (Some 15).

(** The same stock with a null price-to-book ratio and a zero return
    on equity. *)
Definition stock_partial : Stock.t :=
  stock_with "ABC" (Some 15) None (Some 0) (Some 0.4) (Some 12)
             (Some 10) (Some 12) (Some 15).

(** The same stock without its 2023 revenue. *)
Definition stock_missing_2023 : Stock.t :=
  stock_with "ABC" (Some 15) (Some 1.2) (Some 18) (Some 0.4) (Some 12)
             None (Some 12) (Some 15).

(** The derived ratios of "ABC", as stored. *)
Definition ratios_abc : StockRatio.t :=
  {| StockRatio.stock_id := 1%Z; StockRatio.ticker := "ABC";
     StockRatio.revenue_growth_1y := Some 0.25;
     StockRatio.ebitda_growth_1y := Some 0.1;
     StockRatio.equity_growth := Some 0.08;
     StockRatio.debt_trend := Some (-0.05);
     StockRatio.cash_trend := Some 0.12;
     StockRatio.working_capital_trend := Some 0.03;
     StockRatio.leverage_change := None;
     StockRatio.debt_to_equity_2025 := Some 0.4;
     StockRatio.revenue_cagr_2y := Some 0.2247;
     StockRatio.ebitda_cagr_2y := Some 0.11;
     StockRatio.book_value_cagr_2y := Some 0.07;
     StockRatio.revenue_volatility := None;
     StockRatio.ebitda_volatility := Some 0.02;
     StockRatio.revenue_acceleration := Some 0.05;
     StockRatio.ebitda_acceleration := None;
     StockRatio.capex_trend := Some 0.3;
     StockRatio.working_capital_trend_2y := Some 0.04 |}.

(** Three estimators: each predicts class 0 with a probability. *)
Definition xgb_model : Estimator :=
  {| feature_importances_ := Some [0.30; 0.10; 0.25; 0.15; 0.20];
     coef_ := None; has_predict_proba := true;
     predict := fun _ => Ret [0%nat];
     predict_proba := fun _ => Ret [[0.8; 0.15; 0.05]] |}.

Definition rf_model : Estimator :=
  {| feature_importances_ := Some [0.2; 0.2; 0.1; 0.1; 0.1; 0.1; 0.1; 0.1];
     coef_ := None; has_predict_proba := true;
     predict := fun _ => Ret [0%nat];
     predict_proba := fun _ => Ret [[0.9; 0.07; 0.03]] |}.

Definition svm_model : Estimator :=
  {| feature_importances_ := None;
     coef_ := None; has_predict_proba := true;
     predict := fun _ => Ret [0%nat];
     predict_proba := fun _ => Ret [[0.7; 0.1; 0.1; 0.1]] |}.

(** A kernel classifier without probabilities and without linear
    coefficients. *)
Definition bare_model : Estimator :=
  {| feature_importances_ := None;
     coef_ := None; has_predict_proba := false;
     predict := fun _ => Ret [0%nat];
     predict_proba := fun _ => Raise (AttributeError "predict_proba") |}.

(** A SHAP library that answers: one matrix per class from the tree
    explainer, a rank-3 array from the kernel explainer. *)
Definition TreeExplainer (m : Estimator) : result Estimator := Ret m.
Definition tree_shap_values (_ : Estimator) (_ : list (list Q)) : result shap_output :=
  Ret (ShapList
         [ [[0.05; -0.2; 0.1; 0; 0.3; -0.02; 0.01; 0.15]];
           [[-0.03; 0.1; -0.05; 0; -0.2; 0.01; 0; -0.1]];
           [[-0.02; 0.1; -0.05; 0; -0.1; 0.01; -0.01; -0.05]] ]).
Definition KernelExplainer (_ : list (list Q) -> result (list (list Q)))
    (_ : list (list Q)) : result unit := Ret tt.
Definition kernel_shap_values (_ : unit) (_ : list (list Q)) (_ : nat)
    : result shap_output :=
  Ret (ShapArray3
         [ [ [0.12; -0.04; -0.04; -0.04]; [0.02; 0; -0.01; -0.01];
             [-0.07; 0.03; 0.02; 0.02]; [0; 0; 0; 0];
             [0.01; 0; 0; -0.01]; [0.09; -0.03; -0.03; -0.03];
             [0; 0; 0; 0]; [-0.2; 0.1; 0.05; 0.05];
             [0.03; -0.01; -0.01; -0.01] ] ]).
Definition random_choice (_ k : nat) : result (list nat) := Ret (seq 0 k).

Definition identity_transform (x : list (list Q)) : result (list (list Q)) := Ret x.
Definition inverse_transform (classes : list string) (idxs : list nat)
    : result (list string) :=
  mapM (getitem classes) idxs.

(** The registry after a successful start-up. *)
Definition models : gmap string Orchestrator.ModelData :=
  {[ "model_1" :=
       {| Orchestrator.encoder := inverse_transform Ensemble.model_1_classes;
          Orchestrator.transformer := identity_transform;
          Orchestrator.model := xgb_model;
          Orchestrator.model_type := "xgboost";
          Orchestrator.background_data := None |};
     "model_2" :=
       {| Orchestrator.encoder := inverse_transform Ensemble.model_2_classes;
          Orchestrator.transformer := identity_transform;
          Orchestrator.model := rf_model;
          Orchestrator.model_type := "random_forest";
          Orchestrator.background_data := None |};
     "model_3" :=
       {| Orchestrator.encoder := inverse_transform Ensemble.model_3_classes;
          Orchestrator.transformer := identity_transform;
          Orchestrator.model := svm_model;
          Orchestrator.model_type := "svm";
          Orchestrator.background_data := Some [[0; 0; 0; 0; 0; 0; 0; 0; 0]] |} ]}.

(** A database holding "ABC" and its ratios, and two behaviours of the
    server on commit. *)
Definition db_abc : Db.t :=
  {| Db.stocks := {[ "ABC" := stock_abc ]};
     Db.stock_ratios := {[ 1%Z := ratios_abc ]};
     Db.predictions := ∅ |}.

Definition insert_ok (db : Db.t) (_ : Prediction.t)
    : result (Z * option Prediction.datetime) :=
  Ret ((Z.of_nat (size (Db.predictions db)) + 1)%Z, Some 1762214400000000%Z).

Definition insert_fails (_ : Db.t) (_ : Prediction.t)
    : result (Z * option Prediction.datetime) :=
  Raise (Exception "connection lost during commit").

(** A server that stores the row without a creation time. *)
Definition insert_without_time (db : Db.t) (_ : Prediction.t)
    : result (Z * option Prediction.datetime) :=
  Ret ((Z.of_nat (size (Db.predictions db)) + 1)%Z, None).

(** A write that fails for HOLD rows only. *)
Definition insert_rejects_hold (db : Db.t) (row : Prediction.t)
    : result (Z * option Prediction.datetime) :=
  if String.eqb (Prediction.final_recommendation row) "HOLD" then
    Raise (Exception "connection lost during commit")
  else insert_ok db row.

Definition refresh_ok (_ : Db.t) (_ : Z) : result unit := Ret tt.

Definition refresh_fails (_ : Db.t) (_ : Z) : result unit :=
  Raise (Exception "connection lost during refresh").

Definition isoformat (ts : Prediction.datetime) : string := pretty ts.

(** Two stored predictions of user 1 that differ in their content. *)
Definition sample_result (label : string) : Prediction.model_result :=
  {| Prediction.prediction := label; Prediction.confidence := 0.8;
     Prediction.reason := "Prediction based on multiple factors.";
     Prediction.top_features := [] |}.

Definition sample_prediction (owner : Z) (ticker recommendation : string)
    : Prediction.t :=
  {| Prediction.user_id := owner; Prediction.stock_id := 1%Z;
     Prediction.ticker := ticker; Prediction.company_name := "ABC Holdings";
     Prediction.sector := Some "Banking";
     Prediction.model_1 := sample_result "UNDERVALUED";
     Prediction.model_2 := sample_result "EXCELLENT";
     Prediction.model_3 := sample_result "STRONG_GROWTH";
     Prediction.final_recommendation := recommendation;
     Prediction.final_confidence := 0.78;
     Prediction.final_reasoning := "Mixed signals from the models.";
     Prediction.overall_top_features := [];
     Prediction.created_at := Some 1762214400000000%Z |}.

Definition db_history (ticker recommendation : string) : Db.t :=
  {| Db.stocks := ∅; Db.stock_ratios := ∅;
     Db.predictions := {[ 7%Z := sample_prediction 1 ticker recommendation ]} |}.

End Examples.


(** ** Concrete data for the further properties *)

Module ExamplesExtra.
Import Py Explainer.
Local Open Scope Q_scope.

(** A registry in which only the valuation model is loaded. *)
Definition partial_registry : gmap string ModelLoader.entry :=
  {[ "model_1" :=
       {| ModelLoader.artifacts :=
            {| Orchestrator.encoder :=
                 Examples.inverse_transform Ensemble.model_1_classes;
               Orchestrator.transformer := Examples.identity_transform;
               Orchestrator.model := Examples.xgb_model;
               Orchestrator.model_type := "xgboost";
               Orchestrator.background_data := None |};
          ModelLoader.name := "Valuation Model";
          ModelLoader.classes := Ensemble.model_1_classes |} ]}.

(** A model directory with every file in place, and one in which the
    folder of the health model is missing. *)
Definition all_paths (_ : string) : bool := true.
Definition without_model_2 (path : string) : bool :=
  negb (String.eqb path "AI_models/model_2").

Definition load_encoder (path : string) : result (list nat -> result (list string)) :=
  if Fmt.contains "model_1" path then Ret (Examples.inverse_transform Ensemble.model_1_classes)
  else if Fmt.contains "model_2" path then
    Ret (Examples.inverse_transform Ensemble.model_2_classes)
  else Ret (Examples.inverse_transform Ensemble.model_3_classes).
Definition load_transformer (_ : string)
    : result (list (list Q) -> result (list (list Q))) :=
  Ret Examples.identity_transform.
Definition load_estimator (path : string) : result Estimator :=
  if Fmt.contains "model_1" path then Ret Examples.xgb_model
  else if Fmt.contains "model_2" path then Ret Examples.rf_model
  else Ret Examples.svm_model.
(** Forty background rows on disk. *)
Definition load_background (_ : string) : result (list (list Q)) :=
  Ret (replicate 40 [0; 0; 0; 0; 0; 0; 0; 0; 0]).

(** The database order of a history: here, as stored. *)
Definition stored_order (rows : list (Z * Prediction.t)) : list (Z * Prediction.t) :=
  rows.

(** Three predictions, two of user 1 and one of user 2. *)
Definition db_three : Db.t :=
  {| Db.stocks := ∅; Db.stock_ratios := ∅;
     Db.predictions :=
       {[ 7%Z := Examples.sample_prediction 1 "ABC" "HOLD";
          8%Z := Examples.sample_prediction 2 "XYZ" "SELL";
          9%Z := Examples.sample_prediction 1 "DEF" "BUY" ]} |}.

(** An estimator with three importances, and one with a coefficient
    matrix of two columns. *)
Definition three_importances : Estimator :=
  {| feature_importances_ := Some [0.5; 0.3; 0.2];
     coef_ := None; has_predict_proba := true;
     predict := fun _ => Ret [0%nat];
     predict_proba := fun _ => Ret [[1]] |}.

(** A registry whose growth model has neither probabilities nor
    coefficients. *)
Definition bare_registry : gmap string Orchestrator.ModelData :=
  {[ "model_3" :=
       {| Orchestrator.encoder :=
            Examples.inverse_transform Ensemble.model_3_classes;
          Orchestrator.transformer := Examples.identity_transform;
          Orchestrator.model := Examples.bare_model;
          Orchestrator.model_type := "svm";
          Orchestrator.background_data := Some [] |} ]}.

End ExamplesExtra.


(** * Properties *)

(** ** Rounding *)

Lemma round_half_even_le (y : Q) (m : Z) :
  (y <= inject_Z m)%Q -> (Num.round_half_even y <= m)%Z.
Proof.
  destruct y as [n d]. unfold Qle, Num.round_half_even; simpl.
  intros H. rewrite Z.mul_1_r in H.
  assert (Hd : (0 < Z.pos d)%Z) by lia.
  pose proof (Z.div_mod n (Z.pos d) ltac:(lia)) as Hdm.
  pose proof (Z.mod_pos_bound n (Z.pos d) Hd) as Hr.
  set (fl := (n / Z.pos d)%Z) in *. set (r := (n mod Z.pos d)%Z) in *.
  assert (Hfl : (fl <= m)%Z) by nia.
  destruct (Z.compare_spec (2 * r) (Z.pos d)) as [He|Hl|Hg].
  - destruct (Z.even fl); [lia|]. nia.
  - lia.
  - nia.
Qed.

Lemma round_half_even_ge (y : Q) (m : Z) :
  (inject_Z m <= y)%Q -> (m <= Num.round_half_even y)%Z.
Proof.
  destruct y as [n d]. unfold Qle, Num.round_half_even; simpl.
  intros H. rewrite Z.mul_1_r in H.
  assert (Hd : (0 < Z.pos d)%Z) by lia.
  pose proof (Z.div_mod n (Z.pos d) ltac:(lia)) as Hdm.
  pose proof (Z.mod_pos_bound n (Z.pos d) Hd) as Hr.
  set (fl := (n / Z.pos d)%Z) in *. set (r := (n mod Z.pos d)%Z) in *.
  assert (Hfl : (m <= fl)%Z) by nia.
  destruct (Z.compare_spec (2 * r) (Z.pos d)) as [He|Hl|Hg].
  - destruct (Z.even fl); lia.
  - lia.
  - lia.
Qed.

(** Rounding to two decimals keeps a value between two bounds that are
    themselves multiples of 0.01. *)
Lemma round2_bounds (x : Q) (lo hi : Z) :
  (inject_Z lo / 100 <= x)%Q -> (x <= inject_Z hi / 100)%Q ->
  (inject_Z lo / 100 <= Num.round2 x)%Q /\ (Num.round2 x <= inject_Z hi / 100)%Q.
Proof.
  intros Hlo Hhi. unfold Num.round2, Num.py_round.
  change (Pos.of_nat (10 ^ 2)) with 100%positive.
  assert (H1 : (inject_Z lo <= x * inject_Z 100)%Q).
  { change (inject_Z 100) with 100%Q.
    revert Hlo. generalize (inject_Z lo). intros q Hq.
    apply Qmult_le_r with (z := (/ 100)%Q); [reflexivity|].
    change (x * 100 * / 100)%Q with (x * 100 / 100)%Q.
    rewrite Qdiv_mult_l by discriminate. exact Hq. }
  assert (H2 : (x * inject_Z 100 <= inject_Z hi)%Q).
  { change (inject_Z 100) with 100%Q.
    revert Hhi. generalize (inject_Z hi). intros q Hq.
    apply Qmult_le_r with (z := (/ 100)%Q); [reflexivity|].
    change (x * 100 * / 100)%Q with (x * 100 / 100)%Q.
    rewrite Qdiv_mult_l by discriminate. exact Hq. }
  apply round_half_even_ge in H1. apply round_half_even_le in H2.
  set (k := Num.round_half_even (x * inject_Z 100)) in *.
  unfold Qle, Qdiv, Qmult, Qinv, inject_Z; simpl. split; lia.
Qed.

(** ** Ensemble voter *)

Section EnsembleFacts.
Import Ensemble.

Lemma val_score_rubric (label : string) : val_score label = rubric_valuation label.
Proof.
  unfold val_score, rubric_valuation, val_scores.
  destruct (String.eqb_spec label "undervalued") as [->|H1]; [reflexivity|].
  destruct (String.eqb_spec label "fair") as [->|H2]; [reflexivity|].
  destruct (String.eqb_spec label "overvalued") as [->|H3]; [reflexivity|].
  rewrite !lookup_insert_ne by congruence.
  by rewrite lookup_singleton_ne by congruence.
Qed.

Lemma health_score_rubric (label : string) : health_score label = rubric_health label.
Proof.
  unfold health_score, rubric_health, health_scores.
  destruct (String.eqb_spec label "excellent") as [->|H1]; [reflexivity|].
  destruct (String.eqb_spec label "fair") as [->|H2]; [reflexivity|].
  destruct (String.eqb_spec label "poor") as [->|H3]; [reflexivity|].
  rewrite !lookup_insert_ne by congruence.
  by rewrite lookup_singleton_ne by congruence.
Qed.

Lemma growth_score_rubric (label : string) : growth_score label = rubric_growth label.
Proof.
  unfold growth_score, rubric_growth, growth_scores.
  destruct (String.eqb_spec label "strong_growth") as [->|H1]; [reflexivity|].
  destruct (String.eqb_spec label "moderate_growth") as [->|H2]; [reflexivity|].
  destruct (String.eqb_spec label "weak_growth") as [->|H3]; [reflexivity|].
  destruct (String.eqb_spec label "declining") as [->|H4]; [reflexivity|].
  rewrite !lookup_insert_ne by congruence.
  by rewrite lookup_singleton_ne by congruence.
Qed.

Lemma rubric_valuation_range label : (-1 <= rubric_valuation label <= 1)%Z.
Proof. unfold rubric_valuation. repeat case_match; lia. Qed.
Lemma rubric_health_range label : (-1 <= rubric_health label <= 1)%Z.
Proof. unfold rubric_health. repeat case_match; lia. Qed.
Lemma rubric_growth_range label : (-1 <= rubric_growth label <= 1)%Z.
Proof. unfold rubric_growth. repeat case_match; lia. Qed.

Lemma total_score_range v h g : (-3 <= total_score v h g <= 3)%Z.
Proof.
  unfold total_score.
  rewrite val_score_rubric, health_score_rubric, growth_score_rubric.
  pose proof (rubric_valuation_range v). pose proof (rubric_health_range h).
  pose proof (rubric_growth_range g). lia.
Qed.

(** Seven totals are possible; a property of all seven holds of every
    total the voter can compute. *)
Lemma total_cases (P : Z -> Prop) :
  P (-3)%Z -> P (-2)%Z -> P (-1)%Z -> P 0%Z -> P 1%Z -> P 2%Z -> P 3%Z ->
  forall t, (-3 <= t <= 3)%Z -> P t.
Proof.
  intros ? ? ? ? ? ? ? t Ht.
  assert (t = -3 \/ t = -2 \/ t = -1 \/ t = 0 \/ t = 1 \/ t = 2 \/ t = 3)%Z
    as Hc by lia.
  destruct Hc as [->|[->|[->|[->|[->|[->| ->]]]]]]; assumption.
Qed.

Lemma voting_recommendation v h g c1 c2 c3 :
  recommendation (_ensemble_voting v h g c1 c2 c3) = (agreement (total_score v h g)).1.
Proof. unfold _ensemble_voting. by destruct (agreement _). Qed.

Lemma voting_confidence v h g c1 c2 c3 :
  confidence (_ensemble_voting v h g c1 c2 c3) =
  Num.round2 ((Num.py_min (agreement (total_score v h g)).2 0.95
               + (c1 + c2 + c3) / 3) / 2)%Q.
Proof. unfold _ensemble_voting. by destruct (agreement _). Qed.

(** The capped agreement confidence lies between 0.75 and 0.90. *)
Lemma agreement_confidence_range t :
  (-3 <= t <= 3)%Z ->
  (0.75 <= Num.py_min (agreement t).2 0.95)%Q /\
  (Num.py_min (agreement t).2 0.95 <= 0.90)%Q.
Proof.
  revert t. apply total_cases; vm_compute; split; discriminate.
Qed.

End EnsembleFacts.

(** C2. For every triple of labels, the canonical ones included, the
    voter's sub-scores are those of the rubric (undervalued +1, fair -1,
    overvalued -1; excellent +1, fair 0, poor -1; strong_growth +1,
    moderate_growth +1, weak_growth 0, declining -1; anything else 0),
    the total is their integer sum, and the recommendation is BUY exactly
    for a total of 2 or 3, SELL exactly for -3 or -2, HOLD otherwise. *)
Theorem ensemble_total_and_decision :
  forall (val_pred health_pred growth_pred : string) (c1 c2 c3 : Q),
    Ensemble.val_score val_pred = Ensemble.rubric_valuation val_pred /\
    Ensemble.health_score health_pred = Ensemble.rubric_health health_pred /\
    Ensemble.growth_score growth_pred = Ensemble.rubric_growth growth_pred /\
    Ensemble.total_score val_pred health_pred growth_pred =
      (Ensemble.rubric_valuation val_pred + Ensemble.rubric_health health_pred
       + Ensemble.rubric_growth growth_pred)%Z /\
    (-3 <= Ensemble.total_score val_pred health_pred growth_pred <= 3)%Z /\
    Ensemble.recommendation
      (Ensemble._ensemble_voting val_pred health_pred growth_pred c1 c2 c3) =
    Ensemble.rubric_decision (Ensemble.total_score val_pred health_pred growth_pred).
Proof.
  intros v h g c1 c2 c3.
  pose proof (total_score_range v h g) as Hr.
  repeat split; try apply Hr.
  - apply val_score_rubric.
  - apply health_score_rubric.
  - apply growth_score_rubric.
  - unfold Ensemble.total_score.
    by rewrite val_score_rubric, health_score_rubric, growth_score_rubric.
  - rewrite voting_recommendation.
    revert Hr. generalize (Ensemble.total_score v h g).
    apply (total_cases (fun t => (Ensemble.agreement t).1 = Ensemble.rubric_decision t));
      reflexivity.
Qed.

(** C3. For per-model confidences in [0, 1] and any three labels, the
    final confidence (the mean of the agreement confidence and of the
    average model confidence, rounded to two decimals) lies in
    [0, 0.95]. *)
Theorem final_confidence_range :
  forall (val_pred health_pred growth_pred : string) (c1 c2 c3 : Q),
    (0 <= c1 <= 1)%Q -> (0 <= c2 <= 1)%Q -> (0 <= c3 <= 1)%Q ->
    (0 <= Ensemble.confidence
            (Ensemble._ensemble_voting val_pred health_pred growth_pred c1 c2 c3))%Q /\
    (Ensemble.confidence
       (Ensemble._ensemble_voting val_pred health_pred growth_pred c1 c2 c3) <= 0.95)%Q.
Proof.
  intros v h g c1 c2 c3 [H1 H1'] [H2 H2'] [H3 H3'].
  rewrite voting_confidence.
  destruct (agreement_confidence_range _ (total_score_range v h g)) as [Ha Hb].
  set (ec := Num.py_min _ _) in *.
  destruct (round2_bounds ((ec + (c1 + c2 + c3) / 3) / 2) 0 95) as [Hlo Hhi].
  - change (inject_Z 0 / 100)%Q with (0 # 100)%Q.
    unfold Qdiv. change (/ 2)%Q with (1 # 2)%Q. change (/ 3)%Q with (1 # 3)%Q. lra.
  - change (inject_Z 95 / 100)%Q with (95 # 100)%Q.
    unfold Qdiv. change (/ 2)%Q with (1 # 2)%Q. change (/ 3)%Q with (1 # 3)%Q. lra.
  - split.
    + eapply Qle_trans; [|exact Hlo]. discriminate.
    + eapply Qle_trans; [exact Hhi|]. discriminate.
Qed.

Lemma final_confidence_range_witness :
  (0 <= Ensemble.confidence
          (Ensemble._ensemble_voting "undervalued" "excellent" "strong_growth" 1 1 1))%Q /\
  (Ensemble.confidence
     (Ensemble._ensemble_voting "undervalued" "excellent" "strong_growth" 1 1 1) <= 0.95)%Q.
Proof.
  apply (final_confidence_range "undervalued" "excellent" "strong_growth" 1 1 1);
    split; discriminate.
Defined.


(** ** Ratio calculator *)

Section RatioFacts.
Import Ratios.
Variable math_sqrt : Q -> Q.
Variable py_pow : Q -> Q -> Py.result Q.

(** With its keyword default of 0.0, [safe_growth] never yields
    [None]. *)
Lemma safe_growth_default_is_Some (new_val old_val : option Q) :
  is_Some (safe_growth new_val old_val growth_default).
Proof.
  unfold safe_growth, growth_default.
  destruct new_val, old_val; try (by eexists).
  destruct (Qeq_bool _ _); by eexists.
Qed.

Lemma volatility_is_Some (g1 g2 : option Q) :
  is_Some g1 -> is_Some g2 -> is_Some (volatility math_sqrt g1 g2).
Proof. intros [a ->] [b ->]. by eexists. Qed.

Lemma acceleration_is_Some (g1 g2 : option Q) :
  is_Some g1 -> is_Some g2 -> is_Some (acceleration g1 g2).
Proof. intros [a ->] [b ->]. by eexists. Qed.

(** The [else: ... = None] branches of the volatility and acceleration
    blocks are never taken: whatever the stock, the four metrics are
    stored as numbers. *)
Lemma volatility_and_acceleration_never_null (stock : Stock.t) :
  let r := calculate_ratios math_sqrt py_pow stock in
  is_Some (StockRatio.revenue_volatility r) /\
  is_Some (StockRatio.ebitda_volatility r) /\
  is_Some (StockRatio.revenue_acceleration r) /\
  is_Some (StockRatio.ebitda_acceleration r).
Proof.
  simpl. repeat split;
    first [ apply volatility_is_Some | apply acceleration_is_Some ];
    apply safe_growth_default_is_Some.
Qed.

Lemma stored_ratios_lookup (table : gmap Z StockRatio.t) (stock : Stock.t) :
  _calculate_and_store_ratios math_sqrt py_pow table stock !! Stock.id stock =
  Some (calculate_ratios math_sqrt py_pow stock).
Proof. unfold _calculate_and_store_ratios, update_stock_ratios. apply lookup_insert_eq. Qed.

End RatioFacts.

(** C4. The stock "ABC" loses its 2023 revenue per share, which leaves the
    2023-to-2024 growth rate undefined.  The calculator nevertheless stores
    numbers: [safe_growth] hands back its default 0.0, so the revenue
    volatility is the square root of a variance of 1/64 and the revenue
    acceleration is 0.25; neither is null.  The 1-year growth is 0.25. *)
Theorem missing_year_volatility_is_not_null :
  forall (math_sqrt : Q -> Q) (py_pow : Q -> Q -> Py.result Q)
         (table : gmap Z StockRatio.t),
  exists r variance accel growth,
    Ratios._calculate_and_store_ratios math_sqrt py_pow table
      Examples.stock_missing_2023 !! 1%Z = Some r /\
    StockRatio.revenue_volatility r = Some (math_sqrt variance) /\
    (variance == 1 # 64)%Q /\
    StockRatio.revenue_acceleration r = Some accel /\ (accel == 0.25)%Q /\
    StockRatio.revenue_growth_1y r = Some growth /\ (growth == 0.25)%Q /\
    StockRatio.revenue_volatility r <> None /\
    StockRatio.revenue_acceleration r <> None.
Proof.
  intros math_sqrt py_pow table.
  eexists; eexists; eexists; eexists.
  split; [apply (stored_ratios_lookup math_sqrt py_pow table Examples.stock_missing_2023)|].
  split; [cbv; reflexivity|].
  split; [reflexivity|].
  split; [cbv; reflexivity|].
  split; [reflexivity|].
  split; [cbv; reflexivity|].
  split; [reflexivity|].
  split; discriminate.
Qed.

(** ** Feature assembler *)

Lemma or_zero_value (x : Q) : (Features.or_zero (Some x) == x)%Q.
Proof.
  unfold Features.or_zero. destruct (Qeq_bool x 0) eqn:E; [|reflexivity].
  apply Qeq_bool_iff in E. by rewrite E.
Qed.

(** C7. For every stock the valuation assembler returns one row holding,
    in this order, pe_ratio, pb_ratio, roe, debt_equity and profit_margin,
    a null column replaced by 0 and any other column by its value; the
    name list is that fixed list and the dictionary maps each name to the
    entry of the vector at the same position.  The stock "ABC" gives
    [15, 1.2, 18, 0.4, 12]. *)
Theorem model_1_vector_order_and_defaults :
  (forall stock : Stock.t,
     let v := Features.or_zero in
     let row :=
       [v (Stock.pe_ratio stock); v (Stock.pb_ratio stock); v (Stock.roe stock);
        v (Stock.debt_equity stock); v (Stock.profit_margin stock)] in
     exists feature_dict : gmap string Q,
       Features._prepare_model_1_features stock =
         ([row],
          ["pe_ratio"; "pb_ratio"; "roe"; "debt_equity"; "profit_margin"],
          feature_dict) /\
       map (fun name => feature_dict !! name)
           ["pe_ratio"; "pb_ratio"; "roe"; "debt_equity"; "profit_margin"] =
         map Some row) /\
  (forall x : Q, Features.or_zero None = 0%Q /\ (Features.or_zero (Some x) == x)%Q) /\
  (Features._prepare_model_1_features Examples.stock_abc).1.1 =
    [[15; 1.2; 18; 0.4; 12]%Q] /\
  (Features._prepare_model_1_features Examples.stock_partial).1.1 =
    [[15; 0; 0; 0.4; 12]%Q].
Proof.
  split; [|split; [|split]].
  - intros stock v row. eexists. split.
    + unfold Features._prepare_model_1_features, Features.assemble. cbn. reflexivity.
    + reflexivity.
  - intros x. split; [reflexivity|apply or_zero_value].
  - reflexivity.
  - reflexivity.
Qed.


(** ** History *)

Section HistoryFacts.
Variable isoformat : Prediction.datetime -> string.

Lemma detail_absent (db : Db.t) (prediction_id user_id : Z) :
  Db.predictions db !! prediction_id = None ->
  History.get_prediction_by_id isoformat db prediction_id user_id =
  Py.Ret (Error 404 "Prediction not found").
Proof.
  intros H. unfold History.get_prediction_by_id, Db.get_prediction_by_id.
  by rewrite H.
Qed.

Lemma detail_not_owner (db : Db.t) (prediction_id user_id : Z) (p : Prediction.t) :
  Db.predictions db !! prediction_id = Some p ->
  Prediction.user_id p <> user_id ->
  History.get_prediction_by_id isoformat db prediction_id user_id =
  Py.Ret (Error 403 "Access denied").
Proof.
  intros H Hne. unfold History.get_prediction_by_id, Db.get_prediction_by_id.
  rewrite H. apply Z.eqb_neq in Hne. by rewrite Hne.
Qed.

Lemma detail_owner (db : Db.t) (prediction_id : Z) (p : Prediction.t) :
  Db.predictions db !! prediction_id = Some p ->
  exists data,
    History.get_prediction_by_id isoformat db prediction_id (Prediction.user_id p) =
    Py.Ret (Ok data).
Proof.
  intros H. unfold History.get_prediction_by_id, Db.get_prediction_by_id.
  rewrite H, Z.eqb_refl. by eexists.
Qed.

End HistoryFacts.


(** ** Explainer *)

Section ResultFacts.
Import Py.

Lemma bind_Ret_inv {A B} (c : result A) (k : A -> result B) (v : B) :
  c ≫= k = Ret v -> exists x, c = Ret x /\ k x = Ret v.
Proof. destruct c as [e|x]; [discriminate|]. intros H. by exists x. Qed.

(** A [try] whose handler always returns a value returns a value; what
    holds of every value of the body and of the handler holds of it. *)
Lemma try_except_total {A} (P : A -> Prop) (body : result A)
    (handler : exn -> result A) :
  (forall v, body = Ret v -> P v) ->
  (forall e, exists v, handler e = Ret v /\ P v) ->
  exists v, try_except body handler = Ret v /\ P v.
Proof.
  intros Hb Hh. destruct body as [e|v]; simpl.
  - apply Hh.
  - exists v. split; [reflexivity|]. by apply Hb.
Qed.

Lemma mapM_length {A B} (f : A -> result B) (l : list A) (l' : list B) :
  mapM f l = Ret l' -> length l' = length l.
Proof.
  revert l'. induction l as [|x l IH]; intros l' H; simpl in H.
  - by inversion H.
  - destruct (f x) as [|y]; [discriminate|]. simpl in H.
    destruct (mapM f l) as [|ys]; [discriminate|]. simpl in H.
    inversion H; subst. simpl. f_equal. by apply IH.
Qed.

End ResultFacts.

(** Invert a chain of binds that is known to return. *)
Ltac bind_inv H :=
  repeat
    (cbv beta in H;
     match type of H with
     | mbind _ _ = Py.Ret _ =>
         let x := fresh "x" in
         let Hx := fresh "Hx" in
         apply bind_Ret_inv in H; destruct H as (x & Hx & H)
     end).

Section ExplainerFacts.
Import Py Explainer.

Lemma argsort_insert_length x l : length (argsort_insert x l) = S (length l).
Proof.
  induction l as [|y l IH]; simpl; [reflexivity|].
  destruct (Qle_bool _ _); simpl; [reflexivity|]. by rewrite IH.
Qed.

Lemma argsort_length (a : list Q) : length (argsort a) = length a.
Proof.
  unfold argsort. rewrite length_map.
  assert (H : forall l : list (nat * Q), length (foldr argsort_insert [] l) = length l).
  { induction l as [|x l IH]; simpl; [reflexivity|].
    by rewrite argsort_insert_length, IH. }
  rewrite H, length_zip, length_seq. lia.
Qed.

(** [np.argsort(a)[-3:][::-1]] has three entries, or as many as the
    array has. *)
Lemma top3_indices_length (a : list Q) :
  length (top3_indices a) = Nat.min 3 (length a).
Proof.
  unfold top3_indices. rewrite length_rev, length_drop, argsort_length. lia.
Qed.

Lemma collect_length names values scores idxs tf :
  collect names values scores idxs = Ret tf -> length tf = length idxs.
Proof. apply mapM_length. Qed.

(** The list a [collect] loop builds is as long as its index list, and
    that one comes from [top3_indices]. *)
Ltac by_collect :=
  match goal with
  | Hc : collect _ _ _ (top3_indices _) = Ret _ |- _ =>
      apply collect_length in Hc; unfold at_most_three; simpl;
      rewrite Hc, top3_indices_length; lia
  end.

Lemma rank_by_shap_at_most_three names values shap out :
  rank_by_shap names values shap = Ret out -> at_most_three out.
Proof.
  unfold rank_by_shap. intros H. bind_inv H. inversion H; subst. by_collect.
Qed.

Lemma explain_with_feature_importance_total model ft names values :
  exists out,
    explain_with_feature_importance model ft names values = Ret out /\
    at_most_three out.
Proof.
  unfold explain_with_feature_importance. apply try_except_total.
  - intros out H. bind_inv H. inversion H; subst. by_collect.
  - intros e. eexists. split; [reflexivity|]. unfold at_most_three; simpl. lia.
Qed.

Lemma _explain_svm_with_coefficients_total model ft names values :
  exists out,
    _explain_svm_with_coefficients model ft names values = Ret out /\
    at_most_three out.
Proof.
  unfold _explain_svm_with_coefficients. apply try_except_total.
  - intros out H. destruct (coef_ model) as [c|];
      bind_inv H; inversion H; subst; by_collect.
  - intros e. eexists. split; [reflexivity|]. unfold at_most_three; simpl. lia.
Qed.

Variable tree_explainer : Type.
Variable TreeExplainer : Estimator -> result tree_explainer.
Variable tree_shap_values : tree_explainer -> list (list Q) -> result shap_output.
Variable kernel_explainer : Type.
Variable KernelExplainer :
  (list (list Q) -> result (list (list Q))) -> list (list Q) -> result kernel_explainer.
Variable kernel_shap_values :
  kernel_explainer -> list (list Q) -> nat -> result shap_output.
Variable random_choice : nat -> nat -> result (list nat).

(** Case analysis on what the SHAP library handed back. *)
Ltac on_shap_output H :=
  match type of H with
  | match ?s with ShapList _ => _ | ShapArray2 _ => _ | ShapArray3 _ => _ end = _ =>
      destruct s as [per_class|a|a]
  end.

Lemma explain_with_shap_tree_total model ft names values :
  exists out,
    explain_with_shap_tree tree_explainer TreeExplainer tree_shap_values
      model ft names values = Ret out /\
    at_most_three out.
Proof.
  unfold explain_with_shap_tree. apply try_except_total.
  - intros out H. bind_inv H. on_shap_output H; bind_inv H.
    + by apply rank_by_shap_at_most_three in H.
    + by apply rank_by_shap_at_most_three in H.
    + match type of H with
      | match ?m with [] => _ | _ :: _ => _ end = _ => destruct m; [|discriminate]
      end.
      by apply rank_by_shap_at_most_three in H.
  - intros e. apply explain_with_feature_importance_total.
Qed.

Lemma explain_with_shap_kernel_total model background ft names values :
  exists out,
    explain_with_shap_kernel kernel_explainer KernelExplainer kernel_shap_values
      random_choice model background ft names values = Ret out /\
    at_most_three out.
Proof.
  unfold explain_with_shap_kernel. apply try_except_total.
  - intros out H. bind_inv H. on_shap_output H; [discriminate| |];
      bind_inv H; by apply rank_by_shap_at_most_three in H.
  - intros e. apply _explain_svm_with_coefficients_total.
Qed.

(** The fallback chain of the sampling explainer, link by link. *)
Lemma kernel_without_predict_proba model background ft names values :
  has_predict_proba model = false ->
  explain_with_shap_kernel kernel_explainer KernelExplainer kernel_shap_values
    random_choice model background ft names values =
  _explain_svm_with_coefficients model ft names values.
Proof. intros H. unfold explain_with_shap_kernel. by rewrite H. Qed.

Lemma tree_without_explainer model ft names values e :
  TreeExplainer model = Raise e ->
  explain_with_shap_tree tree_explainer TreeExplainer tree_shap_values
    model ft names values =
  explain_with_feature_importance model ft names values.
Proof. intros H. unfold explain_with_shap_tree. by rewrite H. Qed.

End ExplainerFacts.

(** C6. Whatever the estimator, the arrays, the name list, the background
    sample and the behaviour of the SHAP library, each of the three entry
    points of the explainer returns a pair of an attribution list and a
    reason string and never raises; the list has at most three entries. *)
Theorem explainer_never_raises :
  forall (tree_explainer : Type)
         (TreeExplainer : Explainer.Estimator -> Py.result tree_explainer)
         (tree_shap_values :
            tree_explainer -> list (list Q) -> Py.result Explainer.shap_output)
         (kernel_explainer : Type)
         (KernelExplainer :
            (list (list Q) -> Py.result (list (list Q))) -> list (list Q) ->
            Py.result kernel_explainer)
         (kernel_shap_values :
            kernel_explainer -> list (list Q) -> nat -> Py.result Explainer.shap_output)
         (random_choice : nat -> nat -> Py.result (list nat))
         (model : Explainer.Estimator) (background_data features_transformed : list (list Q))
         (feature_names : list string) (feature_values : list Q),
    (exists top_features reason,
       Explainer.explain_with_feature_importance
         model features_transformed feature_names feature_values =
       Py.Ret (top_features, reason) /\ length top_features <= 3) /\
    (exists top_features reason,
       Explainer.explain_with_shap_tree tree_explainer TreeExplainer tree_shap_values
         model features_transformed feature_names feature_values =
       Py.Ret (top_features, reason) /\ length top_features <= 3) /\
    (exists top_features reason,
       Explainer.explain_with_shap_kernel kernel_explainer KernelExplainer
         kernel_shap_values random_choice
         model background_data features_transformed feature_names feature_values =
       Py.Ret (top_features, reason) /\ length top_features <= 3).
Proof.
  intros. repeat split.
  - destruct (explain_with_feature_importance_total
                model features_transformed feature_names feature_values)
      as ([tf r] & H & Hl).
    by exists tf, r.
  - destruct (explain_with_shap_tree_total tree_explainer TreeExplainer tree_shap_values
                model features_transformed feature_names feature_values)
      as ([tf r] & H & Hl).
    by exists tf, r.
  - destruct (explain_with_shap_kernel_total kernel_explainer KernelExplainer
                kernel_shap_values random_choice
                model background_data features_transformed feature_names feature_values)
      as ([tf r] & H & Hl).
    by exists tf, r.
Qed.

(** The last resorts at work: a classifier without probabilities and
    without coefficients is explained by the size of its raw features;
    with a name list that is too short the answer is the empty one; a
    model without importances gets the empty answer from the first
    explainer. *)
Example kernel_raw_feature_ranking :
  Explainer.explain_with_shap_kernel unit Examples.KernelExplainer
    Examples.kernel_shap_values Examples.random_choice Examples.bare_model
    [] [[1; -2; 3]%Q] ["a_b"; "c"; "d"] [1; -2; 3]%Q =
  Py.Ret ([ {| Explainer.name := "d"; Explainer.value := 3; Explainer.impact := 3 |};
            {| Explainer.name := "c"; Explainer.value := -2; Explainer.impact := 2 |};
            {| Explainer.name := "a_b"; Explainer.value := 1; Explainer.impact := 1 |} ],
          "Prediction based on key growth metrics. d, c, a b").
Proof. vm_compute. reflexivity. Qed.

Example kernel_empty_answer :
  Explainer.explain_with_shap_kernel unit Examples.KernelExplainer
    Examples.kernel_shap_values Examples.random_choice Examples.bare_model
    [] [[1; -2; 3]%Q] ["a_b"; "c"] [1; -2; 3]%Q =
  Py.Ret ([], "Unable to generate detailed explanation.").
Proof. vm_compute. reflexivity. Qed.

Example importance_empty_answer :
  Explainer.explain_with_feature_importance Examples.bare_model
    [[1; -2; 3]%Q] ["a_b"; "c"; "d"] [1; -2; 3]%Q =
  Py.Ret ([], "Unable to generate explanation.").
Proof. vm_compute. reflexivity. Qed.


(** ** Orchestrator *)

Section SortFacts.
Import Explainer Orchestrator.

Lemma insert_desc_perm x l : Permutation (insert_desc x l) (x :: l).
Proof.
  induction l as [|y l IH]; simpl; [reflexivity|].
  destruct (Qle_bool _ _); [reflexivity|].
  rewrite IH. apply perm_swap.
Qed.

Lemma sort_by_impact_desc_perm l : Permutation (sort_by_impact_desc l) l.
Proof.
  induction l as [|x l IH]; simpl; [reflexivity|].
  rewrite insert_desc_perm. by constructor.
Qed.

Lemma insert_desc_sorted x l :
  StronglySorted impact_ge l -> StronglySorted impact_ge (insert_desc x l).
Proof.
  induction 1 as [|y l Hl IH Hy]; simpl.
  - repeat constructor.
  - destruct (Qle_bool (impact y) (impact x)) eqn:E.
    + apply Qle_bool_iff in E. constructor.
      * by constructor.
      * constructor; [exact E|].
        eapply Forall_impl; [exact Hy|]. unfold impact_ge. intros z Hz.
        by eapply Qle_trans.
    + assert (Hlt : (impact x <= impact y)%Q).
      { destruct (Qlt_le_dec (impact y) (impact x)) as [Hl'|Hl']; [|exact Hl'].
        apply Qlt_le_weak in Hl'. by apply Qle_bool_iff in Hl'; congruence. }
      constructor; [exact IH|].
      eapply Permutation_Forall; [symmetry; apply insert_desc_perm|].
      by constructor.
Qed.

Lemma sort_by_impact_desc_sorted l : StronglySorted impact_ge (sort_by_impact_desc l).
Proof.
  induction l as [|x l IH]; simpl; [constructor|]. by apply insert_desc_sorted.
Qed.

(** The sort is stable: attributions of one impact keep the order in
    which the three lists were concatenated. *)
Lemma insert_desc_stable (q : Q) x l :
  filter (fun a => Qeq_bool (impact a) q = true) (insert_desc x l) =
  filter (fun a => Qeq_bool (impact a) q = true) (x :: l).
Proof.
  induction l as [|y l IH]; simpl; [reflexivity|].
  destruct (Qle_bool (impact y) (impact x)) eqn:E; [reflexivity|].
  rewrite (filter_cons _ y (insert_desc x l)), IH.
  rewrite !filter_cons.
  destruct (decide (Qeq_bool (impact x) q = true)) as [Hx|Hx];
    destruct (decide (Qeq_bool (impact y) q = true)) as [Hy|Hy]; try reflexivity.
  exfalso. apply Qeq_bool_iff in Hx, Hy.
  assert (Hle : (impact y <= impact x)%Q) by (rewrite Hx, Hy; apply Qle_refl).
  apply Qle_bool_iff in Hle. congruence.
Qed.

Lemma sort_by_impact_desc_stable (q : Q) l :
  filter (fun a => Qeq_bool (impact a) q = true) (sort_by_impact_desc l) =
  filter (fun a => Qeq_bool (impact a) q = true) l.
Proof.
  induction l as [|x l IH]; simpl; [reflexivity|].
  rewrite insert_desc_stable, !filter_cons, IH. reflexivity.
Qed.

End SortFacts.

Section OrchestratorFacts.
Import Py Explainer Orchestrator.

Variable tree_explainer : Type.
Variable TreeExplainer : Estimator -> result tree_explainer.
Variable tree_shap_values : tree_explainer -> list (list Q) -> result shap_output.
Variable kernel_explainer : Type.
Variable KernelExplainer :
  (list (list Q) -> result (list (list Q))) -> list (list Q) -> result kernel_explainer.
Variable kernel_shap_values :
  kernel_explainer -> list (list Q) -> nat -> result shap_output.
Variable random_choice : nat -> nat -> result (list nat).
Variable models : gmap string ModelData.
Variable insert_prediction :
  Db.t -> Prediction.t -> result (Z * option Prediction.datetime).
Variable refresh_prediction : Db.t -> Z -> result unit.
Variable isoformat : Prediction.datetime -> string.

Local Abbreviation run_model :=
  (_run_model_prediction tree_explainer TreeExplainer tree_shap_values
     kernel_explainer KernelExplainer kernel_shap_values random_choice models).
Local Abbreviation three_models :=
  (run_models tree_explainer TreeExplainer tree_shap_values
     kernel_explainer KernelExplainer kernel_shap_values random_choice models).
Local Abbreviation predict :=
  (predict_stock tree_explainer TreeExplainer tree_shap_values
     kernel_explainer KernelExplainer kernel_shap_values random_choice models
     insert_prediction refresh_prediction isoformat).
Local Abbreviation found :=
  (predict_found tree_explainer TreeExplainer tree_shap_values
     kernel_explainer KernelExplainer kernel_shap_values random_choice models
     insert_prediction refresh_prediction isoformat).

(** Every model hands the orchestrator at most three attributions. *)
Lemma run_model_at_most_three model_key features names dict r :
  run_model model_key features names dict = Ret r ->
  length (Prediction.top_features r) <= 3.
Proof.
  unfold _run_model_prediction. intros H. bind_inv H.
  match type of H with
  | (let '(_, _) := ?p in _) = _ => destruct p as [tf reason]
  end.
  inversion H; subst; simpl. clear H.
  match goal with
  | Hd : (if _ then _ else _) = Ret (tf, reason) |- _ => rename Hd into Hdispatch
  end.
  destruct (String.eqb _ "xgboost").
  { edestruct explain_with_feature_importance_total as (out & Ho & Hl).
    rewrite Ho in Hdispatch. inversion Hdispatch; subst. exact Hl. }
  destruct (String.eqb _ "random_forest").
  { edestruct explain_with_shap_tree_total as (out & Ho & Hl).
    rewrite Ho in Hdispatch. inversion Hdispatch; subst. exact Hl. }
  destruct (String.eqb _ "svm").
  { bind_inv Hdispatch.
    edestruct explain_with_shap_kernel_total as (out & Ho & Hl).
    rewrite Ho in Hdispatch. inversion Hdispatch; subst. exact Hl. }
  inversion Hdispatch; subst. simpl. lia.
Qed.

(** The three runs behind a result of [run_models]. *)
Lemma run_models_inv stock ratios r1 r2 r3 :
  three_models stock ratios = Ret (r1, r2, r3) ->
  exists f1 n1 d1 f2 n2 d2 f3 n3 d3,
    run_model "model_1" f1 n1 d1 = Ret r1 /\
    run_model "model_2" f2 n2 d2 = Ret r2 /\
    run_model "model_3" f3 n3 d3 = Ret r3.
Proof.
  unfold run_models. intros H.
  destruct (Features._prepare_model_1_features stock) as [[f1 n1] d1].
  destruct (Features._prepare_model_2_features ratios) as [[f2 n2] d2].
  destruct (Features._prepare_model_3_features ratios) as [[f3 n3] d3].
  bind_inv H. inversion H; subst; clear H.
  exists f1, n1, d1, f2, n2, d2, f3, n3, d3. by repeat split.
Qed.

Lemma run_models_intro stock ratios r1 r2 r3 :
  (let '(f, n, d) := Features._prepare_model_1_features stock in
   run_model "model_1" f n d = Ret r1) ->
  (let '(f, n, d) := Features._prepare_model_2_features ratios in
   run_model "model_2" f n d = Ret r2) ->
  (let '(f, n, d) := Features._prepare_model_3_features ratios in
   run_model "model_3" f n d = Ret r3) ->
  three_models stock ratios = Ret (r1, r2, r3).
Proof.
  unfold run_models. intros H1 H2 H3.
  destruct (Features._prepare_model_1_features stock) as [[f1 n1] d1].
  destruct (Features._prepare_model_2_features ratios) as [[f2 n2] d2].
  destruct (Features._prepare_model_3_features ratios) as [[f3 n3] d3].
  by rewrite H1, H2, H3.
Qed.

(** The ways the steps after the two look-ups can end. *)
Lemma predict_found_cases db stock ratios user_id :
  (exists e,
     three_models stock ratios = Raise e /\
     found db stock ratios user_id = (db, Raise e)) \/
  (exists r1 r2 r3,
     three_models stock ratios = Ret (r1, r2, r3) /\
     let row := prediction_data user_id stock r1 r2 r3 in
     ((exists e,
         insert_prediction db row = Raise e /\
         found db stock ratios user_id = (db, Raise e)) \/
      (exists new_id ts,
         insert_prediction db row = Ret (new_id, ts) /\
         let db' := stored db new_id ts row in
         ((exists e,
             refresh_prediction db' new_id = Raise e /\
             found db stock ratios user_id = (db', Raise e)) \/
          (exists u,
             refresh_prediction db' new_id = Ret u /\
             match ts with
             | None =>
                 found db stock ratios user_id =
                 (db', Raise (AttributeError
                                "'NoneType' object has no attribute 'isoformat'"))
             | Some t =>
                 found db stock ratios user_id =
                 (db',
                  Ret {| response_stock_info :=
                           {| info_ticker := Stock.ticker stock;
                              info_company_name := Stock.company_name stock;
                              info_sector := default "Unknown" (Stock.sector stock) |};
                         model_1_valuation := r1;
                         model_2_health := r2;
                         model_3_growth := r3;
                         response_ensemble := ensemble_of r1 r2 r3;
                         prediction_id := new_id;
                         predicted_at := isoformat t |})
             end))))).
Proof.
  unfold predict_found, create_prediction, stored.
  destruct (three_models stock ratios) as [e|[[r1 r2] r3]]; [left; by exists e|].
  right. exists r1, r2, r3. split; [reflexivity|]. simpl.
  destruct (insert_prediction db _) as [e|[new_id ts]]; [left; by exists e|].
  right. exists new_id, ts. split; [reflexivity|].
  destruct (refresh_prediction _ new_id) as [e|u]; [left; by exists e|].
  right. exists u. split; [reflexivity|]. by destruct ts.
Qed.

(** A successful run went through the three models, stored its row
    and assembled its answer from their results. *)
Lemma predict_found_ok db stock ratios user_id db' resp :
  found db stock ratios user_id = (db', Ret resp) ->
  exists ts,
    three_models stock ratios =
      Ret (model_1_valuation resp, model_2_health resp, model_3_growth resp) /\
    response_ensemble resp =
      ensemble_of (model_1_valuation resp) (model_2_health resp)
                  (model_3_growth resp) /\
    predicted_at resp = isoformat ts /\
    db' = stored db (prediction_id resp) (Some ts)
            (prediction_data user_id stock (model_1_valuation resp)
               (model_2_health resp) (model_3_growth resp)).
Proof.
  intros H.
  destruct (predict_found_cases db stock ratios user_id)
    as [(e & _ & Hf)|(r1 & r2 & r3 & Hr & [(e & _ & Hf)|(new_id & ts & _ &
         [(e & _ & Hf)|(u & _ & Hf)])])];
    try (rewrite Hf in H; discriminate H).
  destruct ts as [t|]; rewrite Hf in H; [|discriminate H].
  inversion H; subst; simpl. exists t. by repeat split.
Qed.

Lemma predict_found_ok_inv db stock ratios user_id db' resp :
  found db stock ratios user_id = (db', Ret resp) ->
  exists f1 n1 d1 f2 n2 d2 f3 n3 d3,
    run_model "model_1" f1 n1 d1 = Ret (model_1_valuation resp) /\
    run_model "model_2" f2 n2 d2 = Ret (model_2_health resp) /\
    run_model "model_3" f3 n3 d3 = Ret (model_3_growth resp) /\
    ensemble_top_features (response_ensemble resp) =
      overall_top_features (model_1_valuation resp) (model_2_health resp)
                           (model_3_growth resp).
Proof.
  intros H. apply predict_found_ok in H. destruct H as (ts & Hr & He & _).
  apply run_models_inv in Hr.
  destruct Hr as (f1 & n1 & d1 & f2 & n2 & d2 & f3 & n3 & d3 & H1 & H2 & H3).
  exists f1, n1, d1, f2, n2, d2, f3, n3, d3. repeat split; try assumption.
  by rewrite He.
Qed.

(** What [predict_stock] answers, by what it found. *)
Lemma predict_stock_cases db ticker user_id :
  (Db.get_stock_by_ticker db ticker = None /\
   predict db ticker user_id =
     Ret (db, Error 404 ("Stock with ticker " ++ ticker ++ " not found"))) \/
  (exists stock,
     Db.get_stock_by_ticker db ticker = Some stock /\
     Db.get_stock_ratios db (Stock.id stock) = None /\
     predict db ticker user_id =
       Ret (db, Error 400
              "Stock ratios not calculated. Please ensure all financial data is available.")) \/
  (exists stock ratios db',
     Db.get_stock_by_ticker db ticker = Some stock /\
     Db.get_stock_ratios db (Stock.id stock) = Some ratios /\
     ((exists e, found db stock ratios user_id = (db', Raise e) /\
                 predict db ticker user_id =
                   Ret (db', Error 500 ("Prediction error: " ++ str e))) \/
      (exists resp, found db stock ratios user_id = (db', Ret resp) /\
                    predict db ticker user_id = Ret (db', Ok resp)))).
Proof.
  unfold predict_stock.
  destruct (Db.get_stock_by_ticker db ticker) as [stock|]; [|by left].
  right. destruct (Db.get_stock_ratios db (Stock.id stock)) as [ratios|] eqn:Hr.
  - right. destruct (found db stock ratios user_id) as [db' [e|resp]] eqn:Hf.
    + exists stock, ratios, db'. split; [reflexivity|]. split; [exact Hr|].
      left. by exists e.
    + exists stock, ratios, db'. split; [reflexivity|]. split; [exact Hr|].
      right. by exists resp.
  - left. by exists stock.
Qed.

Lemma predict_stock_ok_inv db ticker user_id db' resp :
  predict db ticker user_id = Ret (db', Ok resp) ->
  exists stock ratios,
    Db.get_stock_by_ticker db ticker = Some stock /\
    Db.get_stock_ratios db (Stock.id stock) = Some ratios /\
    found db stock ratios user_id = (db', Ret resp).
Proof.
  intros H.
  destruct (predict_stock_cases db ticker user_id)
    as [[_ Hp]|[(stock & _ & _ & Hp)|(stock & ratios & db2 & Hs & Hr &
         [(e & _ & Hp)|(resp2 & Hf & Hp)])]];
    rewrite Hp in H; try discriminate H.
  inversion H; subst. by exists stock, ratios.
Qed.


End OrchestratorFacts.


(** C1. The voter looks its labels up as they come.  Every triple of class
    labels the model registry declares scores 0 + 0 + 0 and is answered
    HOLD, while the lower-case spelling of UNDERVALUED / EXCELLENT /
    STRONG_GROWTH scores 3 and is answered BUY; the descriptor tables of
    the reasoning text, on the other hand, know the upper-case labels
    only. *)
Theorem upper_case_labels_score_zero :
  Forall (fun v =>
    Forall (fun h =>
      Forall (fun g =>
        Ensemble.total_score v h g = 0%Z /\
        Ensemble.recommendation (Ensemble._ensemble_voting v h g 0.8 0.9 0.7) = "HOLD")
      Ensemble.model_3_classes)
    Ensemble.model_2_classes)
  Ensemble.model_1_classes /\
  Ensemble._ensemble_voting "UNDERVALUED" "EXCELLENT" "STRONG_GROWTH" 0.8 0.9 0.7 =
    {| Ensemble.recommendation := "HOLD"; Ensemble.confidence := 0.78 |} /\
  Ensemble.total_score "undervalued" "excellent" "strong_growth" = 3%Z /\
  Ensemble._ensemble_voting "undervalued" "excellent" "strong_growth" 0.8 0.9 0.7 =
    {| Ensemble.recommendation := "BUY"; Ensemble.confidence := 0.85 |} /\
  Explainer.val_desc "UNDERVALUED" = "undervalued" /\
  Explainer.val_desc "undervalued" = "valued" /\
  Explainer.health_desc "EXCELLENT" = "excellent financial health" /\
  Explainer.health_desc "excellent" = "financial health" /\
  Explainer.growth_desc "STRONG_GROWTH" = "strong growth trajectory" /\
  Explainer.growth_desc "strong_growth" = "growth".
Proof.
  split; [|repeat split; vm_compute; reflexivity].
  repeat constructor; vm_compute; reflexivity.
Qed.

(** C5, the claim as written, fails: for "ABC" and the example registry
    the request reaches the ensemble stage with three attributions from
    each model, nine in all, not five from each and fifteen in all. *)
Lemma merged_attributions_are_not_fifteen :
  exists db' resp,
    Orchestrator.predict_stock Explainer.Estimator Examples.TreeExplainer
      Examples.tree_shap_values unit Examples.KernelExplainer
      Examples.kernel_shap_values Examples.random_choice Examples.models
      Examples.insert_ok Examples.refresh_ok Examples.isoformat Examples.db_abc "abc" 42 =
    Py.Ret (db', Ok resp) /\
    length (Prediction.top_features (Orchestrator.model_1_valuation resp)) = 3 /\
    length (Prediction.top_features (Orchestrator.model_2_health resp)) = 3 /\
    length (Prediction.top_features (Orchestrator.model_3_growth resp)) = 3 /\
    ~ (length (Prediction.top_features (Orchestrator.model_1_valuation resp)) = 5 /\
       length (Prediction.top_features (Orchestrator.model_2_health resp)) = 5 /\
       length (Prediction.top_features (Orchestrator.model_3_growth resp)) = 5 /\
       length (Orchestrator.all_features
                 (Orchestrator.model_1_valuation resp)
                 (Orchestrator.model_2_health resp)
                 (Orchestrator.model_3_growth resp)) = 15).
Proof.
  vm_compute. eexists. eexists. split; [reflexivity|].
  repeat split. intros [H _]. discriminate H.
Qed.

(** C5, amended. For every request that reaches the ensemble stage, the
    overall summary is the first five entries of the stable sort, larger
    impact first, of the concatenation of the three models' top-feature
    lists; each of these lists has at most three attributions, so at most
    nine are merged. *)
Theorem overall_top_features_merge_sort_truncate :
  forall (tree_explainer : Type)
         (TreeExplainer : Explainer.Estimator -> Py.result tree_explainer)
         (tree_shap_values :
            tree_explainer -> list (list Q) -> Py.result Explainer.shap_output)
         (kernel_explainer : Type)
         (KernelExplainer :
            (list (list Q) -> Py.result (list (list Q))) -> list (list Q) ->
            Py.result kernel_explainer)
         (kernel_shap_values :
            kernel_explainer -> list (list Q) -> nat -> Py.result Explainer.shap_output)
         (random_choice : nat -> nat -> Py.result (list nat))
         (models : gmap string Orchestrator.ModelData)
         (insert_prediction :
            Db.t -> Prediction.t -> Py.result (Z * option Prediction.datetime))
         (refresh_prediction : Db.t -> Z -> Py.result unit)
         (isoformat : Prediction.datetime -> string)
         (db : Db.t) (ticker : string) (user_id : Z)
         (db' : Db.t) (resp : Orchestrator.prediction_response),
    Orchestrator.predict_stock tree_explainer TreeExplainer tree_shap_values
      kernel_explainer KernelExplainer kernel_shap_values random_choice models
      insert_prediction refresh_prediction isoformat db ticker user_id = Py.Ret (db', Ok resp) ->
    let t1 := Prediction.top_features (Orchestrator.model_1_valuation resp) in
    let t2 := Prediction.top_features (Orchestrator.model_2_health resp) in
    let t3 := Prediction.top_features (Orchestrator.model_3_growth resp) in
    let merged := (t1 ++ t2 ++ t3)%list in
    let sorted := Orchestrator.sort_by_impact_desc merged in
    length t1 <= 3 /\ length t2 <= 3 /\ length t3 <= 3 /\ length merged <= 9 /\
    Orchestrator.ensemble_top_features (Orchestrator.response_ensemble resp) =
      take 5 sorted /\
    Permutation sorted merged /\
    StronglySorted Orchestrator.impact_ge sorted /\
    (forall q : Q,
       filter (fun a => Qeq_bool (Explainer.impact a) q = true) sorted =
       filter (fun a => Qeq_bool (Explainer.impact a) q = true) merged).
Proof.
  intros until resp. intros H t1 t2 t3 merged sorted.
  apply predict_stock_ok_inv in H. destruct H as (stock & ratios & _ & _ & H).
  apply predict_found_ok_inv in H.
  destruct H as (f1 & n1 & d1 & f2 & n2 & d2 & f3 & n3 & d3 & H1 & H2 & H3 & Htop).
  apply run_model_at_most_three in H1, H2, H3.
  fold t1 in H1. fold t2 in H2. fold t3 in H3.
  assert (Hm : length merged <= 9).
  { unfold merged. rewrite !length_app. lia. }
  repeat split; try assumption.
  - apply sort_by_impact_desc_perm.
  - apply sort_by_impact_desc_sorted.
  - intros q. apply sort_by_impact_desc_stable.
Qed.

Lemma overall_top_features_merge_sort_truncate_witness :
  exists db' resp,
    Orchestrator.predict_stock Explainer.Estimator Examples.TreeExplainer
      Examples.tree_shap_values unit Examples.KernelExplainer
      Examples.kernel_shap_values Examples.random_choice Examples.models
      Examples.insert_ok Examples.refresh_ok Examples.isoformat Examples.db_abc "abc" 42 =
    Py.Ret (db', Ok resp) /\
    length (Prediction.top_features (Orchestrator.model_1_valuation resp)
            ++ Prediction.top_features (Orchestrator.model_2_health resp)
            ++ Prediction.top_features (Orchestrator.model_3_growth resp))%list <= 9 /\
    Orchestrator.ensemble_top_features (Orchestrator.response_ensemble resp) =
      take 5 (Orchestrator.sort_by_impact_desc
                (Prediction.top_features (Orchestrator.model_1_valuation resp)
                 ++ Prediction.top_features (Orchestrator.model_2_health resp)
                 ++ Prediction.top_features (Orchestrator.model_3_growth resp))%list).
Proof.
  destruct (Orchestrator.predict_stock Explainer.Estimator Examples.TreeExplainer
      Examples.tree_shap_values unit Examples.KernelExplainer
      Examples.kernel_shap_values Examples.random_choice Examples.models
      Examples.insert_ok Examples.refresh_ok Examples.isoformat Examples.db_abc "abc" 42)
    as [e|[db' [resp|c msg]]] eqn:E; [vm_compute in E; discriminate| |vm_compute in E; discriminate].
  exists db', resp. split; [reflexivity|].
  pose proof (overall_top_features_merge_sort_truncate _ _ _ _ _ _ _ _ _ _ _ _ _ _ _ _ E)
    as (_ & _ & _ & Hm & Ht & _).
  split; [exact Hm|exact Ht].
Defined.


(** C8, the claim as written, fails: for "ABC" the three models return
    their results, the write of the audit row raises, and the caller gets
    the generic failure with status 500 and no prediction at all. *)
Lemma persistence_failure_loses_the_response :
  (exists r1 r2 r3,
     (let '(f, n, d) := Features._prepare_model_1_features Examples.stock_abc in
      Orchestrator._run_model_prediction Explainer.Estimator Examples.TreeExplainer
        Examples.tree_shap_values unit Examples.KernelExplainer
        Examples.kernel_shap_values Examples.random_choice Examples.models
        "model_1" f n d = Py.Ret r1) /\
     (let '(f, n, d) := Features._prepare_model_2_features Examples.ratios_abc in
      Orchestrator._run_model_prediction Explainer.Estimator Examples.TreeExplainer
        Examples.tree_shap_values unit Examples.KernelExplainer
        Examples.kernel_shap_values Examples.random_choice Examples.models
        "model_2" f n d = Py.Ret r2) /\
     (let '(f, n, d) := Features._prepare_model_3_features Examples.ratios_abc in
      Orchestrator._run_model_prediction Explainer.Estimator Examples.TreeExplainer
        Examples.tree_shap_values unit Examples.KernelExplainer
        Examples.kernel_shap_values Examples.random_choice Examples.models
        "model_3" f n d = Py.Ret r3)) /\
  Orchestrator.predict_stock Explainer.Estimator Examples.TreeExplainer
    Examples.tree_shap_values unit Examples.KernelExplainer
    Examples.kernel_shap_values Examples.random_choice Examples.models
    Examples.insert_fails Examples.refresh_ok Examples.isoformat Examples.db_abc "abc" 42 =
  Py.Ret (Examples.db_abc,
          Error 500 "Prediction error: connection lost during commit") /\
  ~ (exists db' resp,
       Orchestrator.predict_stock Explainer.Estimator Examples.TreeExplainer
         Examples.tree_shap_values unit Examples.KernelExplainer
         Examples.kernel_shap_values Examples.random_choice Examples.models
         Examples.insert_fails Examples.refresh_ok Examples.isoformat Examples.db_abc "abc" 42 =
       Py.Ret (db', Ok resp)).
Proof.
  split; [|split].
  - vm_compute. eexists. eexists. eexists. repeat split; reflexivity.
  - vm_compute. reflexivity.
  - intros (db' & resp & H). vm_compute in H. discriminate H.
Qed.

(** C8, amended. When the stock and its ratios are found and the three
    models return their results, a failure of the persistence step makes
    [predict_stock] return the catch-all failure: status 500, the text
    "Prediction error: " followed by the text of the exception, and no
    prediction data; nothing tells it from any other exception.  It is
    the write of the row of this request that matters.  When its commit
    raises, the tables are as they were.  When the commit succeeds and
    the refresh raises, or the stored row has no creation time for the
    response, the row stays stored and the caller still gets the 500. *)
Theorem persistence_failure_is_a_generic_500 :
  forall (tree_explainer : Type)
         (TreeExplainer : Explainer.Estimator -> Py.result tree_explainer)
         (tree_shap_values :
            tree_explainer -> list (list Q) -> Py.result Explainer.shap_output)
         (kernel_explainer : Type)
         (KernelExplainer :
            (list (list Q) -> Py.result (list (list Q))) -> list (list Q) ->
            Py.result kernel_explainer)
         (kernel_shap_values :
            kernel_explainer -> list (list Q) -> nat -> Py.result Explainer.shap_output)
         (random_choice : nat -> nat -> Py.result (list nat))
         (models : gmap string Orchestrator.ModelData)
         (insert_prediction :
            Db.t -> Prediction.t -> Py.result (Z * option Prediction.datetime))
         (refresh_prediction : Db.t -> Z -> Py.result unit)
         (isoformat : Prediction.datetime -> string)
         (db : Db.t) (ticker : string) (user_id : Z)
         (stock : Stock.t) (ratios : StockRatio.t)
         (r1 r2 r3 : Prediction.model_result),
    Db.get_stock_by_ticker db ticker = Some stock ->
    Db.get_stock_ratios db (Stock.id stock) = Some ratios ->
    (let '(f, n, d) := Features._prepare_model_1_features stock in
     Orchestrator._run_model_prediction tree_explainer TreeExplainer tree_shap_values
       kernel_explainer KernelExplainer kernel_shap_values random_choice models
       "model_1" f n d = Py.Ret r1) ->
    (let '(f, n, d) := Features._prepare_model_2_features ratios in
     Orchestrator._run_model_prediction tree_explainer TreeExplainer tree_shap_values
       kernel_explainer KernelExplainer kernel_shap_values random_choice models
       "model_2" f n d = Py.Ret r2) ->
    (let '(f, n, d) := Features._prepare_model_3_features ratios in
     Orchestrator._run_model_prediction tree_explainer TreeExplainer tree_shap_values
       kernel_explainer KernelExplainer kernel_shap_values random_choice models
       "model_3" f n d = Py.Ret r3) ->
    let row := Orchestrator.prediction_data user_id stock r1 r2 r3 in
    let answer :=
      Orchestrator.predict_stock tree_explainer TreeExplainer tree_shap_values
        kernel_explainer KernelExplainer kernel_shap_values random_choice models
        insert_prediction refresh_prediction isoformat db ticker user_id in
    (forall e : Py.exn,
       insert_prediction db row = Py.Raise e ->
       answer = Py.Ret (db, Error 500 ("Prediction error: " ++ Py.str e))) /\
    (forall (new_id : Z) (ts : option Prediction.datetime) (e : Py.exn),
       insert_prediction db row = Py.Ret (new_id, ts) ->
       refresh_prediction (Orchestrator.stored db new_id ts row) new_id = Py.Raise e ->
       answer = Py.Ret (Orchestrator.stored db new_id ts row,
                        Error 500 ("Prediction error: " ++ Py.str e))) /\
    (forall (new_id : Z) (u : unit),
       insert_prediction db row = Py.Ret (new_id, None) ->
       refresh_prediction (Orchestrator.stored db new_id None row) new_id = Py.Ret u ->
       answer =
       Py.Ret (Orchestrator.stored db new_id None row,
               Error 500
                 "Prediction error: 'NoneType' object has no attribute 'isoformat'")).
Proof.
  intros until r3. intros Hs Hr H1 H2 H3 row answer.
  pose proof (run_models_intro _ _ _ _ _ _ _ _ _ _ _ _ _ H1 H2 H3) as Hm.
  unfold answer, Orchestrator.predict_stock, Orchestrator.predict_found,
    Orchestrator.create_prediction.
  rewrite Hs, Hr, Hm. fold row. split; [|split].
  - intros e Hi. by rewrite Hi.
  - intros new_id ts e Hi Hf. rewrite Hi. simpl. by rewrite Hf.
  - intros new_id u Hi Hf. rewrite Hi. simpl. by rewrite Hf.
Qed.

Lemma persistence_failure_is_a_generic_500_witness :
  Orchestrator.predict_stock Explainer.Estimator Examples.TreeExplainer
    Examples.tree_shap_values unit Examples.KernelExplainer
    Examples.kernel_shap_values Examples.random_choice Examples.models
    Examples.insert_rejects_hold Examples.refresh_ok Examples.isoformat
    Examples.db_abc "abc" 42 =
  Py.Ret (Examples.db_abc,
          Error 500 "Prediction error: connection lost during commit") /\
  (exists db',
     Orchestrator.predict_stock Explainer.Estimator Examples.TreeExplainer
       Examples.tree_shap_values unit Examples.KernelExplainer
       Examples.kernel_shap_values Examples.random_choice Examples.models
       Examples.insert_ok Examples.refresh_fails Examples.isoformat
       Examples.db_abc "abc" 42 =
     Py.Ret (db', Error 500 "Prediction error: connection lost during refresh") /\
     is_Some (Db.predictions db' !! 1%Z)) /\
  (exists db',
     Orchestrator.predict_stock Explainer.Estimator Examples.TreeExplainer
       Examples.tree_shap_values unit Examples.KernelExplainer
       Examples.kernel_shap_values Examples.random_choice Examples.models
       Examples.insert_without_time Examples.refresh_ok Examples.isoformat
       Examples.db_abc "abc" 42 =
     Py.Ret (db', Error 500
                    "Prediction error: 'NoneType' object has no attribute 'isoformat'") /\
     is_Some (Db.predictions db' !! 1%Z)).
Proof.
  split; [|split].
  - edestruct (persistence_failure_is_a_generic_500 Explainer.Estimator
                 Examples.TreeExplainer Examples.tree_shap_values unit
                 Examples.KernelExplainer Examples.kernel_shap_values
                 Examples.random_choice Examples.models Examples.insert_rejects_hold
                 Examples.refresh_ok Examples.isoformat Examples.db_abc "abc" 42
                 Examples.stock_abc Examples.ratios_abc) as (Hcommit & _ & _).
    + vm_compute. reflexivity.
    + vm_compute. reflexivity.
    + vm_compute. reflexivity.
    + vm_compute. reflexivity.
    + vm_compute. reflexivity.
    + apply (Hcommit (Py.Exception "connection lost during commit")).
      vm_compute. reflexivity.
  - edestruct (persistence_failure_is_a_generic_500 Explainer.Estimator
                 Examples.TreeExplainer Examples.tree_shap_values unit
                 Examples.KernelExplainer Examples.kernel_shap_values
                 Examples.random_choice Examples.models Examples.insert_ok
                 Examples.refresh_fails Examples.isoformat Examples.db_abc "abc" 42
                 Examples.stock_abc Examples.ratios_abc) as (_ & Hrefresh & _).
    + vm_compute. reflexivity.
    + vm_compute. reflexivity.
    + vm_compute. reflexivity.
    + vm_compute. reflexivity.
    + vm_compute. reflexivity.
    + eexists. split.
      * apply (Hrefresh 1%Z (Some 1762214400000000%Z)
                 (Py.Exception "connection lost during refresh"));
          vm_compute; reflexivity.
      * vm_compute. by eexists.
  - edestruct (persistence_failure_is_a_generic_500 Explainer.Estimator
                 Examples.TreeExplainer Examples.tree_shap_values unit
                 Examples.KernelExplainer Examples.kernel_shap_values
                 Examples.random_choice Examples.models Examples.insert_without_time
                 Examples.refresh_ok Examples.isoformat Examples.db_abc "abc" 42
                 Examples.stock_abc Examples.ratios_abc) as (_ & _ & Htime).
    + vm_compute. reflexivity.
    + vm_compute. reflexivity.
    + vm_compute. reflexivity.
    + vm_compute. reflexivity.
    + vm_compute. reflexivity.
    + eexists. split.
      * apply (Htime 1%Z tt); vm_compute; reflexivity.
      * vm_compute. by eexists.
Defined.

(** C9. A stored prediction owned by user A, asked for by another user B:
    the answer is the 403 "Access denied" failure, and it is the same
    answer whatever else the record holds (two databases whose record
    under that id has owner A give B the same answer). *)
Theorem history_detail_forbidden :
  forall (isoformat : Prediction.datetime -> string) (db1 db2 : Db.t)
         (prediction_id owner requester : Z) (p1 p2 : Prediction.t),
    Db.predictions db1 !! prediction_id = Some p1 ->
    Db.predictions db2 !! prediction_id = Some p2 ->
    Prediction.user_id p1 = owner ->
    Prediction.user_id p2 = owner ->
    owner <> requester ->
    History.get_prediction_by_id isoformat db1 prediction_id requester =
      Py.Ret (Error 403 "Access denied") /\
    History.get_prediction_by_id isoformat db2 prediction_id requester =
      History.get_prediction_by_id isoformat db1 prediction_id requester.
Proof.
  intros isoformat db1 db2 pid owner requester p1 p2 H1 H2 Ho1 Ho2 Hne.
  rewrite (detail_not_owner isoformat db1 pid requester p1 H1) by congruence.
  rewrite (detail_not_owner isoformat db2 pid requester p2 H2) by congruence.
  by split.
Qed.

Lemma history_detail_forbidden_witness :
  History.get_prediction_by_id Examples.isoformat
    (Examples.db_history "ABC" "HOLD") 7 2 =
    Py.Ret (Error 403 "Access denied") /\
  History.get_prediction_by_id Examples.isoformat
    (Examples.db_history "XYZ" "SELL") 7 2 =
  History.get_prediction_by_id Examples.isoformat
    (Examples.db_history "ABC" "HOLD") 7 2.
Proof.
  apply (history_detail_forbidden Examples.isoformat
           (Examples.db_history "ABC" "HOLD") (Examples.db_history "XYZ" "SELL")
           7 1 2
           (Examples.sample_prediction 1 "ABC" "HOLD")
           (Examples.sample_prediction 1 "XYZ" "SELL")).
  - vm_compute. reflexivity.
  - vm_compute. reflexivity.
  - reflexivity.
  - reflexivity.
  - lia.
Defined.

(** C10. An id that is not in the table gives every requester the 404
    "Prediction not found" failure.  The owner is compared only once a
    record is found: an id that is in the table gives 403 to anyone but
    its owner and 200 to its owner, never 404, so a requester who is not
    the owner can tell a stored id from an absent one. *)
Theorem history_detail_not_found :
  forall (isoformat : Prediction.datetime -> string) (db : Db.t) (prediction_id : Z),
    Db.predictions db !! prediction_id = None ->
    (forall requester,
       History.get_prediction_by_id isoformat db prediction_id requester =
       Py.Ret (Error 404 "Prediction not found")) /\
    (forall (db' : Db.t) (stored_id requester : Z) (p : Prediction.t),
       Db.predictions db' !! stored_id = Some p ->
       (Prediction.user_id p <> requester ->
        History.get_prediction_by_id isoformat db' stored_id requester =
          Py.Ret (Error 403 "Access denied") /\
        History.get_prediction_by_id isoformat db' stored_id requester <>
        History.get_prediction_by_id isoformat db prediction_id requester) /\
       (Prediction.user_id p = requester ->
        exists data,
          History.get_prediction_by_id isoformat db' stored_id requester =
          Py.Ret (Ok data))).
Proof.
  intros isoformat db pid Habs. split.
  - intros requester. by apply detail_absent.
  - intros db' sid requester p Hp. split.
    + intros Hne.
      rewrite (detail_not_owner isoformat db' sid requester p Hp Hne).
      rewrite (detail_absent isoformat db pid requester Habs).
      split; [reflexivity|discriminate].
    + intros <-. by apply detail_owner.
Qed.

Lemma history_detail_not_found_witness :
  Db.predictions (Examples.db_history "ABC" "HOLD") !! 99%Z = None /\
  History.get_prediction_by_id Examples.isoformat
    (Examples.db_history "ABC" "HOLD") 99 1 =
    Py.Ret (Error 404 "Prediction not found") /\
  History.get_prediction_by_id Examples.isoformat
    (Examples.db_history "ABC" "HOLD") 99 2 =
    Py.Ret (Error 404 "Prediction not found") /\
  History.get_prediction_by_id Examples.isoformat
    (Examples.db_history "ABC" "HOLD") 7 2 =
    Py.Ret (Error 403 "Access denied").
Proof.
  assert (Habs : Db.predictions (Examples.db_history "ABC" "HOLD") !! 99%Z = None)
    by (vm_compute; reflexivity).
  destruct (history_detail_not_found Examples.isoformat
              (Examples.db_history "ABC" "HOLD") 99 Habs) as [Hnf Hst].
  split; [exact Habs|]. split; [apply Hnf|]. split; [apply Hnf|].
  destruct (Hst (Examples.db_history "ABC" "HOLD") 7%Z 2%Z
                (Examples.sample_prediction 1 "ABC" "HOLD")) as [Hforb _].
  - vm_compute. reflexivity.
  - apply Hforb. simpl. lia.
Defined.


(** * Further properties of the code *)

(** ** Ensemble voter *)

Section VoteFacts.
Import Ensemble.

Lemma agreement_buy_total t :
  (-3 <= t <= 3)%Z -> (agreement t).1 = "BUY" -> (2 <= t)%Z.
Proof.
  revert t. apply (total_cases (fun t => (agreement t).1 = "BUY" -> (2 <= t)%Z));
    vm_compute; intros H; first [discriminate H | congruence].
Qed.

Lemma agreement_sell_total t :
  (-3 <= t <= 3)%Z -> (agreement t).1 = "SELL" -> (t <= -2)%Z.
Proof.
  revert t. apply (total_cases (fun t => (agreement t).1 = "SELL" -> (t <= -2)%Z));
    vm_compute; intros H; first [discriminate H | congruence].
Qed.

(** A value at or above an odd integer and a half rounds up past it. *)
Lemma round_half_even_ge_odd_half (y : Q) (m : Z) :
  Z.odd m = true ->
  (inject_Z (2 * m + 1) / 2 <= y)%Q -> (m + 1 <= Num.round_half_even y)%Z.
Proof.
  destruct y as [n d]. unfold Qle, Num.round_half_even; simpl.
  intros Hodd H.
  assert (Hd : (0 < Z.pos d)%Z) by lia.
  pose proof (Z.div_mod n (Z.pos d) ltac:(lia)) as Hdm.
  pose proof (Z.mod_pos_bound n (Z.pos d) Hd) as Hr.
  set (fl := (n / Z.pos d)%Z) in *. set (r := (n mod Z.pos d)%Z) in *.
  assert (H' : ((2 * m + 1) * Z.pos d <= 2 * n)%Z) by lia.
  assert (Hfl : (m <= fl)%Z) by nia.
  destruct (Z.eq_dec fl m) as [->|Hne].
  - assert (Hr2 : (Z.pos d <= 2 * r)%Z) by nia.
    destruct (Z.compare_spec (2 * r) (Z.pos d)) as [He|Hl|Hg]; [|lia|lia].
    rewrite <- Z.negb_odd, Hodd. simpl. lia.
  - destruct (Z.compare_spec (2 * r) (Z.pos d)) as [He|Hl|Hg];
      [destruct (Z.even fl)|..]; lia.
Qed.

Lemma round2_floor_038 (x : Q) : (0.375 <= x)%Q -> (0.38 <= Num.round2 x)%Q.
Proof.
  intros H. unfold Num.round2, Num.py_round.
  change (Pos.of_nat (10 ^ 2)) with 100%positive.
  assert (H1 : (inject_Z (2 * 37 + 1) / 2 <= x * inject_Z 100)%Q).
  { change (inject_Z (2 * 37 + 1) / 2)%Q with (75 # 2)%Q.
    change (inject_Z 100) with 100%Q. lra. }
  apply round_half_even_ge_odd_half in H1; [|reflexivity].
  set (k := Num.round_half_even (x * inject_Z 100)) in *.
  unfold Qle; simpl. lia.
Qed.

End VoteFacts.

(** X1. A BUY needs two favourable votes and tolerates no unfavourable
    one: when the voter answers BUY none of the three sub-scores is
    negative and their sum is at least 2; when it answers SELL none is
    positive and their sum is at most -2. *)
Theorem buy_and_sell_need_agreement :
  forall (val_pred health_pred growth_pred : string) (c1 c2 c3 : Q),
    (Ensemble.recommendation
       (Ensemble._ensemble_voting val_pred health_pred growth_pred c1 c2 c3) = "BUY" ->
     (0 <= Ensemble.val_score val_pred)%Z /\
     (0 <= Ensemble.health_score health_pred)%Z /\
     (0 <= Ensemble.growth_score growth_pred)%Z /\
     (2 <= Ensemble.total_score val_pred health_pred growth_pred)%Z) /\
    (Ensemble.recommendation
       (Ensemble._ensemble_voting val_pred health_pred growth_pred c1 c2 c3) = "SELL" ->
     (Ensemble.val_score val_pred <= 0)%Z /\
     (Ensemble.health_score health_pred <= 0)%Z /\
     (Ensemble.growth_score growth_pred <= 0)%Z /\
     (Ensemble.total_score val_pred health_pred growth_pred <= -2)%Z).
Proof.
  intros v h g c1 c2 c3.
  pose proof (total_score_range v h g) as Hr.
  pose proof (rubric_valuation_range v) as Hv.
  pose proof (rubric_health_range h) as Hh.
  pose proof (rubric_growth_range g) as Hg.
  rewrite <- val_score_rubric in Hv. rewrite <- health_score_rubric in Hh.
  rewrite <- growth_score_rubric in Hg.
  rewrite voting_recommendation. split; intros H.
  - apply agreement_buy_total in H; [|exact Hr].
    unfold Ensemble.total_score in *. lia.
  - apply agreement_sell_total in H; [|exact Hr].
    unfold Ensemble.total_score in *. lia.
Qed.

Lemma buy_and_sell_need_agreement_witness :
  (0 <= Ensemble.val_score "undervalued")%Z /\
  (0 <= Ensemble.health_score "excellent")%Z /\
  (0 <= Ensemble.growth_score "weak_growth")%Z /\
  (2 <= Ensemble.total_score "undervalued" "excellent" "weak_growth")%Z.
Proof.
  apply (proj1 (buy_and_sell_need_agreement
                  "undervalued" "excellent" "weak_growth" 0.8 0.9 0.7)).
  vm_compute. reflexivity.
Defined.

(** X2. The cap of 0.95 on the agreement confidence never applies (the
    agreement confidence is 0.90 at most), and for model confidences in
    [0, 1] the final confidence is never below 0.38. *)
Theorem confidence_cap_is_idle_and_floor :
  forall (val_pred health_pred growth_pred : string) (c1 c2 c3 : Q),
    (0 <= c1 <= 1)%Q -> (0 <= c2 <= 1)%Q -> (0 <= c3 <= 1)%Q ->
    Num.py_min
      (Ensemble.agreement (Ensemble.total_score val_pred health_pred growth_pred)).2
      0.95 =
    (Ensemble.agreement (Ensemble.total_score val_pred health_pred growth_pred)).2 /\
    (0.38 <= Ensemble.confidence
               (Ensemble._ensemble_voting val_pred health_pred growth_pred c1 c2 c3))%Q.
Proof.
  intros v h g c1 c2 c3 [H1 H1'] [H2 H2'] [H3 H3'].
  pose proof (total_score_range v h g) as Hr. split.
  - revert Hr. generalize (Ensemble.total_score v h g).
    apply (total_cases
             (fun t => Num.py_min (Ensemble.agreement t).2 0.95 = (Ensemble.agreement t).2));
      reflexivity.
  - rewrite voting_confidence.
    destruct (agreement_confidence_range _ Hr) as [Ha Hb].
    set (ec := Num.py_min _ _) in *.
    apply round2_floor_038.
    unfold Qdiv. change (/ 2)%Q with (1 # 2)%Q. change (/ 3)%Q with (1 # 3)%Q. lra.
Qed.

Lemma confidence_cap_is_idle_and_floor_witness :
  (0.38 <= Ensemble.confidence
             (Ensemble._ensemble_voting "fair" "fair" "weak_growth" 0 0 0))%Q.
Proof.
  apply (confidence_cap_is_idle_and_floor "fair" "fair" "weak_growth" 0 0 0);
    split; discriminate.
Defined.


Section RoundingOrder.

(** The integer [round_half_even] picks is within one half of the
    value, and at a tie it is even. *)
Lemma round_half_even_spec (n : Z) (d : positive) :
  let k := Num.round_half_even (n # d) in
  ((2 * k - 1) * Z.pos d <= 2 * n <= (2 * k + 1) * Z.pos d)%Z /\
  ((2 * n = (2 * k + 1) * Z.pos d)%Z -> Z.even k = true) /\
  ((2 * n = (2 * k - 1) * Z.pos d)%Z -> Z.even k = true).
Proof.
  unfold Num.round_half_even; simpl.
  assert (Hd : (0 < Z.pos d)%Z) by lia.
  pose proof (Z.div_mod n (Z.pos d) ltac:(lia)) as Hdm.
  pose proof (Z.mod_pos_bound n (Z.pos d) Hd) as Hr.
  set (fl := (n / Z.pos d)%Z) in *. set (r := (n mod Z.pos d)%Z) in *.
  destruct (Z.compare_spec (2 * r) (Z.pos d)) as [He|Hl|Hg].
  - destruct (Z.even fl) eqn:Ev.
    + repeat split; try nia. intros _. exact Ev.
    + repeat split; try nia. intros _.
      rewrite Z.even_add, Ev. reflexivity.
  - repeat split; nia.
  - repeat split; nia.
Qed.

Lemma round_half_even_mono (x y : Q) :
  (x <= y)%Q -> (Num.round_half_even x <= Num.round_half_even y)%Z.
Proof.
  destruct x as [n1 d1], y as [n2 d2]. unfold Qle; simpl. intros H.
  destruct (round_half_even_spec n1 d1) as ([L1 U1] & E1 & F1).
  destruct (round_half_even_spec n2 d2) as ([L2 U2] & E2 & F2).
  set (k1 := Num.round_half_even (n1 # d1)) in *.
  set (k2 := Num.round_half_even (n2 # d2)) in *.
  destruct (Z_le_gt_dec k1 k2) as [Hle|Hgt]; [exact Hle|exfalso].
  assert (Hd1 : (0 < Z.pos d1)%Z) by lia.
  assert (Hd2 : (0 < Z.pos d2)%Z) by lia.
  assert (A : ((2 * k2 + 1) * Z.pos d1 <= 2 * n1)%Z) by nia.
  assert (B : (2 * n1 * Z.pos d2 <= 2 * n2 * Z.pos d1)%Z) by lia.
  assert (C : (2 * n2 * Z.pos d1 <= (2 * k2 + 1) * Z.pos d2 * Z.pos d1)%Z) by nia.
  assert (D : ((2 * k2 + 1) * Z.pos d1 * Z.pos d2 <= 2 * n1 * Z.pos d2)%Z) by nia.
  assert (Eq2 : (2 * n2 = (2 * k2 + 1) * Z.pos d2)%Z) by nia.
  assert (Eq1 : (2 * n1 = (2 * k2 + 1) * Z.pos d1)%Z) by nia.
  assert (K : k1 = (k2 + 1)%Z) by nia.
  apply E2 in Eq2.
  assert (Eq1' : (2 * n1 = (2 * k1 - 1) * Z.pos d1)%Z) by (subst k1; nia).
  apply F1 in Eq1'. rewrite K, Z.even_add, Eq2 in Eq1'. discriminate Eq1'.
Qed.

Lemma round2_mono (x y : Q) : (x <= y)%Q -> (Num.round2 x <= Num.round2 y)%Q.
Proof.
  intros H. unfold Num.round2, Num.py_round.
  change (Pos.of_nat (10 ^ 2)) with 100%positive.
  assert (H' : (x * inject_Z 100 <= y * inject_Z 100)%Q).
  { apply Qmult_le_compat_r; [exact H|discriminate]. }
  apply round_half_even_mono in H'.
  unfold Qle; simpl. lia.
Qed.

End RoundingOrder.

(** X3. A higher model confidence never lowers the final confidence: for
    the same three labels, raising any of the three confidences leaves
    the recommendation as it is and the final confidence at least as
    high. *)
Theorem final_confidence_monotone :
  forall (val_pred health_pred growth_pred : string) (c1 c2 c3 c1' c2' c3' : Q),
    (c1 <= c1')%Q -> (c2 <= c2')%Q -> (c3 <= c3')%Q ->
    Ensemble.recommendation
      (Ensemble._ensemble_voting val_pred health_pred growth_pred c1 c2 c3) =
    Ensemble.recommendation
      (Ensemble._ensemble_voting val_pred health_pred growth_pred c1' c2' c3') /\
    (Ensemble.confidence
       (Ensemble._ensemble_voting val_pred health_pred growth_pred c1 c2 c3) <=
     Ensemble.confidence
       (Ensemble._ensemble_voting val_pred health_pred growth_pred c1' c2' c3'))%Q.
Proof.
  intros v h g c1 c2 c3 c1' c2' c3' H1 H2 H3. split.
  - by rewrite !voting_recommendation.
  - rewrite !voting_confidence. apply round2_mono.
    set (ec := Num.py_min _ _).
    unfold Qdiv. change (/ 2)%Q with (1 # 2)%Q. change (/ 3)%Q with (1 # 3)%Q. lra.
Qed.

Lemma final_confidence_monotone_witness :
  (Ensemble.confidence
     (Ensemble._ensemble_voting "undervalued" "excellent" "strong_growth" 0.5 0.5 0.5) <=
   Ensemble.confidence
     (Ensemble._ensemble_voting "undervalued" "excellent" "strong_growth" 0.8 0.9 0.7))%Q.
Proof.
  apply (final_confidence_monotone "undervalued" "excellent" "strong_growth"
           0.5 0.5 0.5 0.8 0.9 0.7); discriminate.
Defined.


(** ** Ratio calculator *)

Section RatioHelpers.
Import Ratios.
Variable math_sqrt : Q -> Q.
Variable py_pow : Q -> Q -> Py.result Q.



End RatioHelpers.

(** X4. [safe_growth] with its default.  A missing value or a zero old
    value gives 0.0.  Otherwise the rate has the sign of the change
    divided by the sign of the old value: it is zero when nothing
    changed; on a positive base a rise is never reported as negative and
    a fall never as positive; on a negative base it is the other way
    round, a rise is reported as a rate that is never positive. *)
Theorem safe_growth_default_and_sign :
  forall (new_val old_val : Q),
    Ratios.safe_growth None (Some old_val) Ratios.growth_default = Some 0%Q /\
    Ratios.safe_growth (Some new_val) None Ratios.growth_default = Some 0%Q /\
    Ratios.safe_growth None None Ratios.growth_default = Some 0%Q /\
    ((old_val == 0)%Q ->
     Ratios.safe_growth (Some new_val) (Some old_val) Ratios.growth_default = Some 0%Q) /\
    (~ (old_val == 0)%Q ->
     exists g,
       Ratios.safe_growth (Some new_val) (Some old_val) Ratios.growth_default = Some g /\
       ((new_val == old_val)%Q -> (g == 0)%Q) /\
       ((0 < old_val)%Q -> (old_val <= new_val)%Q -> (0 <= g)%Q) /\
       ((0 < old_val)%Q -> (new_val <= old_val)%Q -> (g <= 0)%Q) /\
       ((old_val < 0)%Q -> (old_val <= new_val)%Q -> (g <= 0)%Q) /\
       ((old_val < 0)%Q -> (new_val <= old_val)%Q -> (0 <= g)%Q)).
Proof.
  intros n o. repeat split.
  - intros H. unfold Ratios.safe_growth.
    apply Qeq_bool_iff in H. by rewrite H.
  - intros H. unfold Ratios.safe_growth.
    destruct (Qeq_bool o 0) eqn:E; [apply Qeq_bool_iff in E; contradiction|].
    eexists. split; [reflexivity|].
    assert (Hdiv : forall x : Q, (x / o == x * / o)%Q) by (intros; reflexivity).
    repeat split.
    + intros Heq. rewrite Heq. field. exact H.
    + intros Ho Hle. rewrite Hdiv. apply Qmult_le_0_compat; [lra|].
      apply Qlt_le_weak, Qinv_lt_0_compat, Ho.
    + intros Ho Hle.
      assert (Hi : (0 < / o)%Q) by apply Qinv_lt_0_compat, Ho.
      rewrite Hdiv. nra.
    + intros Ho Hle.
      assert (Hi : (0 < / - o)%Q) by (apply Qinv_lt_0_compat; lra).
      assert (He : ((n - o) / o == - ((n - o) * / - o))%Q) by (field; exact H).
      rewrite He. nra.
    + intros Ho Hle.
      assert (Hi : (0 < / - o)%Q) by (apply Qinv_lt_0_compat; lra).
      assert (He : ((n - o) / o == - ((n - o) * / - o))%Q) by (field; exact H).
      rewrite He. nra.
Qed.

Lemma safe_growth_default_and_sign_witness :
  Ratios.safe_growth (Some 15%Q) (Some 0%Q) Ratios.growth_default = Some 0%Q /\
  (exists g,
     Ratios.safe_growth (Some 15%Q) (Some 12%Q) Ratios.growth_default = Some g /\
     (0 <= g)%Q) /\
  (exists g,
     Ratios.safe_growth (Some (-1)%Q) (Some (-2)%Q) Ratios.growth_default = Some g /\
     (g <= 0)%Q).
Proof.
  split; [|split].
  - apply (proj1 (proj2 (proj2 (proj2 (safe_growth_default_and_sign 15 0))))).
    reflexivity.
  - destruct (proj2 (proj2 (proj2 (proj2 (safe_growth_default_and_sign 15 12)))))
      as (g & Hg & _ & Hup & _); [discriminate|].
    exists g. split; [exact Hg|]. apply Hup; [reflexivity|discriminate].
  - destruct (proj2 (proj2 (proj2 (proj2 (safe_growth_default_and_sign (-1) (-2))))))
      as (g & Hg & _ & _ & _ & Hneg & _); [discriminate|].
    exists g. split; [exact Hg|]. apply Hneg; [reflexivity|discriminate].
Defined.



(** ** Explainer: what the three attributions are *)

Section ArgsortFacts.
Import Py Explainer Ranking.

Lemma argsort_insert_perm x l : Permutation (argsort_insert x l) (x :: l).
Proof.
  induction l as [|y l IH]; simpl; [reflexivity|].
  destruct (Qle_bool _ _); [reflexivity|].
  rewrite IH. apply perm_swap.
Qed.

Lemma argsort_insert_sorted x l :
  StronglySorted by_value l -> StronglySorted by_value (argsort_insert x l).
Proof.
  induction 1 as [|y l Hl IH Hy]; simpl.
  - repeat constructor.
  - destruct (Qle_bool x.2 y.2) eqn:E.
    + apply Qle_bool_iff in E. constructor; [by constructor|].
      constructor; [exact E|].
      eapply Forall_impl; [exact Hy|]. unfold by_value. intros z Hz.
      by eapply Qle_trans.
    + assert (Hle : (y.2 <= x.2)%Q).
      { destruct (Qlt_le_dec x.2 y.2) as [Hl'|Hl']; [|exact Hl'].
        apply Qlt_le_weak in Hl'. apply Qle_bool_iff in Hl'. congruence. }
      constructor; [exact IH|].
      eapply Permutation_Forall; [symmetry; apply argsort_insert_perm|].
      by constructor.
Qed.

Lemma sorted_pairs_perm a : Permutation (sorted_pairs a) (zip (seq 0 (length a)) a).
Proof.
  unfold sorted_pairs. induction (zip _ _) as [|x l IH]; simpl; [reflexivity|].
  rewrite argsort_insert_perm. by constructor.
Qed.

Lemma sorted_pairs_sorted a : StronglySorted by_value (sorted_pairs a).
Proof.
  unfold sorted_pairs. induction (zip _ _) as [|x l IH]; simpl; [constructor|].
  by apply argsort_insert_sorted.
Qed.

(** A pair of the sorted list is an index of the array with its value. *)
Lemma sorted_pairs_lookup a x : x ∈ sorted_pairs a -> a !! x.1 = Some x.2.
Proof.
  rewrite (sorted_pairs_perm a). intros H.
  apply list_elem_of_lookup in H. destruct H as [i Hi].
  destruct x as [j v]. apply lookup_zip_Some in Hi. destruct Hi as [Hj Hv].
  apply lookup_seq in Hj. destruct Hj as [-> _]. exact Hv.
Qed.

Lemma argsort_perm a : Permutation (argsort a) (seq 0 (length a)).
Proof.
  unfold argsort. fold (sorted_pairs a).
  change (map fst (sorted_pairs a)) with ((sorted_pairs a).*1).
  rewrite (sorted_pairs_perm a). rewrite fst_zip; [reflexivity|].
  rewrite length_seq. lia.
Qed.

Lemma top3_indices_pairs a : top3_indices a = map fst (top3_pairs a).
Proof.
  unfold top3_indices, top3_pairs, argsort. fold (sorted_pairs a).
  rewrite map_rev. f_equal. symmetry. apply (fmap_drop fst).
Qed.

Lemma top3_pairs_elem a x : x ∈ top3_pairs a -> x ∈ sorted_pairs a.
Proof.
  unfold top3_pairs. rewrite list_elem_of_In, <- in_rev, <- list_elem_of_In.
  intros H. by apply (subseteq_drop (length a - 3)).
Qed.

Lemma StronglySorted_rev_flip {A} (R : relation A) (l : list A) :
  StronglySorted R l -> StronglySorted (flip R) (rev l).
Proof.
  induction 1 as [|x l Hl IH Hx]; simpl; [constructor|].
  apply StronglySorted_app_2; [|exact IH|repeat constructor].
  intros y z Hy Hz. apply list_elem_of_singleton in Hz. subst z.
  unfold flip. rewrite Forall_forall in Hx. apply Hx.
  by rewrite list_elem_of_In, in_rev, <- list_elem_of_In.
Qed.

Lemma top3_pairs_sorted a : StronglySorted (flip by_value) (top3_pairs a).
Proof.
  unfold top3_pairs. apply StronglySorted_rev_flip.
  pose proof (sorted_pairs_sorted a) as H.
  rewrite <- (take_drop (length a - 3) (sorted_pairs a)) in H.
  by apply StronglySorted_app_1_r in H.
Qed.

(** Whatever was not kept is no larger than anything kept. *)
Lemma top3_pairs_dominate a x y :
  x ∈ top3_pairs a -> y ∈ sorted_pairs a -> y ∉ top3_pairs a -> (y.2 <= x.2)%Q.
Proof.
  unfold top3_pairs. intros Hx Hy Hny.
  rewrite list_elem_of_In, <- in_rev, <- list_elem_of_In in Hx.
  assert (Hny' : y ∉ drop (length a - 3) (sorted_pairs a)).
  { intros H. apply Hny. by rewrite list_elem_of_In, <- in_rev, <- list_elem_of_In. }
  pose proof (sorted_pairs_sorted a) as H.
  rewrite <- (take_drop (length a - 3) (sorted_pairs a)) in H, Hy.
  apply elem_of_app in Hy. destruct Hy as [Hy|Hy]; [|contradiction].
  exact (StronglySorted_app_1_elem_of _ _ _ _ _ H Hy Hx).
Qed.

Lemma top3_indices_NoDup a : NoDup (top3_indices a).
Proof.
  unfold top3_indices. apply NoDup_ListNoDup, NoDup_rev, NoDup_ListNoDup.
  apply (sublist_NoDup _ (argsort a)); [|apply sublist_drop].
  rewrite (argsort_perm a). apply NoDup_seq.
Qed.

Lemma top3_indices_lt a i : i ∈ top3_indices a -> i < length a.
Proof.
  unfold top3_indices. rewrite list_elem_of_In, <- in_rev, <- list_elem_of_In.
  intros H. assert (Hi : i ∈ argsort a).
  { by apply (subseteq_drop (length a - 3)). }
  rewrite (argsort_perm a) in Hi. apply elem_of_seq in Hi. lia.
Qed.

End ArgsortFacts.

Section CollectFacts.
Import Py Explainer Ranking.

Lemma getitem_Ret {A} (l : list A) (i : nat) (x : A) :
  getitem l i = Ret x <-> l !! i = Some x.
Proof.
  unfold getitem. destruct (l !! i); split; intros H; inversion H; done.
Qed.

Lemma mapM_Forall2 {A B} (f : A -> result B) (l : list A) (l' : list B) :
  mapM f l = Ret l' -> Forall2 (fun x y => f x = Ret y) l l'.
Proof.
  revert l'. induction l as [|x l IH]; intros l' H; simpl in H.
  - inversion H. constructor.
  - destruct (f x) as [|y] eqn:E; [discriminate|]. simpl in H.
    destruct (mapM f l) as [|ys]; [discriminate|]. simpl in H.
    inversion H; subst. constructor; [exact E|]. by apply IH.
Qed.

Lemma mapM_returns {A B} (f : A -> result B) (l : list A) :
  Forall (fun x => exists y, f x = Ret y) l -> exists l', mapM f l = Ret l'.
Proof.
  induction 1 as [|x l [y Hy] Hl [l' IH]]; simpl; [by eexists|].
  rewrite Hy; simpl. rewrite IH; simpl. by eexists.
Qed.

Lemma collect_Forall2 names values scores idxs tf :
  collect names values scores idxs = Ret tf ->
  Forall2 (attribution_of names values scores) idxs tf.
Proof.
  intros H. apply mapM_Forall2 in H.
  eapply Forall2_impl; [exact H|]. intros i f Hf. cbv beta in Hf.
  bind_inv Hf. inversion Hf; subst. unfold attribution_of; simpl.
  by repeat split; apply getitem_Ret.
Qed.

Lemma collect_returns names values scores idxs :
  Forall (fun i => i < length names /\ i < length values /\ i < length scores) idxs ->
  exists tf, collect names values scores idxs = Ret tf.
Proof.
  intros H. apply mapM_returns. eapply Forall_impl; [exact H|].
  intros i (Hn & Hv & Hs). cbv beta.
  apply lookup_lt_is_Some in Hn, Hv, Hs.
  destruct Hn as [n Hn], Hv as [v Hv], Hs as [s Hs].
  unfold getitem. rewrite Hn, Hv, Hs. by eexists.
Qed.

(** The attributions follow the three kept pairs, one for one. *)
Lemma collect_top3_pairs names values scores tf :
  collect names values scores (top3_indices scores) = Ret tf ->
  Forall2 (fun p f => attribution_of names values scores p.1 f /\ impact f = p.2)
          (top3_pairs scores) tf.
Proof.
  intros H. apply collect_Forall2 in H.
  rewrite top3_indices_pairs in H.
  change (map fst (top3_pairs scores)) with (fst <$> top3_pairs scores) in H.
  rewrite Forall2_fmap_l in H.
  apply Forall2_same_length_lookup. split; [exact (Forall2_length _ _ _ H)|].
  intros i p f Hp Hf.
  pose proof (Forall2_lookup_lr _ _ _ _ _ _ H Hp Hf) as Ha. split; [exact Ha|].
  destruct Ha as (_ & _ & Hs).
  assert (Hin : p ∈ top3_pairs scores) by (apply list_elem_of_lookup; eauto).
  apply top3_pairs_elem, sorted_pairs_lookup in Hin. congruence.
Qed.

Lemma collect_sorted names values scores tf :
  collect names values scores (top3_indices scores) = Ret tf ->
  StronglySorted Orchestrator.impact_ge tf.
Proof.
  intros H. apply collect_top3_pairs in H.
  pose proof (top3_pairs_sorted scores) as Hs.
  revert Hs. induction H as [|p f ps fs [_ Hpf] Hrest IH]; intros Hs; [constructor|].
  apply StronglySorted_cons in Hs. destruct Hs as [Hp Hs].
  constructor; [by apply IH|].
  clear IH Hs. induction Hrest as [|q g qs gs [_ Hqg] _ IH]; [constructor|].
  apply Forall_cons in Hp. destruct Hp as [Hpq Hp].
  constructor; [|by apply IH].
  unfold Orchestrator.impact_ge. unfold flip, by_value in Hpq. by rewrite Hpf, Hqg.
Qed.

Lemma collect_non_negative names values scores idxs tf :
  Forall (fun s => (0 <= s)%Q) scores ->
  collect names values scores idxs = Ret tf ->
  Forall (fun f => (0 <= impact f)%Q) tf.
Proof.
  intros Hs H. apply collect_Forall2 in H.
  induction H as [|i f rest fs (_ & _ & Hf) _ IH]; constructor; [|exact IH].
  rewrite Forall_forall in Hs. apply Hs. apply list_elem_of_lookup. eauto.
Qed.

Lemma abs_non_negative (l : list Q) : Forall (fun s => (0 <= s)%Q) (map Qabs l).
Proof. apply Forall_forall. intros s Hs. apply list_elem_of_fmap in Hs.
       destruct Hs as (x & -> & _). apply Qabs_nonneg. Qed.

Lemma append_not_empty_r (s t : string) : t <> "" -> s ++ t <> "".
Proof. destruct s; simpl; [done|discriminate]. Qed.

Lemma append_not_empty_l (s t : string) : s <> "" -> s ++ t <> "".
Proof. destruct s; simpl; [done|discriminate]. Qed.

Lemma _format_feature_importance_explanation_not_empty tf values names :
  _format_feature_importance_explanation tf values names <> "".
Proof.
  unfold _format_feature_importance_explanation.
  destruct tf; [discriminate|]. by apply append_not_empty_r.
Qed.

Lemma _format_coefficient_explanation_not_empty tf values names :
  _format_coefficient_explanation tf values names <> "".
Proof.
  unfold _format_coefficient_explanation.
  destruct tf; [discriminate|]. by apply append_not_empty_r.
Qed.

Lemma _format_shap_explanation_not_empty tf shap names values r :
  _format_shap_explanation tf shap names values = Ret r -> r <> "".
Proof.
  unfold _format_shap_explanation. destruct tf.
  - intros H. inversion H. discriminate.
  - intros H. bind_inv H. inversion H. by apply append_not_empty_r.
Qed.

End CollectFacts.

Section RankedAnswers.
Import Py Explainer Ranking.

Lemma rank_by_shap_ranked names values shap out :
  rank_by_shap names values shap = Ret out -> ranked_non_negative out.
Proof.
  unfold rank_by_shap. intros H. bind_inv H. inversion H; subst.
  match goal with
  | Hc : collect _ _ _ _ = Ret _, Hf : _format_shap_explanation _ _ _ _ = Ret _ |- _ =>
      repeat split; simpl;
      [ exact (collect_sorted _ _ _ _ Hc)
      | exact (_format_shap_explanation_not_empty _ _ _ _ _ Hf)
      | exact (collect_non_negative _ _ _ _ _ (abs_non_negative _) Hc) ]
  end.
Qed.

Lemma empty_answer_ranked (reason : string) :
  reason <> "" -> ranked_non_negative ([], reason).
Proof. intros H. repeat split; simpl; [constructor|exact H|constructor]. Qed.

Lemma explain_with_feature_importance_ranked model ft names values :
  exists out,
    explain_with_feature_importance model ft names values = Ret out /\
    well_ranked out.
Proof.
  unfold explain_with_feature_importance. apply try_except_total.
  - intros out H. bind_inv H. inversion H; subst.
    match goal with
    | Hc : collect _ _ _ _ = Ret _ |- _ =>
        split; simpl;
        [ exact (collect_sorted _ _ _ _ Hc)
        | apply _format_feature_importance_explanation_not_empty ]
    end.
  - intros e. eexists. split; [reflexivity|].
    split; simpl; [constructor|discriminate].
Qed.

Lemma _explain_svm_with_coefficients_ranked model ft names values :
  exists out,
    _explain_svm_with_coefficients model ft names values = Ret out /\
    ranked_non_negative out.
Proof.
  unfold _explain_svm_with_coefficients. apply try_except_total.
  - intros out H. destruct (coef_ model) as [c|];
      bind_inv H; inversion H; subst;
      match goal with
      | Hc : collect _ _ _ _ = Ret _ |- _ =>
          repeat split; simpl;
          [ exact (collect_sorted _ _ _ _ Hc)
          | first [ apply _format_coefficient_explanation_not_empty
                  | by apply append_not_empty_l ]
          | exact (collect_non_negative _ _ _ _ _ (abs_non_negative _) Hc) ]
      end.
  - intros e. eexists. split; [reflexivity|]. by apply empty_answer_ranked.
Qed.

Variable tree_explainer : Type.
Variable TreeExplainer : Estimator -> result tree_explainer.
Variable tree_shap_values : tree_explainer -> list (list Q) -> result shap_output.
Variable kernel_explainer : Type.
Variable KernelExplainer :
  (list (list Q) -> result (list (list Q))) -> list (list Q) -> result kernel_explainer.
Variable kernel_shap_values :
  kernel_explainer -> list (list Q) -> nat -> result shap_output.
Variable random_choice : nat -> nat -> result (list nat).

Ltac on_shap H :=
  match type of H with
  | match ?s with ShapList _ => _ | ShapArray2 _ => _ | ShapArray3 _ => _ end = _ =>
      destruct s as [per_class|a|a]
  end.

Lemma explain_with_shap_tree_ranked model ft names values :
  exists out,
    explain_with_shap_tree tree_explainer TreeExplainer tree_shap_values
      model ft names values = Ret out /\
    well_ranked out.
Proof.
  unfold explain_with_shap_tree. apply try_except_total.
  - intros out H. bind_inv H. on_shap H; bind_inv H.
    + by apply rank_by_shap_ranked in H as [? _].
    + by apply rank_by_shap_ranked in H as [? _].
    + match type of H with
      | match ?m with [] => _ | _ :: _ => _ end = _ => destruct m; [|discriminate]
      end.
      by apply rank_by_shap_ranked in H as [? _].
  - intros e. apply explain_with_feature_importance_ranked.
Qed.

Lemma explain_with_shap_kernel_ranked model background ft names values :
  exists out,
    explain_with_shap_kernel kernel_explainer KernelExplainer kernel_shap_values
      random_choice model background ft names values = Ret out /\
    ranked_non_negative out.
Proof.
  unfold explain_with_shap_kernel. apply try_except_total.
  - intros out H. bind_inv H. on_shap H; [discriminate| |];
      bind_inv H; by apply rank_by_shap_ranked in H.
  - intros e. apply _explain_svm_with_coefficients_ranked.
Qed.

(** A background sample of thirty rows or fewer is used as it is: the
    random subsample is not drawn. *)
Lemma kernel_small_background_ignores_random_choice
    (other_choice : nat -> nat -> result (list nat))
    model background ft names values :
  length background <= 30 ->
  explain_with_shap_kernel kernel_explainer KernelExplainer kernel_shap_values
    random_choice model background ft names values =
  explain_with_shap_kernel kernel_explainer KernelExplainer kernel_shap_values
    other_choice model background ft names values.
Proof.
  intros H. unfold explain_with_shap_kernel.
  assert (E : (30 <? length background)%nat = false) by (apply Nat.ltb_ge; lia).
  by rewrite E.
Qed.

End RankedAnswers.

(** X7. Every answer of the explainer is ordered and worded: each of the
    three entry points returns its attributions sorted by impact, larger
    first, with a reason that is not the empty string; the attributions
    of the sampling explainer (its fallbacks included) have non-negative
    impacts. *)
Theorem explainer_answers_are_ranked :
  forall (tree_explainer : Type)
         (TreeExplainer : Explainer.Estimator -> Py.result tree_explainer)
         (tree_shap_values :
            tree_explainer -> list (list Q) -> Py.result Explainer.shap_output)
         (kernel_explainer : Type)
         (KernelExplainer :
            (list (list Q) -> Py.result (list (list Q))) -> list (list Q) ->
            Py.result kernel_explainer)
         (kernel_shap_values :
            kernel_explainer -> list (list Q) -> nat -> Py.result Explainer.shap_output)
         (random_choice : nat -> nat -> Py.result (list nat))
         (model : Explainer.Estimator) (background_data features_transformed : list (list Q))
         (feature_names : list string) (feature_values : list Q),
    (exists top_features reason,
       Explainer.explain_with_feature_importance
         model features_transformed feature_names feature_values =
       Py.Ret (top_features, reason) /\
       StronglySorted Orchestrator.impact_ge top_features /\ reason <> "") /\
    (exists top_features reason,
       Explainer.explain_with_shap_tree tree_explainer TreeExplainer tree_shap_values
         model features_transformed feature_names feature_values =
       Py.Ret (top_features, reason) /\
       StronglySorted Orchestrator.impact_ge top_features /\ reason <> "") /\
    (exists top_features reason,
       Explainer.explain_with_shap_kernel kernel_explainer KernelExplainer
         kernel_shap_values random_choice
         model background_data features_transformed feature_names feature_values =
       Py.Ret (top_features, reason) /\
       StronglySorted Orchestrator.impact_ge top_features /\ reason <> "" /\
       Forall (fun f => (0 <= Explainer.impact f)%Q) top_features).
Proof.
  intros. repeat split.
  - destruct (explain_with_feature_importance_ranked
                model features_transformed feature_names feature_values)
      as ([tf r] & H & Hs & Hr).
    by exists tf, r.
  - destruct (explain_with_shap_tree_ranked tree_explainer TreeExplainer tree_shap_values
                model features_transformed feature_names feature_values)
      as ([tf r] & H & Hs & Hr).
    by exists tf, r.
  - destruct (explain_with_shap_kernel_ranked kernel_explainer KernelExplainer
                kernel_shap_values random_choice
                model background_data features_transformed feature_names feature_values)
      as ([tf r] & H & (Hs & Hr) & Hn).
    by exists tf, r.
Qed.

Section LargestFacts.
Import Py Explainer Ranking.

Lemma sorted_pairs_elem a j v : a !! j = Some v -> (j, v) ∈ sorted_pairs a.
Proof.
  intros H. rewrite (sorted_pairs_perm a).
  apply list_elem_of_lookup. exists j. apply lookup_zip_Some. split; [|exact H].
  apply lookup_seq. split; [reflexivity|]. by eapply lookup_lt_Some.
Qed.

(** What [collect] leaves out is no larger than what it keeps. *)
Lemma collect_dominates names values scores tf j v :
  collect names values scores (top3_indices scores) = Ret tf ->
  scores !! j = Some v ->
  (exists f, f ∈ tf /\ attribution_of names values scores j f) \/
  Forall (fun f => (v <= impact f)%Q) tf.
Proof.
  intros Hc Hj.
  destruct (decide (j ∈ top3_indices scores)) as [Hin|Hnin].
  - left. apply collect_Forall2 in Hc.
    apply list_elem_of_lookup in Hin. destruct Hin as [k Hk].
    destruct (Forall2_lookup_l _ _ _ _ _ Hc Hk) as (f & Hf & Ha).
    exists f. split; [|exact Ha]. apply list_elem_of_lookup. eauto.
  - right. apply collect_top3_pairs in Hc.
    apply Forall_forall. intros f Hf.
    apply list_elem_of_lookup in Hf. destruct Hf as [k Hk].
    destruct (Forall2_lookup_r _ _ _ _ _ Hc Hk) as (p & Hp & _ & Himp).
    rewrite Himp.
    apply (top3_pairs_dominate scores p (j, v)).
    + apply list_elem_of_lookup. eauto.
    + by apply sorted_pairs_elem.
    + intros Hjv. apply Hnin. rewrite top3_indices_pairs.
      change (map fst (top3_pairs scores)) with (fst <$> top3_pairs scores).
      apply list_elem_of_fmap. by exists (j, v).
Qed.

Lemma collect_top3_returns names values scores :
  length scores <= length names -> length scores <= length values ->
  exists tf, collect names values scores (top3_indices scores) = Ret tf.
Proof.
  intros Hn Hv. apply collect_returns. apply Forall_forall. intros i Hi.
  apply top3_indices_lt in Hi. lia.
Qed.

End LargestFacts.

(** X8. With importances and enough names and values to go with them, the
    first explainer keeps the largest: it returns min(3, n) attributions,
    each one the name, the raw value and the importance of one index, and
    every importance it leaves out is no larger than any it keeps. *)
Theorem feature_importance_keeps_the_largest :
  forall (model : Explainer.Estimator) (features_transformed : list (list Q))
         (feature_names : list string) (feature_values importances : list Q),
    Explainer.feature_importances_ model = Some importances ->
    length importances <= length feature_names ->
    length importances <= length feature_values ->
    exists top_features,
      Explainer.explain_with_feature_importance
        model features_transformed feature_names feature_values =
      Py.Ret (top_features,
              Explainer._format_feature_importance_explanation
                top_features feature_values feature_names) /\
      length top_features = Nat.min 3 (length importances) /\
      Forall (fun f => exists i,
                Ranking.attribution_of feature_names feature_values importances i f)
             top_features /\
      (forall j v,
         importances !! j = Some v ->
         (exists f, f ∈ top_features /\
                    Ranking.attribution_of feature_names feature_values importances j f) \/
         Forall (fun f => (v <= Explainer.impact f)%Q) top_features).
Proof.
  intros model ft names values imp Hi Hn Hv.
  destruct (collect_top3_returns names values imp Hn Hv) as [tf Hc].
  exists tf. split; [|split; [|split]].
  - unfold Explainer.explain_with_feature_importance. rewrite Hi. simpl.
    rewrite Hc. reflexivity.
  - rewrite (collect_length _ _ _ _ _ Hc). apply top3_indices_length.
  - apply collect_Forall2 in Hc. apply Forall_forall. intros f Hf.
    apply list_elem_of_lookup in Hf. destruct Hf as [k Hk].
    destruct (Forall2_lookup_r _ _ _ _ _ Hc Hk) as (i & _ & Ha). by exists i.
  - intros j v Hj. by apply (collect_dominates names values imp tf j v).
Qed.

Lemma feature_importance_keeps_the_largest_witness :
  exists top_features,
    Explainer.explain_with_feature_importance Examples.xgb_model
      [[15; 1.2; 18; 0.4; 12]%Q] Features.model_1_feature_names
      [15; 1.2; 18; 0.4; 12]%Q =
    Py.Ret (top_features,
            Explainer._format_feature_importance_explanation
              top_features [15; 1.2; 18; 0.4; 12]%Q Features.model_1_feature_names) /\
    length top_features = 3.
Proof.
  destruct (feature_importance_keeps_the_largest Examples.xgb_model
              [[15; 1.2; 18; 0.4; 12]%Q] Features.model_1_feature_names
              [15; 1.2; 18; 0.4; 12]%Q [0.30; 0.10; 0.25; 0.15; 0.20]%Q)
    as (tf & H & Hl & _).
  - reflexivity.
  - simpl. lia.
  - simpl. lia.
  - exists tf. split; [exact H|exact Hl].
Defined.


(** ** Feature assembler, models 2 and 3 *)

(** X9. For every ratio row the health assembler returns one row of
    eight entries, in the order revenue_growth_1y, ebitda_growth_1y,
    equity_growth, debt_trend, cash_trend, working_capital_trend,
    leverage_change, debt_to_equity_2025, a null ratio replaced by 0; the
    name list is that fixed list and the dictionary maps each name to the
    entry at its position. *)
Theorem model_2_vector_order_and_defaults :
  forall ratios : StockRatio.t,
    let v := Features.or_zero in
    let row :=
      [v (StockRatio.revenue_growth_1y ratios); v (StockRatio.ebitda_growth_1y ratios);
       v (StockRatio.equity_growth ratios); v (StockRatio.debt_trend ratios);
       v (StockRatio.cash_trend ratios); v (StockRatio.working_capital_trend ratios);
       v (StockRatio.leverage_change ratios);
       v (StockRatio.debt_to_equity_2025 ratios)] in
    exists feature_dict : gmap string Q,
      Features._prepare_model_2_features ratios =
        ([row], Features.model_2_feature_names, feature_dict) /\
      map (fun name => feature_dict !! name) Features.model_2_feature_names =
        map Some row /\
      length row = 8 /\ NoDup Features.model_2_feature_names.
Proof.
  intros ratios v row. eexists. split; [|split; [|split]].
  - unfold Features._prepare_model_2_features, Features.assemble. cbn. reflexivity.
  - reflexivity.
  - reflexivity.
  - apply NoDup_ListNoDup. unfold Features.model_2_feature_names.
    repeat constructor; simpl; intros H;
      repeat (destruct H as [H|H]; [discriminate H|]); exact H.
Qed.

(** X10. For every ratio row the growth assembler returns one row of nine
    entries, in the order revenue_cagr_2y, ebitda_cagr_2y,
    book_value_cagr_2y, revenue_volatility, ebitda_volatility,
    revenue_acceleration, ebitda_acceleration, capex_trend,
    working_capital_trend_2y, a null ratio replaced by 0; the name list
    is that fixed list and the dictionary maps each name to the entry at
    its position. *)
Theorem model_3_vector_order_and_defaults :
  forall ratios : StockRatio.t,
    let v := Features.or_zero in
    let row :=
      [v (StockRatio.revenue_cagr_2y ratios); v (StockRatio.ebitda_cagr_2y ratios);
       v (StockRatio.book_value_cagr_2y ratios);
       v (StockRatio.revenue_volatility ratios);
       v (StockRatio.ebitda_volatility ratios);
       v (StockRatio.revenue_acceleration ratios);
       v (StockRatio.ebitda_acceleration ratios);
       v (StockRatio.capex_trend ratios);
       v (StockRatio.working_capital_trend_2y ratios)] in
    exists feature_dict : gmap string Q,
      Features._prepare_model_3_features ratios =
        ([row], Features.model_3_feature_names, feature_dict) /\
      map (fun name => feature_dict !! name) Features.model_3_feature_names =
        map Some row /\
      length row = 9 /\ NoDup Features.model_3_feature_names.
Proof.
  intros ratios v row. eexists. split; [|split; [|split]].
  - unfold Features._prepare_model_3_features, Features.assemble. cbn. reflexivity.
  - reflexivity.
  - reflexivity.
  - apply NoDup_ListNoDup. unfold Features.model_3_feature_names.
    repeat constructor; simpl; intros H;
      repeat (destruct H as [H|H]; [discriminate H|]); exact H.
Qed.


(** ** Orchestrator: outcomes, persistence, registry *)

Section OutcomeFacts.
Import Py Explainer Orchestrator.

Variable tree_explainer : Type.
Variable TreeExplainer : Estimator -> result tree_explainer.
Variable tree_shap_values : tree_explainer -> list (list Q) -> result shap_output.
Variable kernel_explainer : Type.
Variable KernelExplainer :
  (list (list Q) -> result (list (list Q))) -> list (list Q) -> result kernel_explainer.
Variable kernel_shap_values :
  kernel_explainer -> list (list Q) -> nat -> result shap_output.
Variable random_choice : nat -> nat -> result (list nat).
Variable models : gmap string ModelData.
Variable insert_prediction :
  Db.t -> Prediction.t -> result (Z * option Prediction.datetime).
Variable refresh_prediction : Db.t -> Z -> result unit.
Variable isoformat : Prediction.datetime -> string.

Local Abbreviation run_model :=
  (_run_model_prediction tree_explainer TreeExplainer tree_shap_values
     kernel_explainer KernelExplainer kernel_shap_values random_choice models).
Local Abbreviation three_models :=
  (run_models tree_explainer TreeExplainer tree_shap_values
     kernel_explainer KernelExplainer kernel_shap_values random_choice models).
Local Abbreviation predict :=
  (predict_stock tree_explainer TreeExplainer tree_shap_values
     kernel_explainer KernelExplainer kernel_shap_values random_choice models
     insert_prediction refresh_prediction isoformat).
Local Abbreviation found :=
  (predict_found tree_explainer TreeExplainer tree_shap_values
     kernel_explainer KernelExplainer kernel_shap_values random_choice models
     insert_prediction refresh_prediction isoformat).

Lemma agreement_label (t : Z) :
  (Ensemble.agreement t).1 = "BUY" \/ (Ensemble.agreement t).1 = "SELL" \/
  (Ensemble.agreement t).1 = "HOLD".
Proof.
  unfold Ensemble.agreement.
  destruct (2 <=? t)%Z; [by left|]. destruct (t <=? -2)%Z; [by right; left|by right; right].
Qed.

Lemma voting_label v h g c1 c2 c3 :
  let r := Ensemble.recommendation (Ensemble._ensemble_voting v h g c1 c2 c3) in
  r = "BUY" \/ r = "SELL" \/ r = "HOLD".
Proof. simpl. rewrite voting_recommendation. apply agreement_label. Qed.

(** The answer of a successful run, together with the row it wrote. *)
Lemma predict_found_inv db stock ratios user_id db' resp :
  found db stock ratios user_id = (db', Ret resp) ->
  exists row ts,
    db' = Db.with_predictions db (<[prediction_id resp := row]> (Db.predictions db)) /\
    Prediction.user_id row = user_id /\
    Prediction.stock_id row = Stock.id stock /\
    Prediction.ticker row = Stock.ticker stock /\
    Prediction.company_name row = Stock.company_name stock /\
    Prediction.sector row = Stock.sector stock /\
    Prediction.model_1 row = model_1_valuation resp /\
    Prediction.model_2 row = model_2_health resp /\
    Prediction.model_3 row = model_3_growth resp /\
    Prediction.final_recommendation row = final_recommendation (response_ensemble resp) /\
    Prediction.final_confidence row = confidence (response_ensemble resp) /\
    Prediction.final_reasoning row = reasoning (response_ensemble resp) /\
    Prediction.overall_top_features row = ensemble_top_features (response_ensemble resp) /\
    Prediction.created_at row = Some ts /\
    predicted_at resp = isoformat ts /\
    (final_recommendation (response_ensemble resp) = "BUY" \/
     final_recommendation (response_ensemble resp) = "SELL" \/
     final_recommendation (response_ensemble resp) = "HOLD").
Proof.
  intros H. apply predict_found_ok in H.
  destruct H as (ts & _ & He & Hat & Hdb).
  eexists _, ts. split; [exact Hdb|]. rewrite He. simpl.
  repeat split; try reflexivity; try assumption. apply voting_label.
Qed.

End OutcomeFacts.

Section RegistryFacts.
Import Py Explainer Orchestrator.

Variable tree_explainer : Type.
Variable TreeExplainer : Estimator -> result tree_explainer.
Variable tree_shap_values : tree_explainer -> list (list Q) -> result shap_output.
Variable kernel_explainer : Type.
Variable KernelExplainer :
  (list (list Q) -> result (list (list Q))) -> list (list Q) -> result kernel_explainer.
Variable kernel_shap_values :
  kernel_explainer -> list (list Q) -> nat -> result shap_output.
Variable random_choice : nat -> nat -> result (list nat).
Variable models : gmap string ModelData.
Variable insert_prediction :
  Db.t -> Prediction.t -> result (Z * option Prediction.datetime).
Variable refresh_prediction : Db.t -> Z -> result unit.
Variable isoformat : Prediction.datetime -> string.

Local Abbreviation run_model :=
  (_run_model_prediction tree_explainer TreeExplainer tree_shap_values
     kernel_explainer KernelExplainer kernel_shap_values random_choice models).
Local Abbreviation three_models :=
  (run_models tree_explainer TreeExplainer tree_shap_values
     kernel_explainer KernelExplainer kernel_shap_values random_choice models).
Local Abbreviation found :=
  (predict_found tree_explainer TreeExplainer tree_shap_values
     kernel_explainer KernelExplainer kernel_shap_values random_choice models
     insert_prediction refresh_prediction isoformat).

(** A model that answers is a model that is registered. *)
Lemma run_model_registered model_key features names dict r :
  run_model model_key features names dict = Ret r -> is_Some (models !! model_key).
Proof.
  unfold _run_model_prediction. intros H.
  destruct (models !! model_key); [by eexists|discriminate H].
Qed.

Lemma run_model_not_registered model_key features names dict :
  models !! model_key = None ->
  run_model model_key features names dict =
  Raise (Exception ("Model " ++ model_key ++ " not loaded")).
Proof. intros H. unfold _run_model_prediction. by rewrite H. Qed.

Lemma predict_found_needs_all_models db stock ratios user_id db' resp :
  found db stock ratios user_id = (db', Ret resp) ->
  is_Some (models !! "model_1") /\ is_Some (models !! "model_2") /\
  is_Some (models !! "model_3").
Proof.
  intros H. apply predict_found_ok_inv in H.
  destruct H as (f1 & n1 & d1 & f2 & n2 & d2 & f3 & n3 & d3 & H1 & H2 & H3 & _).
  apply run_model_registered in H1, H2, H3. by repeat split.
Qed.

Lemma predict_found_without_model_1 db stock ratios user_id :
  models !! "model_1" = None ->
  found db stock ratios user_id = (db, Raise (Exception "Model model_1 not loaded")).
Proof.
  intros H. unfold predict_found, run_models.
  destruct (Features._prepare_model_1_features stock) as [[f1 n1] d1].
  destruct (Features._prepare_model_2_features ratios) as [[f2 n2] d2].
  destruct (Features._prepare_model_3_features ratios) as [[f3 n3] d3].
  by rewrite (run_model_not_registered "model_1" f1 n1 d1 H).
Qed.

(** A run that raised before the write: some model did not answer. *)
Lemma predict_found_models_fail db stock ratios user_id e :
  three_models stock ratios = Raise e ->
  found db stock ratios user_id = (db, Raise e).
Proof. intros H. unfold predict_found. by rewrite H. Qed.

Lemma run_models_need_all stock ratios r :
  three_models stock ratios = Ret r ->
  is_Some (models !! "model_1") /\ is_Some (models !! "model_2") /\
  is_Some (models !! "model_3").
Proof.
  destruct r as [[r1 r2] r3]. intros H. apply run_models_inv in H.
  destruct H as (f1 & n1 & d1 & f2 & n2 & d2 & f3 & n3 & d3 & H1 & H2 & H3).
  apply run_model_registered in H1, H2, H3. by repeat split.
Qed.

End RegistryFacts.

Lemma health_check_true (models : gmap string ModelLoader.entry) :
  ModelLoader.health_check models = true <->
  is_Some (models !! "model_1") /\ is_Some (models !! "model_2") /\
  is_Some (models !! "model_3").
Proof.
  unfold ModelLoader.health_check, ModelLoader.required_keys. simpl.
  rewrite !andb_true_iff, !bool_decide_eq_true. naive_solver.
Qed.

Lemma registry_lookup (models : gmap string ModelLoader.entry) (key : string) :
  ModelLoader.registry models !! key = ModelLoader.get_model models key.
Proof. unfold ModelLoader.registry, ModelLoader.get_model. apply lookup_fmap. Qed.

Lemma registry_is_Some (models : gmap string ModelLoader.entry) (key : string) :
  is_Some (ModelLoader.registry models !! key) <-> is_Some (models !! key).
Proof.
  rewrite registry_lookup. unfold ModelLoader.get_model.
  apply fmap_is_Some.
Qed.


(** X12. The status of a failure tells what was missing: [predict_stock]
    answers 404 exactly when no stock has the requested ticker, and 400
    exactly when the stock exists and has no ratio row; in both cases
    whatever the state of the model registry. *)
Theorem predict_stock_404_and_400 :
  forall (tree_explainer : Type)
         (TreeExplainer : Explainer.Estimator -> Py.result tree_explainer)
         (tree_shap_values :
            tree_explainer -> list (list Q) -> Py.result Explainer.shap_output)
         (kernel_explainer : Type)
         (KernelExplainer :
            (list (list Q) -> Py.result (list (list Q))) -> list (list Q) ->
            Py.result kernel_explainer)
         (kernel_shap_values :
            kernel_explainer -> list (list Q) -> nat -> Py.result Explainer.shap_output)
         (random_choice : nat -> nat -> Py.result (list nat))
         (models : gmap string Orchestrator.ModelData)
         (insert_prediction :
            Db.t -> Prediction.t -> Py.result (Z * option Prediction.datetime))
         (refresh_prediction : Db.t -> Z -> Py.result unit)
         (isoformat : Prediction.datetime -> string)
         (db : Db.t) (ticker : string) (user_id : Z),
  exists db' r,
    Orchestrator.predict_stock tree_explainer TreeExplainer tree_shap_values
      kernel_explainer KernelExplainer kernel_shap_values random_choice models
      insert_prediction refresh_prediction isoformat db ticker user_id = Py.Ret (db', r) /\
    (status_code r = 404%Z <-> Db.get_stock_by_ticker db ticker = None) /\
    (status_code r = 400%Z <->
     exists stock, Db.get_stock_by_ticker db ticker = Some stock /\
                   Db.get_stock_ratios db (Stock.id stock) = None).
Proof.
  intros.
  destruct (predict_stock_cases tree_explainer TreeExplainer tree_shap_values
              kernel_explainer KernelExplainer kernel_shap_values random_choice models
              insert_prediction refresh_prediction isoformat db ticker user_id)
    as [[Hs H]|[(stock & Hs & Hr & H)|(stock & ratios & db' & Hs & Hr &
         [(e & _ & H)|(resp & _ & H)])]];
    rewrite H; eexists _, _; (split; [reflexivity|]); simpl.
  - split; [done|]. split; [discriminate|]. intros (s & Hs' & _). congruence.
  - split; [split; [discriminate|congruence]|]. split; [|done].
    intros _. by exists stock.
  - split; [split; [discriminate|congruence]|]. split; [discriminate|].
    intros (s & Hs' & Hr'). congruence.
  - split; [split; [discriminate|congruence]|]. split; [discriminate|].
    intros (s & Hs' & Hr'). congruence.
Qed.

(** X13. With an unhealthy registry nothing is predicted: when
    [health_check] is false, a request for a stock that exists and has
    its ratios ends in the 500 failure and writes nothing; when it is the
    valuation model that is missing, the failure reads "Prediction error:
    Model model_1 not loaded".  No other model is used in its place. *)
Theorem unhealthy_registry_fails_every_prediction :
  forall (tree_explainer : Type)
         (TreeExplainer : Explainer.Estimator -> Py.result tree_explainer)
         (tree_shap_values :
            tree_explainer -> list (list Q) -> Py.result Explainer.shap_output)
         (kernel_explainer : Type)
         (KernelExplainer :
            (list (list Q) -> Py.result (list (list Q))) -> list (list Q) ->
            Py.result kernel_explainer)
         (kernel_shap_values :
            kernel_explainer -> list (list Q) -> nat -> Py.result Explainer.shap_output)
         (random_choice : nat -> nat -> Py.result (list nat))
         (models : gmap string ModelLoader.entry)
         (insert_prediction :
            Db.t -> Prediction.t -> Py.result (Z * option Prediction.datetime))
         (refresh_prediction : Db.t -> Z -> Py.result unit)
         (isoformat : Prediction.datetime -> string)
         (db : Db.t) (ticker : string) (user_id : Z)
         (stock : Stock.t) (ratios : StockRatio.t),
    ModelLoader.health_check models = false ->
    Db.get_stock_by_ticker db ticker = Some stock ->
    Db.get_stock_ratios db (Stock.id stock) = Some ratios ->
    exists e,
      Orchestrator.predict_stock tree_explainer TreeExplainer tree_shap_values
        kernel_explainer KernelExplainer kernel_shap_values random_choice
        (ModelLoader.registry models) insert_prediction refresh_prediction isoformat db ticker user_id =
      Py.Ret (db, Error 500 ("Prediction error: " ++ Py.str e)) /\
      (ModelLoader.get_model models "model_1" = None ->
       e = Py.Exception "Model model_1 not loaded").
Proof.
  intros until ratios. intros Hh Hs Hr.
  unfold Orchestrator.predict_stock. rewrite Hs, Hr.
  destruct (Orchestrator.run_models tree_explainer TreeExplainer tree_shap_values
              kernel_explainer KernelExplainer kernel_shap_values random_choice
              (ModelLoader.registry models) stock ratios) as [e|r] eqn:Hm.
  - rewrite (predict_found_models_fail _ _ _ _ _ _ _ _ insert_prediction
               refresh_prediction isoformat db _ _ user_id _ Hm).
    exists e. split; [reflexivity|]. intros Hnone.
    pose proof (predict_found_without_model_1 tree_explainer TreeExplainer
                  tree_shap_values kernel_explainer KernelExplainer kernel_shap_values
                  random_choice (ModelLoader.registry models) insert_prediction
                  refresh_prediction isoformat db stock ratios user_id) as Hw.
    rewrite registry_lookup in Hw. specialize (Hw Hnone).
    rewrite (predict_found_models_fail _ _ _ _ _ _ _ _ insert_prediction
               refresh_prediction isoformat db _ _ user_id _ Hm) in Hw.
    congruence.
  - exfalso. apply run_models_need_all in Hm.
    rewrite !registry_is_Some in Hm. apply health_check_true in Hm. congruence.
Qed.

Lemma unhealthy_registry_fails_every_prediction_witness :
  exists e,
    Orchestrator.predict_stock Explainer.Estimator Examples.TreeExplainer
      Examples.tree_shap_values unit Examples.KernelExplainer
      Examples.kernel_shap_values Examples.random_choice
      (ModelLoader.registry ExamplesExtra.partial_registry)
      Examples.insert_ok Examples.refresh_ok Examples.isoformat Examples.db_abc "abc" 42 =
    Py.Ret (Examples.db_abc, Error 500 ("Prediction error: " ++ Py.str e)).
Proof.
  destruct (unhealthy_registry_fails_every_prediction Explainer.Estimator
              Examples.TreeExplainer Examples.tree_shap_values unit
              Examples.KernelExplainer Examples.kernel_shap_values
              Examples.random_choice ExamplesExtra.partial_registry
              Examples.insert_ok Examples.refresh_ok Examples.isoformat Examples.db_abc "abc" 42
              Examples.stock_abc Examples.ratios_abc) as (e & H & _).
  - vm_compute. reflexivity.
  - vm_compute. reflexivity.
  - vm_compute. reflexivity.
  - by exists e.
Defined.

(** X14. What is predicted can be read back: after a successful
    [predict_stock], the history detail of the returned id, asked for by
    the same user, is a 200 answer with the same three model results, the
    same recommendation, confidence, reasoning, overall features and
    timestamp; asked for by anyone else it is the 403 failure. *)
Theorem prediction_can_be_read_back :
  forall (tree_explainer : Type)
         (TreeExplainer : Explainer.Estimator -> Py.result tree_explainer)
         (tree_shap_values :
            tree_explainer -> list (list Q) -> Py.result Explainer.shap_output)
         (kernel_explainer : Type)
         (KernelExplainer :
            (list (list Q) -> Py.result (list (list Q))) -> list (list Q) ->
            Py.result kernel_explainer)
         (kernel_shap_values :
            kernel_explainer -> list (list Q) -> nat -> Py.result Explainer.shap_output)
         (random_choice : nat -> nat -> Py.result (list nat))
         (models : gmap string Orchestrator.ModelData)
         (insert_prediction :
            Db.t -> Prediction.t -> Py.result (Z * option Prediction.datetime))
         (refresh_prediction : Db.t -> Z -> Py.result unit)
         (isoformat : Prediction.datetime -> string)
         (db : Db.t) (ticker : string) (user_id : Z)
         (db' : Db.t) (resp : Orchestrator.prediction_response),
    Orchestrator.predict_stock tree_explainer TreeExplainer tree_shap_values
      kernel_explainer KernelExplainer kernel_shap_values random_choice models
      insert_prediction refresh_prediction isoformat db ticker user_id = Py.Ret (db', Ok resp) ->
    (exists detail,
       History.get_prediction_by_id isoformat db'
         (Orchestrator.prediction_id resp) user_id = Py.Ret (Ok detail) /\
       History.id detail = Orchestrator.prediction_id resp /\
       History.model_1 detail = Orchestrator.model_1_valuation resp /\
       History.model_2 detail = Orchestrator.model_2_health resp /\
       History.model_3 detail = Orchestrator.model_3_growth resp /\
       History.final_recommendation detail =
         Orchestrator.final_recommendation (Orchestrator.response_ensemble resp) /\
       History.final_confidence detail =
         Orchestrator.confidence (Orchestrator.response_ensemble resp) /\
       History.final_reasoning detail =
         Orchestrator.reasoning (Orchestrator.response_ensemble resp) /\
       History.overall_top_features detail =
         Orchestrator.ensemble_top_features (Orchestrator.response_ensemble resp) /\
       History.predicted_at detail = Some (Orchestrator.predicted_at resp)) /\
    (forall other : Z,
       other <> user_id ->
       History.get_prediction_by_id isoformat db'
         (Orchestrator.prediction_id resp) other = Py.Ret (Error 403 "Access denied")).
Proof.
  intros until resp. intros H.
  apply predict_stock_ok_inv in H. destruct H as (stock & ratios & _ & _ & H).
  apply predict_found_inv in H.
  destruct H
    as (row & ts & Hdb & Hu & _ & _ & _ & _ & Hm1 & Hm2 & Hm3
        & Hrec & Hconf & Hreas & Htop & Hts & Hat & _).
  assert (Hl : Db.predictions db' !! Orchestrator.prediction_id resp = Some row).
  { rewrite Hdb. simpl. apply lookup_insert_eq. }
  split.
  - unfold History.get_prediction_by_id, Db.get_prediction_by_id.
    rewrite Hl, Hu, Z.eqb_refl. simpl. eexists. split; [reflexivity|]. simpl.
    rewrite Hts, Hat. by repeat split.
  - intros other Hne.
    apply (detail_not_owner isoformat db' _ other row Hl). congruence.
Qed.

Lemma prediction_can_be_read_back_witness :
  exists db' resp detail,
    Orchestrator.predict_stock Explainer.Estimator Examples.TreeExplainer
      Examples.tree_shap_values unit Examples.KernelExplainer
      Examples.kernel_shap_values Examples.random_choice Examples.models
      Examples.insert_ok Examples.refresh_ok Examples.isoformat Examples.db_abc "abc" 42 =
    Py.Ret (db', Ok resp) /\
    History.get_prediction_by_id Examples.isoformat db'
      (Orchestrator.prediction_id resp) 42 = Py.Ret (Ok detail) /\
    History.final_recommendation detail =
      Orchestrator.final_recommendation (Orchestrator.response_ensemble resp).
Proof.
  destruct (Orchestrator.predict_stock Explainer.Estimator Examples.TreeExplainer
      Examples.tree_shap_values unit Examples.KernelExplainer
      Examples.kernel_shap_values Examples.random_choice Examples.models
      Examples.insert_ok Examples.refresh_ok Examples.isoformat Examples.db_abc "abc" 42)
    as [e|[db' [resp|c msg]]] eqn:E;
    [vm_compute in E; discriminate| |vm_compute in E; discriminate].
  destruct (prediction_can_be_read_back _ _ _ _ _ _ _ _ _ _ _ _ _ _ _ _ E)
    as ((detail & Hd & _ & _ & _ & _ & Hrec & _) & _).
  exists db', resp, detail. by repeat split.
Defined.


Section ReasoningFacts.
Import Py Explainer Orchestrator.

Variable tree_explainer : Type.
Variable TreeExplainer : Estimator -> result tree_explainer.
Variable tree_shap_values : tree_explainer -> list (list Q) -> result shap_output.
Variable kernel_explainer : Type.
Variable KernelExplainer :
  (list (list Q) -> result (list (list Q))) -> list (list Q) -> result kernel_explainer.
Variable kernel_shap_values :
  kernel_explainer -> list (list Q) -> nat -> result shap_output.
Variable random_choice : nat -> nat -> result (list nat).
Variable models : gmap string ModelData.
Variable insert_prediction :
  Db.t -> Prediction.t -> result (Z * option Prediction.datetime).
Variable refresh_prediction : Db.t -> Z -> result unit.
Variable isoformat : Prediction.datetime -> string.

Local Abbreviation run_model :=
  (_run_model_prediction tree_explainer TreeExplainer tree_shap_values
     kernel_explainer KernelExplainer kernel_shap_values random_choice models).
Local Abbreviation three_models :=
  (run_models tree_explainer TreeExplainer tree_shap_values
     kernel_explainer KernelExplainer kernel_shap_values random_choice models).
Local Abbreviation found :=
  (predict_found tree_explainer TreeExplainer tree_shap_values
     kernel_explainer KernelExplainer kernel_shap_values random_choice models
     insert_prediction refresh_prediction isoformat).

Lemma predict_found_reasoning db stock ratios user_id db' resp :
  found db stock ratios user_id = (db', Ret resp) ->
  reasoning (response_ensemble resp) =
  generate_ensemble_reasoning
    (Prediction.prediction (model_1_valuation resp))
    (Prediction.prediction (model_2_health resp))
    (Prediction.prediction (model_3_growth resp))
    (final_recommendation (response_ensemble resp))
    (ensemble_top_features (response_ensemble resp)).
Proof.
  intros H. apply predict_found_ok in H. destruct H as (ts & _ & He & _).
  by rewrite He.
Qed.

(** What [_run_model_prediction] returns for a registered model, read
    off its last steps. *)
Lemma run_model_inv model_key features names dict r :
  run_model model_key features names dict = Ret r ->
  exists md ft fv,
    models !! model_key = Some md /\
    transformer md features = Ret ft /\
    getitem features 0 = Ret fv /\
    (has_predict_proba (model md) = false -> Prediction.confidence r = 0.85%Q) /\
    (model_type md = "svm" ->
     exists background,
       background_data md = Some background /\
       explain_with_shap_kernel kernel_explainer KernelExplainer kernel_shap_values
         random_choice (model md) background ft names fv =
       Ret (Prediction.top_features r, Prediction.reason r)) /\
    (model_type md <> "xgboost" -> model_type md <> "random_forest" ->
     model_type md <> "svm" ->
     Prediction.top_features r = [] /\
     Prediction.reason r = "Prediction made successfully.").
Proof.
  unfold _run_model_prediction. intros H.
  destruct (models !! model_key) as [md|]; [|discriminate H].
  simpl in H. bind_inv H.
  match goal with
  | Ht : transformer md features = Ret ?ft,
    Hv : getitem features 0 = Ret ?fv,
    Hc : (if has_predict_proba _ then _ else _) = Ret ?c,
    Hd : (if String.eqb _ _ then _ else _) = Ret ?p |- _ =>
      destruct p as [tf reason]; inversion H; subst; simpl; clear H;
      exists md, ft, fv;
      split; [reflexivity|]; split; [exact Ht|]; split; [exact Hv|];
      split; [|split]
  end.
  - intros Hp.
    match goal with
    | Hc : (if has_predict_proba _ then _ else _) = Ret _ |- _ =>
        rewrite Hp in Hc; by inversion Hc
    end.
  - intros Hsvm.
    match goal with
    | Hd : (if String.eqb _ _ then _ else _) = Ret _ |- _ =>
        rewrite Hsvm in Hd; simpl in Hd;
        destruct (background_data md) as [b|]; [|discriminate Hd];
        exists b; split; [reflexivity|exact Hd]
    end.
  - intros H1 H2 H3. apply String.eqb_neq in H1, H2, H3.
    match goal with
    | Hd : (if String.eqb _ _ then _ else _) = Ret _ |- _ =>
        rewrite H1, H2, H3 in Hd; by inversion Hd
    end.
Qed.

End ReasoningFacts.

Section HeadFacts.
Import Explainer Orchestrator.

Lemma sorted_head_dominates (l : list attribution) (top : attribution) rest :
  sort_by_impact_desc l = top :: rest ->
  top ∈ l /\ Forall (fun f => (impact f <= impact top)%Q) l.
Proof.
  intros H. pose proof (sort_by_impact_desc_sorted l) as Hs.
  pose proof (sort_by_impact_desc_perm l) as Hp. rewrite H in Hs, Hp.
  apply StronglySorted_cons in Hs. destruct Hs as [Hd _]. split.
  - rewrite <- Hp. by left.
  - rewrite <- Hp. constructor; [apply Qle_refl|exact Hd].
Qed.

End HeadFacts.

(** X23. The feature named in the ensemble reasoning is the strongest
    one: after a successful [predict_stock], if the three models returned
    any attribution at all, the reasoning text ends with the display name
    of an attribution of one of the models whose impact is at least that
    of every attribution of every model, followed by " is the most
    significant factor influencing this recommendation."; if they
    returned none, the overall list is empty. *)
Theorem reasoning_names_the_strongest_feature :
  forall (tree_explainer : Type)
         (TreeExplainer : Explainer.Estimator -> Py.result tree_explainer)
         (tree_shap_values :
            tree_explainer -> list (list Q) -> Py.result Explainer.shap_output)
         (kernel_explainer : Type)
         (KernelExplainer :
            (list (list Q) -> Py.result (list (list Q))) -> list (list Q) ->
            Py.result kernel_explainer)
         (kernel_shap_values :
            kernel_explainer -> list (list Q) -> nat -> Py.result Explainer.shap_output)
         (random_choice : nat -> nat -> Py.result (list nat))
         (models : gmap string Orchestrator.ModelData)
         (insert_prediction :
            Db.t -> Prediction.t -> Py.result (Z * option Prediction.datetime))
         (refresh_prediction : Db.t -> Z -> Py.result unit)
         (isoformat : Prediction.datetime -> string)
         (db : Db.t) (ticker : string) (user_id : Z)
         (db' : Db.t) (resp : Orchestrator.prediction_response),
    Orchestrator.predict_stock tree_explainer TreeExplainer tree_shap_values
      kernel_explainer KernelExplainer kernel_shap_values random_choice models
      insert_prediction refresh_prediction isoformat db ticker user_id = Py.Ret (db', Ok resp) ->
    let merged :=
      Orchestrator.all_features (Orchestrator.model_1_valuation resp)
        (Orchestrator.model_2_health resp) (Orchestrator.model_3_growth resp) in
    (merged = [] /\
     Orchestrator.ensemble_top_features (Orchestrator.response_ensemble resp) = []) \/
    (exists top prefix,
       top ∈ merged /\
       Forall (fun f => (Explainer.impact f <= Explainer.impact top)%Q) merged /\
       head (Orchestrator.ensemble_top_features (Orchestrator.response_ensemble resp)) =
         Some top /\
       Orchestrator.reasoning (Orchestrator.response_ensemble resp) =
         prefix ++ " " ++ Explainer.readable_name (Explainer.name top)
         ++ " is the most significant factor influencing this recommendation.").
Proof.
  intros until resp. intros H merged.
  apply predict_stock_ok_inv in H. destruct H as (stock & ratios & _ & _ & H).
  pose proof (predict_found_reasoning _ _ _ _ _ _ _ _ _ _ _ _ _ _ _ _ _ H) as Hreason.
  apply predict_found_ok_inv in H.
  destruct H as (_ & _ & _ & _ & _ & _ & _ & _ & _ & _ & _ & _ & Htop).
  unfold Orchestrator.overall_top_features in Htop. fold merged in Htop.
  destruct (Orchestrator.sort_by_impact_desc merged) as [|top rest] eqn:Hs.
  - left. split; [|by rewrite Htop].
    pose proof (sort_by_impact_desc_perm merged) as Hp. rewrite Hs in Hp.
    by apply Permutation_nil in Hp.
  - right. destruct (sorted_head_dominates merged top rest Hs) as [Hin Hdom].
    simpl in Htop. rewrite Htop in Hreason |- *.
    unfold Explainer.generate_ensemble_reasoning in Hreason.
    eexists top, _. repeat split; try assumption. exact Hreason.
Qed.

Lemma reasoning_names_the_strongest_feature_witness :
  exists db' resp top,
    Orchestrator.predict_stock Explainer.Estimator Examples.TreeExplainer
      Examples.tree_shap_values unit Examples.KernelExplainer
      Examples.kernel_shap_values Examples.random_choice Examples.models
      Examples.insert_ok Examples.refresh_ok Examples.isoformat Examples.db_abc "abc" 42 =
    Py.Ret (db', Ok resp) /\
    head (Orchestrator.ensemble_top_features (Orchestrator.response_ensemble resp)) =
      Some top.
Proof.
  destruct (Orchestrator.predict_stock Explainer.Estimator Examples.TreeExplainer
      Examples.tree_shap_values unit Examples.KernelExplainer
      Examples.kernel_shap_values Examples.random_choice Examples.models
      Examples.insert_ok Examples.refresh_ok Examples.isoformat Examples.db_abc "abc" 42)
    as [e|[db' [resp|c msg]]] eqn:E;
    [vm_compute in E; discriminate| |vm_compute in E; discriminate].
  destruct (reasoning_names_the_strongest_feature _ _ _ _ _ _ _ _ _ _ _ _ _ _ _ _ E)
    as [[Hm _]|(top & prefix & _ & _ & Hh & _)].
  - exfalso. vm_compute in E. inversion E; subst. vm_compute in Hm. discriminate Hm.
  - exists db', resp, top. by split.
Defined.

(** X24. What a model run falls back to.  Whenever
    [_run_model_prediction] returns for a registered model: without
    [predict_proba] the confidence is the fixed 0.85; an svm estimator
    without [predict_proba] has a registered background sample and gets
    its attributions and its reason from the coefficient fallback,
    whatever the SHAP library would have answered; for a family that is
    none of xgboost, random_forest and svm there are no attributions and
    the reason reads "Prediction made successfully.". *)
Theorem model_run_fallbacks :
  forall (tree_explainer : Type)
         (TreeExplainer : Explainer.Estimator -> Py.result tree_explainer)
         (tree_shap_values :
            tree_explainer -> list (list Q) -> Py.result Explainer.shap_output)
         (kernel_explainer : Type)
         (KernelExplainer :
            (list (list Q) -> Py.result (list (list Q))) -> list (list Q) ->
            Py.result kernel_explainer)
         (kernel_shap_values :
            kernel_explainer -> list (list Q) -> nat -> Py.result Explainer.shap_output)
         (random_choice : nat -> nat -> Py.result (list nat))
         (models : gmap string Orchestrator.ModelData)
         (model_key : string) (features : list (list Q)) (feature_names : list string)
         (feature_dict : gmap string Q) (r : Prediction.model_result),
    Orchestrator._run_model_prediction tree_explainer TreeExplainer tree_shap_values
      kernel_explainer KernelExplainer kernel_shap_values random_choice models
      model_key features feature_names feature_dict = Py.Ret r ->
    exists md features_transformed feature_values,
      models !! model_key = Some md /\
      Orchestrator.transformer md features = Py.Ret features_transformed /\
      Py.getitem features 0 = Py.Ret feature_values /\
      (Explainer.has_predict_proba (Orchestrator.model md) = false ->
       Prediction.confidence r = 0.85%Q) /\
      (Orchestrator.model_type md = "svm" ->
       Explainer.has_predict_proba (Orchestrator.model md) = false ->
       is_Some (Orchestrator.background_data md) /\
       Explainer._explain_svm_with_coefficients (Orchestrator.model md)
         features_transformed feature_names feature_values =
       Py.Ret (Prediction.top_features r, Prediction.reason r)) /\
      (Orchestrator.model_type md <> "xgboost" ->
       Orchestrator.model_type md <> "random_forest" ->
       Orchestrator.model_type md <> "svm" ->
       Prediction.top_features r = [] /\
       Prediction.reason r = "Prediction made successfully.").
Proof.
  intros until r. intros H. apply run_model_inv in H.
  destruct H as (md & ft & fv & Hm & Ht & Hv & Hc & Hsvm & Hother).
  exists md, ft, fv. repeat (split; [assumption|]). split; [|exact Hother].
  intros Hfam Hp. destruct (Hsvm Hfam) as (b & Hb & Hk).
  split; [by rewrite Hb|].
  by rewrite kernel_without_predict_proba in Hk.
Qed.

Lemma model_run_fallbacks_witness :
  exists r md,
    Orchestrator._run_model_prediction Explainer.Estimator Examples.TreeExplainer
      Examples.tree_shap_values unit Examples.KernelExplainer
      Examples.kernel_shap_values Examples.random_choice ExamplesExtra.bare_registry
      "model_3" [[1; -2; 3]%Q] ["a_b"; "c"; "d"] ∅ = Py.Ret r /\
    ExamplesExtra.bare_registry !! "model_3" = Some md /\
    Prediction.confidence r = 0.85%Q.
Proof.
  destruct (Orchestrator._run_model_prediction Explainer.Estimator Examples.TreeExplainer
      Examples.tree_shap_values unit Examples.KernelExplainer
      Examples.kernel_shap_values Examples.random_choice ExamplesExtra.bare_registry
      "model_3" [[1; -2; 3]%Q] ["a_b"; "c"; "d"] ∅) as [e|r] eqn:E;
    [vm_compute in E; discriminate|].
  destruct (model_run_fallbacks _ _ _ _ _ _ _ _ _ _ _ _ _ E)
    as (md & ft & fv & Hm & _ & _ & Hc & _).
  exists r, md. split; [reflexivity|]. split; [exact Hm|].
  apply Hc. vm_compute in Hm. inversion Hm; subst. reflexivity.
Defined.


(** ** Tickers *)

Section CaseFacts.

Lemma to_upper_to_lower (c : ascii) : Fmt.to_upper (Fmt.to_lower c) = Fmt.to_upper c.
Proof.
  destruct c as [[] [] [] [] [] [] [] []]; vm_compute; reflexivity.
Qed.

Lemma to_upper_to_upper (c : ascii) : Fmt.to_upper (Fmt.to_upper c) = Fmt.to_upper c.
Proof.
  destruct c as [[] [] [] [] [] [] [] []]; vm_compute; reflexivity.
Qed.

Lemma upper_lower (s : string) : Fmt.upper (Fmt.lower s) = Fmt.upper s.
Proof.
  unfold Fmt.upper, Fmt.lower. induction s as [|c s IH]; simpl; [reflexivity|].
  by rewrite to_upper_to_lower, IH.
Qed.

Lemma upper_upper (s : string) : Fmt.upper (Fmt.upper s) = Fmt.upper s.
Proof.
  unfold Fmt.upper. induction s as [|c s IH]; simpl; [reflexivity|].
  by rewrite to_upper_to_upper, IH.
Qed.

End CaseFacts.

(** X15. The ticker of a request is matched without regard to letter
    case: looking a stock up under the lower-case or the upper-case
    spelling finds what the spelling as typed finds, and for a stock that
    is found the whole outcome of [predict_stock] is the same. *)
Theorem ticker_is_matched_case_insensitively :
  forall (tree_explainer : Type)
         (TreeExplainer : Explainer.Estimator -> Py.result tree_explainer)
         (tree_shap_values :
            tree_explainer -> list (list Q) -> Py.result Explainer.shap_output)
         (kernel_explainer : Type)
         (KernelExplainer :
            (list (list Q) -> Py.result (list (list Q))) -> list (list Q) ->
            Py.result kernel_explainer)
         (kernel_shap_values :
            kernel_explainer -> list (list Q) -> nat -> Py.result Explainer.shap_output)
         (random_choice : nat -> nat -> Py.result (list nat))
         (models : gmap string Orchestrator.ModelData)
         (insert_prediction :
            Db.t -> Prediction.t -> Py.result (Z * option Prediction.datetime))
         (refresh_prediction : Db.t -> Z -> Py.result unit)
         (isoformat : Prediction.datetime -> string)
         (db : Db.t) (ticker : string) (user_id : Z),
    Db.get_stock_by_ticker db (Fmt.lower ticker) = Db.get_stock_by_ticker db ticker /\
    Db.get_stock_by_ticker db (Fmt.upper ticker) = Db.get_stock_by_ticker db ticker /\
    (is_Some (Db.get_stock_by_ticker db ticker) ->
     Orchestrator.predict_stock tree_explainer TreeExplainer tree_shap_values
       kernel_explainer KernelExplainer kernel_shap_values random_choice models
       insert_prediction refresh_prediction isoformat db (Fmt.lower ticker) user_id =
     Orchestrator.predict_stock tree_explainer TreeExplainer tree_shap_values
       kernel_explainer KernelExplainer kernel_shap_values random_choice models
       insert_prediction refresh_prediction isoformat db ticker user_id).
Proof.
  intros.
  assert (Hl : Db.get_stock_by_ticker db (Fmt.lower ticker) =
               Db.get_stock_by_ticker db ticker).
  { unfold Db.get_stock_by_ticker. by rewrite upper_lower. }
  split; [exact Hl|]. split.
  - unfold Db.get_stock_by_ticker. by rewrite upper_upper.
  - intros [stock Hs]. unfold Orchestrator.predict_stock. rewrite Hl, Hs. reflexivity.
Qed.

Lemma ticker_is_matched_case_insensitively_witness :
  Orchestrator.predict_stock Explainer.Estimator Examples.TreeExplainer
    Examples.tree_shap_values unit Examples.KernelExplainer
    Examples.kernel_shap_values Examples.random_choice Examples.models
    Examples.insert_ok Examples.refresh_ok Examples.isoformat Examples.db_abc (Fmt.lower "Abc") 42 =
  Orchestrator.predict_stock Explainer.Estimator Examples.TreeExplainer
    Examples.tree_shap_values unit Examples.KernelExplainer
    Examples.kernel_shap_values Examples.random_choice Examples.models
    Examples.insert_ok Examples.refresh_ok Examples.isoformat Examples.db_abc "Abc" 42.
Proof.
  apply (ticker_is_matched_case_insensitively Explainer.Estimator Examples.TreeExplainer
           Examples.tree_shap_values unit Examples.KernelExplainer
           Examples.kernel_shap_values Examples.random_choice Examples.models
           Examples.insert_ok Examples.refresh_ok Examples.isoformat Examples.db_abc "Abc" 42).
  vm_compute. by eexists.
Defined.

(** ** Ratios, then a prediction *)



(** ** Display names *)

(** X17. Every feature the three assemblers emit has a display name in
    [FEATURE_NAMES], so the title-cased fallback is never used for them,
    and the table has no entry beyond these twenty-two names. *)
Theorem every_feature_has_a_display_name :
  let names :=
    (Features.model_1_feature_names ++ Features.model_2_feature_names
     ++ Features.model_3_feature_names)%list in
  Forall (fun name =>
            exists readable,
              Explainer.FEATURE_NAMES !! name = Some readable /\
              Explainer.readable_name name = readable)
         names /\
  NoDup names /\
  size Explainer.FEATURE_NAMES = length names.
Proof.
  split; [|split].
  - repeat constructor; eexists; split; vm_compute; reflexivity.
  - apply (bool_decide_unpack _). vm_compute. reflexivity.
  - vm_compute. reflexivity.
Qed.


(** ** Model registry *)

Section LoaderFacts.
Import Py.
Variable path_exists : string -> bool.
Variable load_encoder : string -> result (list nat -> result (list string)).
Variable load_transformer :
  string -> result (list (list Q) -> result (list (list Q))).
Variable load_estimator : string -> result Explainer.Estimator.
Variable load_background : string -> result (list (list Q)).
Variable base_path : string.

Local Abbreviation load :=
  (ModelLoader.load_models path_exists load_encoder load_transformer
     load_estimator load_background base_path).
Local Abbreviation entry_of :=
  (ModelLoader.load_entry load_encoder load_transformer load_estimator).

Lemma load_entry_shape model_path f1 f2 f3 kind display labels background e :
  entry_of model_path f1 f2 f3 kind display labels background = Ret e ->
  Orchestrator.model_type (ModelLoader.artifacts e) = kind /\
  Orchestrator.background_data (ModelLoader.artifacts e) = background /\
  ModelLoader.classes e = labels.
Proof.
  unfold ModelLoader.load_entry. intros H. bind_inv H. inversion H; subst. by simpl.
Qed.

Lemma insert_keeps (models : gmap string ModelLoader.entry) k e key :
  is_Some (models !! key) -> is_Some (<[k := e]> models !! key).
Proof. intros H. apply lookup_insert_is_Some'. by right. Qed.

(** The registry only grows. *)
Lemma load_models_keeps_entries models key :
  is_Some (models !! key) -> is_Some ((load models).1 !! key).
Proof.
  intros Hk. unfold ModelLoader.load_models.
  repeat match goal with
         | |- context [if ?b then _ else _] => destruct b
         | |- context [match ?c with Raise _ => _ | Ret _ => _ end] => destruct c
         end; simpl; repeat apply insert_keeps; exact Hk.
Qed.

Lemma load_models_success models models' :
  load models = (models', true) ->
  exists e1 e2 e3 full,
    models' !! "model_1" = Some e1 /\ models' !! "model_2" = Some e2 /\
    models' !! "model_3" = Some e3 /\
    Orchestrator.model_type (ModelLoader.artifacts e1) = "xgboost" /\
    Orchestrator.model_type (ModelLoader.artifacts e2) = "random_forest" /\
    Orchestrator.model_type (ModelLoader.artifacts e3) = "svm" /\
    Orchestrator.background_data (ModelLoader.artifacts e3) = Some (take 30 full).
Proof.
  unfold ModelLoader.load_models. intros H.
  destruct (negb (path_exists base_path)); [inversion H|].
  destruct (negb (path_exists (ModelLoader.join_path base_path "model_1")));
    [inversion H|].
  destruct (entry_of _ _ _ _ _ _ _ _) as [|e1] eqn:E1; [inversion H|].
  destruct (negb (path_exists (ModelLoader.join_path base_path "model_2")));
    [inversion H|].
  destruct (entry_of (ModelLoader.join_path base_path "model_2") _ _ _ _ _ _ _)
    as [|e2] eqn:E2; [inversion H|].
  destruct (negb (path_exists (ModelLoader.join_path base_path "model_3")));
    [inversion H|].
  destruct (load_background _) as [|full]; [inversion H|].
  destruct (entry_of (ModelLoader.join_path base_path "model_3") _ _ _ _ _ _ _)
    as [|e3] eqn:E3; [inversion H|].
  inversion H; subst. clear H.
  apply load_entry_shape in E1, E2, E3.
  destruct E1 as (T1 & _), E2 as (T2 & _), E3 as (T3 & B3 & _).
  exists e1, e2, e3, full. repeat split; try assumption.
  - rewrite lookup_insert_ne by done. rewrite lookup_insert_ne by done.
    apply lookup_insert_eq.
  - rewrite lookup_insert_ne by done. apply lookup_insert_eq.
  - apply lookup_insert_eq.
Qed.

End LoaderFacts.

(** X18. [load_models] and [health_check] agree: when the loader reports
    success the three models are registered under their keys with the
    families xgboost, random_forest and svm, and the health check is
    true; the background sample kept for the growth model has thirty rows
    at most.  Success or not, a key that was registered before the call
    is registered after it. *)
Theorem successful_load_is_healthy :
  forall (path_exists : string -> bool)
         (load_encoder : string -> Py.result (list nat -> Py.result (list string)))
         (load_transformer :
            string -> Py.result (list (list Q) -> Py.result (list (list Q))))
         (load_estimator : string -> Py.result Explainer.Estimator)
         (load_background : string -> Py.result (list (list Q)))
         (base_path : string) (models : gmap string ModelLoader.entry),
    let after :=
      ModelLoader.load_models path_exists load_encoder load_transformer
        load_estimator load_background base_path models in
    (after.2 = true ->
     ModelLoader.health_check after.1 = true /\
     exists m1 m2 m3 background,
       ModelLoader.get_model after.1 "model_1" = Some m1 /\
       ModelLoader.get_model after.1 "model_2" = Some m2 /\
       ModelLoader.get_model after.1 "model_3" = Some m3 /\
       Orchestrator.model_type m1 = "xgboost" /\
       Orchestrator.model_type m2 = "random_forest" /\
       Orchestrator.model_type m3 = "svm" /\
       Orchestrator.background_data m3 = Some background /\
       length background <= 30) /\
    (forall key, is_Some (models !! key) -> is_Some (after.1 !! key)).
Proof.
  intros until models. intros after. split.
  - intros Hok.
    assert (H : after = (after.1, true)) by (destruct after; simpl in *; congruence).
    apply load_models_success in H.
    destruct H as (e1 & e2 & e3 & full & H1 & H2 & H3 & T1 & T2 & T3 & B3).
    split.
    + apply health_check_true. rewrite H1, H2, H3. by repeat split.
    + exists (ModelLoader.artifacts e1), (ModelLoader.artifacts e2),
             (ModelLoader.artifacts e3), (take 30 full).
      unfold ModelLoader.get_model. rewrite H1, H2, H3. simpl.
      repeat split; try assumption. rewrite length_take. lia.
  - intros key. apply load_models_keeps_entries.
Qed.

Lemma successful_load_is_healthy_witness :
  ModelLoader.health_check
    (ModelLoader.load_models ExamplesExtra.all_paths ExamplesExtra.load_encoder
       ExamplesExtra.load_transformer ExamplesExtra.load_estimator
       ExamplesExtra.load_background "AI_models" ∅).1 = true.
Proof.
  apply (successful_load_is_healthy ExamplesExtra.all_paths ExamplesExtra.load_encoder
           ExamplesExtra.load_transformer ExamplesExtra.load_estimator
           ExamplesExtra.load_background "AI_models" ∅).
  vm_compute. reflexivity.
Defined.

(** X19. A load that fails half-way leaves a registry that is neither
    empty nor healthy: when the folder of the valuation model and its
    three files are there but the folder of the health model is not,
    [load_models] returns false, the valuation model stays registered and
    the health check is false as long as the health model was not
    registered before. *)
Theorem partial_load_is_unhealthy :
  forall (path_exists : string -> bool)
         (load_encoder : string -> Py.result (list nat -> Py.result (list string)))
         (load_transformer :
            string -> Py.result (list (list Q) -> Py.result (list (list Q))))
         (load_estimator : string -> Py.result Explainer.Estimator)
         (load_background : string -> Py.result (list (list Q)))
         (base_path : string) (models : gmap string ModelLoader.entry)
         (entry_1 : ModelLoader.entry),
    path_exists base_path = true ->
    path_exists (ModelLoader.join_path base_path "model_1") = true ->
    ModelLoader.load_entry load_encoder load_transformer load_estimator
      (ModelLoader.join_path base_path "model_1") "label_encoder.pkl"
      "model1_transformer.pkl" "model1_fundamental_valuation.pkl" "xgboost"
      "Valuation Model" ["UNDERVALUED"; "FAIR"; "OVERVALUED"] None = Py.Ret entry_1 ->
    path_exists (ModelLoader.join_path base_path "model_2") = false ->
    models !! "model_2" = None ->
    let after :=
      ModelLoader.load_models path_exists load_encoder load_transformer
        load_estimator load_background base_path models in
    after.2 = false /\
    after.1 = <["model_1" := entry_1]> models /\
    ModelLoader.health_check after.1 = false.
Proof.
  intros until entry_1. intros Hb H1 He H2 Hm after.
  assert (Ha : after = (<["model_1" := entry_1]> models, false)).
  { unfold after, ModelLoader.load_models. by rewrite Hb, H1, He, H2. }
  rewrite Ha. simpl. repeat split.
  apply not_true_is_false. intros Hh. apply health_check_true in Hh.
  destruct Hh as (_ & [e Hh] & _).
  rewrite lookup_insert_ne in Hh by done. congruence.
Qed.

Lemma partial_load_is_unhealthy_witness :
  (ModelLoader.load_models ExamplesExtra.without_model_2 ExamplesExtra.load_encoder
     ExamplesExtra.load_transformer ExamplesExtra.load_estimator
     ExamplesExtra.load_background "AI_models" ∅).2 = false /\
  ModelLoader.health_check
    (ModelLoader.load_models ExamplesExtra.without_model_2 ExamplesExtra.load_encoder
       ExamplesExtra.load_transformer ExamplesExtra.load_estimator
       ExamplesExtra.load_background "AI_models" ∅).1 = false.
Proof.
  edestruct (partial_load_is_unhealthy ExamplesExtra.without_model_2
               ExamplesExtra.load_encoder ExamplesExtra.load_transformer
               ExamplesExtra.load_estimator ExamplesExtra.load_background
               "AI_models" ∅) as (H1 & _ & H3).
  - vm_compute. reflexivity.
  - vm_compute. reflexivity.
  - vm_compute. reflexivity.
  - vm_compute. reflexivity.
  - reflexivity.
  - split; [exact H1|exact H3].
Defined.

(** X20. The background sample the loader keeps is never subsampled: for
    the growth model of a successfully loaded registry, the sampling
    explainer gives the same answer whatever [np.random.choice] would
    return, because at most thirty rows reach it. *)
Theorem loaded_background_is_never_subsampled :
  forall (path_exists : string -> bool)
         (load_encoder : string -> Py.result (list nat -> Py.result (list string)))
         (load_transformer :
            string -> Py.result (list (list Q) -> Py.result (list (list Q))))
         (load_estimator : string -> Py.result Explainer.Estimator)
         (load_background : string -> Py.result (list (list Q)))
         (base_path : string) (models models' : gmap string ModelLoader.entry)
         (kernel_explainer : Type)
         (KernelExplainer :
            (list (list Q) -> Py.result (list (list Q))) -> list (list Q) ->
            Py.result kernel_explainer)
         (kernel_shap_values :
            kernel_explainer -> list (list Q) -> nat -> Py.result Explainer.shap_output)
         (random_choice other_choice : nat -> nat -> Py.result (list nat))
         (m3 : Orchestrator.ModelData) (background features_transformed : list (list Q))
         (feature_names : list string) (feature_values : list Q),
    ModelLoader.load_models path_exists load_encoder load_transformer
      load_estimator load_background base_path models = (models', true) ->
    ModelLoader.get_model models' "model_3" = Some m3 ->
    Orchestrator.background_data m3 = Some background ->
    Explainer.explain_with_shap_kernel kernel_explainer KernelExplainer
      kernel_shap_values random_choice (Orchestrator.model m3) background
      features_transformed feature_names feature_values =
    Explainer.explain_with_shap_kernel kernel_explainer KernelExplainer
      kernel_shap_values other_choice (Orchestrator.model m3) background
      features_transformed feature_names feature_values.
Proof.
  intros until feature_values. intros Hl Hg Hb.
  apply load_models_success in Hl.
  destruct Hl as (e1 & e2 & e3 & full & _ & _ & H3 & _ & _ & _ & B3).
  unfold ModelLoader.get_model in Hg. rewrite H3 in Hg. simpl in Hg.
  inversion Hg; subst m3. rewrite B3 in Hb. inversion Hb; subst background.
  apply kernel_small_background_ignores_random_choice.
  rewrite length_take. lia.
Qed.

Lemma loaded_background_is_never_subsampled_witness :
  exists m3 background,
    ModelLoader.get_model
      (ModelLoader.load_models ExamplesExtra.all_paths ExamplesExtra.load_encoder
         ExamplesExtra.load_transformer ExamplesExtra.load_estimator
         ExamplesExtra.load_background "AI_models" ∅).1 "model_3" = Some m3 /\
    Orchestrator.background_data m3 = Some background /\
    Explainer.explain_with_shap_kernel unit Examples.KernelExplainer
      Examples.kernel_shap_values Examples.random_choice (Orchestrator.model m3)
      background [[1; 2; 3; 4; 5; 6; 7; 8; 9]%Q] Features.model_3_feature_names
      [1; 2; 3; 4; 5; 6; 7; 8; 9]%Q =
    Explainer.explain_with_shap_kernel unit Examples.KernelExplainer
      Examples.kernel_shap_values (fun _ _ => Py.Raise (Py.ValueError "no sample"))
      (Orchestrator.model m3)
      background [[1; 2; 3; 4; 5; 6; 7; 8; 9]%Q] Features.model_3_feature_names
      [1; 2; 3; 4; 5; 6; 7; 8; 9]%Q.
Proof.
  set (L := ModelLoader.load_models ExamplesExtra.all_paths ExamplesExtra.load_encoder
              ExamplesExtra.load_transformer ExamplesExtra.load_estimator
              ExamplesExtra.load_background "AI_models" ∅).
  assert (E : L = (L.1, true)).
  { assert (E2 : L.2 = true) by (vm_compute; reflexivity).
    destruct L as [m b]. simpl in *. by rewrite E2. }
  destruct (ModelLoader.get_model L.1 "model_3") as [m3|] eqn:Hg;
    [|vm_compute in Hg; discriminate Hg].
  destruct (Orchestrator.background_data m3) as [background|] eqn:Hb.
  - exists m3, background. split; [reflexivity|]. split; [exact Hb|].
    exact (loaded_background_is_never_subsampled _ _ _ _ _ _ _ _ _ _ _ _ _ _ _ _ _ _
             E Hg Hb).
  - exfalso. vm_compute in Hg. inversion Hg; subst m3. discriminate Hb.
Defined.


(** ** History list *)

Section HistoryPageFacts.
Import HistoryPage.

Lemma rows_of_elem db user_id row :
  row ∈ rows_of db user_id <->
  Db.predictions db !! row.1 = Some row.2 /\ Prediction.user_id row.2 = user_id.
Proof.
  unfold rows_of. rewrite list_elem_of_filter. destruct row as [k p]. simpl.
  rewrite elem_of_map_to_list. naive_solver.
Qed.

Lemma rows_of_NoDup db user_id : NoDup (rows_of db user_id).*1.
Proof.
  unfold rows_of.
  apply (sublist_NoDup _ (map_to_list (Db.predictions db)).*1).
  - apply NoDup_fst_map_to_list.
  - apply fmap_sublist, sublist_filter.
Qed.

End HistoryPageFacts.

(** X21. A page of the history shows a user their own predictions only.
    Whatever order the database returns (any permutation of the user's
    rows), [get_user_predictions] answers 200 with min(limit, total -
    skip) items, no id twice, each item taken from a stored prediction of
    that user under that id; the total is the number of the user's
    predictions, whatever the page. *)
Theorem history_page_is_own_and_bounded :
  forall (isoformat : Prediction.datetime -> string)
         (order_by_created_at_desc : list (Z * Prediction.t) -> list (Z * Prediction.t))
         (db : Db.t) (user_id : Z) (skip limit : nat),
    (forall rows, Permutation (order_by_created_at_desc rows) rows) ->
    exists page,
      HistoryPage.get_user_predictions isoformat order_by_created_at_desc
        db user_id skip limit = Py.Ret (Ok page) /\
      HistoryPage.total page = length (HistoryPage.rows_of db user_id) /\
      length (HistoryPage.items page) = Nat.min limit (HistoryPage.total page - skip) /\
      NoDup (map HistoryPage.id (HistoryPage.items page)) /\
      Forall (fun item =>
                exists p,
                  Db.predictions db !! HistoryPage.id item = Some p /\
                  Prediction.user_id p = user_id /\
                  HistoryPage.ticker item = Prediction.ticker p /\
                  HistoryPage.final_recommendation item = Prediction.final_recommendation p /\
                  HistoryPage.final_confidence item = Prediction.final_confidence p)
             (HistoryPage.items page).
Proof.
  intros isoformat order db user_id skip limit Hperm.
  eexists. split; [reflexivity|]. simpl.
  unfold HistoryPage.repo_get_user_predictions, HistoryPage.repo_get_user_prediction_count.
  set (rows := HistoryPage.rows_of db user_id).
  assert (Hsub : take limit (drop skip (order rows)) `sublist_of` order rows).
  { etrans; [apply sublist_take|apply sublist_drop]. }
  split; [reflexivity|]. split; [|split].
  - rewrite length_map, length_take, length_drop, (Permutation_length (Hperm rows)). lia.
  - rewrite map_map. simpl.
    change (map (fun x : Z * Prediction.t => x.1) (take limit (drop skip (order rows))))
      with ((take limit (drop skip (order rows))).*1).
    apply (sublist_NoDup _ (order rows).*1); [|by apply fmap_sublist].
    rewrite (Hperm rows). apply rows_of_NoDup.
  - apply Forall_forall. intros item Hi.
    apply list_elem_of_fmap in Hi. destruct Hi as (row & -> & Hrow).
    assert (Hin : row ∈ rows).
    { rewrite <- (Hperm rows). by eapply elem_of_sublist. }
    apply rows_of_elem in Hin. destruct Hin as [Hl Hu].
    exists row.2. by repeat split.
Qed.

Lemma history_page_is_own_and_bounded_witness :
  exists page,
    HistoryPage.get_user_predictions Examples.isoformat ExamplesExtra.stored_order
      ExamplesExtra.db_three 1 0 10 = Py.Ret (Ok page) /\
    HistoryPage.total page = 2 /\ length (HistoryPage.items page) = 2.
Proof.
  destruct (history_page_is_own_and_bounded Examples.isoformat
              ExamplesExtra.stored_order ExamplesExtra.db_three 1 0 10)
    as (page & H & Ht & Hl & _).
  - intros rows. reflexivity.
  - exists page. split; [exact H|].
    assert (Ht' : HistoryPage.total page = 2) by (rewrite Ht; vm_compute; reflexivity).
    split; [exact Ht'|]. rewrite Hl, Ht'. reflexivity.
Defined.

(** ** The unused importance helper *)

Section SimpleShapFacts.
Import SimpleShap.

Lemma fit_length_length (a : list Q) (n : nat) : length (fit_length a n) = n.
Proof.
  unfold fit_length. destruct (length a =? n)%nat eqn:E1.
  - by apply Nat.eqb_eq.
  - destruct (length a <? n)%nat eqn:E2.
    + apply Nat.ltb_lt in E2. rewrite length_app, length_replicate. lia.
    + apply Nat.ltb_ge in E2. rewrite length_take. lia.
Qed.

Lemma fit_length_lookup (a : list Q) (n i : nat) :
  i < n -> fit_length a n !! i = Some (default 0%Q (a !! i)).
Proof.
  intros Hi. unfold fit_length. destruct (length a =? n)%nat eqn:E1.
  - apply Nat.eqb_eq in E1.
    destruct (lookup_lt_is_Some_2 a i ltac:(lia)) as [x Hx]. by rewrite Hx.
  - destruct (length a <? n)%nat eqn:E2.
    + apply Nat.ltb_lt in E2. destruct (decide (i < length a)) as [Hl|Hl].
      * destruct (lookup_lt_is_Some_2 a i Hl) as [x Hx].
        by rewrite lookup_app_l, Hx.
      * rewrite lookup_app_r by lia. rewrite lookup_replicate_2 by lia.
        by rewrite (lookup_ge_None_2 a i) by lia.
    + apply Nat.ltb_ge in E2. rewrite lookup_take_lt by lia.
      destruct (lookup_lt_is_Some_2 a i ltac:(lia)) as [x Hx]. by rewrite Hx.
Qed.

End SimpleShapFacts.

(** X22. [_calculate_simple_shap] always answers with one score per
    feature name when the model has importances or a coefficient vector:
    the vector it returns has exactly len(feature_names) entries, entry i
    being importance i (the absolute value of coefficient i), or 0 where
    the model has no such entry. *)
Theorem simple_shap_has_one_score_per_name :
  forall (model : Explainer.Estimator) (features : list (list Q))
         (feature_names : list string),
    (forall importances,
       Explainer.feature_importances_ model = Some importances ->
       exists scores,
         SimpleShap._calculate_simple_shap model features feature_names =
           Py.Ret (Explainer.Arr1 scores) /\
         length scores = length feature_names /\
         forall i, i < length feature_names ->
                   scores !! i = Some (default 0%Q (importances !! i))) /\
    (forall coefs,
       Explainer.feature_importances_ model = None ->
       Explainer.coef_ model = Some (Explainer.Arr1 coefs) ->
       exists scores,
         SimpleShap._calculate_simple_shap model features feature_names =
           Py.Ret (Explainer.Arr1 scores) /\
         length scores = length feature_names /\
         forall i, i < length feature_names ->
                   scores !! i = Some (Qabs (default 0%Q (coefs !! i)))).
Proof.
  intros model features names. split.
  - intros imp Hi. eexists. split; [|split].
    + unfold SimpleShap._calculate_simple_shap. rewrite Hi. reflexivity.
    + apply fit_length_length.
    + intros i Hlt. by apply fit_length_lookup.
  - intros coefs Hi Hc. eexists. split; [|split].
    + unfold SimpleShap._calculate_simple_shap. rewrite Hi, Hc. reflexivity.
    + rewrite length_map. apply fit_length_length.
    + intros i Hlt. rewrite list_lookup_fmap, fit_length_lookup by exact Hlt.
      reflexivity.
Qed.

Lemma simple_shap_has_one_score_per_name_witness :
  exists scores,
    SimpleShap._calculate_simple_shap ExamplesExtra.three_importances
      [[15; 1.2; 18; 0.4; 12]%Q] Features.model_1_feature_names =
    Py.Ret (Explainer.Arr1 scores) /\
    length scores = 5.
Proof.
  destruct (proj1 (simple_shap_has_one_score_per_name ExamplesExtra.three_importances
                     [[15; 1.2; 18; 0.4; 12]%Q] Features.model_1_feature_names)
                  [0.5; 0.3; 0.2]%Q) as (scores & H & Hl & _).
  - reflexivity.
  - exists scores. split; [exact H|exact Hl].
Defined.
